(** * VRGDA curve plotting scripts: a shallow embedding

    The repository holds four standalone Python scripts that read a
    precomputed curve (energy level vs. love multiplier) from a CSV file
    and render it:

    - [analysis/python/plot_vrgda_curve.py]       (matplotlib, module [Plot])
    - [script/python/generate_vrgda_chart.py]     (SVG + HTML, module [Chart])
    - [script/python/generate_vrgda_png.py]       (PIL or a hand-written
                                                   rasterizer, module [Png])
    - [script/python/plot_vrgda_curve_simple.py]  (character art, module [Simple])

    Numbers.  Python floats are modelled by the real numbers [R]: every
    arithmetic operation is the exact one, [float('inf')] is a separate
    constructor, and NaN does not exist.  Rounding is therefore outside
    the model, and so is the overflow of a double: a statement that a
    script runs to the end bounds the multipliers, and where rounding
    decides a property (the strict order of two columns) the expression
    is evaluated on binary64 floats, in module [Float64].  Python ints
    are [Z].  Operations that raise in Python
    ([math.log10] of a non-positive number, division by zero, a list index
    out of range, [float] of a malformed string, [open] of a missing file)
    return in the error monad [res]. *)

From Stdlib Require Import Reals Lra Lia ZArith List Ascii String.
From stdpp Require Import base option list gmap strings.
From Corelib Require PrimFloat.
Import ListNotations.

Local Open Scope R_scope.

(** A Python int used in float arithmetic is converted silently. *)
#[global] Coercion IZR : Z >-> R.

(** ** Python runtime: exceptions, floats, ints *)

#[global] Instance Rlt_decision (x y : R) : Decision (x < y) := Rlt_dec x y.
#[global] Instance Rle_decision (x y : R) : Decision (x <= y) := Rle_dec x y.
#[global] Instance Rge_decision (x y : R) : Decision (x >= y) := Rge_dec x y.
#[global] Instance Rgt_decision (x y : R) : Decision (x > y) := Rgt_dec x y.
#[global] Instance Req_decision : EqDecision R := Req_dec_T.

Module Py.

Inductive exn : Type :=
| FileNotFoundError
| PermissionError
| KeyError (key : string)
| TypeError
| ValueError
| ZeroDivisionError
| IndexError.

Inductive res (A : Type) : Type :=
| Ok (a : A)
| Raise (e : exn).
Arguments Ok {A} a.
Arguments Raise {A} e.

#[global] Instance res_ret : MRet res := fun A a => Ok a.
#[global] Instance res_bind : MBind res := fun A B f m =>
  match m with
  | Ok a => f a
  | Raise e => Raise e
  end.

(** [math.log] and [math.log10]: a [ValueError] on a non-positive argument. *)
Definition log10r (x : R) : R := ln x / ln 10.

Definition log (x : R) : res R :=
  if Rlt_dec 0 x then Ok (ln x) else Raise ValueError.

Definition log10 (x : R) : res R :=
  if Rlt_dec 0 x then Ok (log10r x) else Raise ValueError.

(** True division [a / b]. *)
Definition div (a b : R) : res R :=
  if Req_dec_T b 0 then Raise ZeroDivisionError else Ok (a / b).

(** [int(r)] truncates toward zero. *)
Definition int (r : R) : Z :=
  if Rle_dec 0 r then Int_part r else (- Int_part (- r))%Z.

(** [range(a, b)] on ints. *)
Definition range (a b : Z) : list Z :=
  map (fun k => (a + Z.of_nat k)%Z) (seq 0 (Z.to_nat (b - a))).
#[global] Arguments range : simpl never.

(** [float('inf')] next to the finite values. *)
Inductive ext : Type :=
| Fin (r : R)
| Inf.

(** [d < m] where [d] is finite and [m] may be [float('inf')]. *)
Definition lt_ext (d : R) (m : ext) : bool :=
  match m with
  | Fin r => bool_decide (d < r)
  | Inf => true
  end.

(** [min(l)] and [max(l)]: a [ValueError] on the empty list. *)
Definition min_list (l : list R) : res R :=
  match l with
  | [] => Raise ValueError
  | x :: l' => Ok (fold_left Rmin l' x)
  end.

Definition max_list (l : list R) : res R :=
  match l with
  | [] => Raise ValueError
  | x :: l' => Ok (fold_left Rmax l' x)
  end.

(** [l[i]] for a non-negative index. *)
Definition index {A} (l : list A) (i : nat) : res A :=
  match l !! i with
  | Some a => Ok a
  | None => Raise IndexError
  end.

End Py.
Import Py.

(** ** Console and file output

    A script's observable behaviour is the sequence of its [print] calls
    and file writes, and how it ends: normally or with an uncaught
    exception.  A line of text is kept as the pieces of its f-string, so
    a formatted number is the number with its format specification. *)

Module IO.

#[warnings="-register-all"]
Inductive token : Type :=
| Str (s : string)
| Int (z : Z)
| Float (spec : string) (r : R)
| Padded (spec : string) (inner : list token)
| Newline.

Definition line : Type := list token.

(** [Stdout l true] is [print(l)]; [Stdout l false] is [print(l, end="")].
    [FileWrite p c] is [open(p, 'w')] followed by one [write] of [c] (or
    a library call that saves [c] under [p]): the file is replaced. *)
Inductive event (F : Type) : Type :=
| Stdout (l : line) (newline : bool)
| FileWrite (path : string) (content : F)
| FileRemove (path : string).
Arguments Stdout {F} l newline.
Arguments FileWrite {F} path content.
Arguments FileRemove {F} path.

Record io (F A : Type) : Type := Run {
  trace : list (event F);
  result : res A
}.
Arguments Run {F A} trace result.
Arguments trace {F A} _.
Arguments result {F A} _.

#[global] Instance io_ret F : MRet (io F) := fun A a => Run [] (Ok a).
#[global] Instance io_bind F : MBind (io F) := fun A B f m =>
  match result m with
  | Ok a => Run (trace m ++ trace (f a)) (result (f a))
  | Raise e => Run (trace m) (Raise e)
  end.

Definition lift {F A} (m : res A) : io F A := Run [] m.
Definition print {F} (l : line) : io F unit := Run [Stdout l true] (Ok tt).
Definition print_noline {F} (l : line) : io F unit := Run [Stdout l false] (Ok tt).
Definition write_file {F} (path : string) (content : F) : io F unit :=
  Run [FileWrite path content] (Ok tt).

(** [for a in l: body(a)] *)
Fixpoint for_each {F A} (l : list A) (body : A -> io F unit) : io F unit :=
  match l with
  | [] => mret tt
  | a :: l' => body a ≫= fun _ => for_each l' body
  end.

Definition is_write {F} (e : event F) : bool :=
  match e with
  | FileWrite _ _ => true
  | _ => false
  end.


(** The numbers a line shows. *)
Fixpoint numbers (l : line) : list R :=
  match l with
  | [] => []
  | Float _ r :: l' => r :: numbers l'
  | _ :: l' => numbers l'
  end.

End IO.
Import IO.

(** ** The dataset loader

    The same five lines open every script ([plot_vrgda_curve.py] 17-24,
    [generate_vrgda_chart.py] 16-24, [generate_vrgda_png.py] 24-32,
    [plot_vrgda_curve_simple.py] 16-23). *)

Module Loader.

(** A row as [csv.DictReader] yields it: a dict from the header's field
    names to the row's fields; a field the row is too short for is [None]. *)
Abbreviation row := (gmap string (option string)).

(** What [open(csv_path, 'r')] finds. *)
Inductive source : Type :=
| Missing
| Unreadable
| Readable (rows : list row).

Definition open_csv (s : source) : res (list row) :=
  match s with
  | Missing => Raise FileNotFoundError
  | Unreadable => Raise PermissionError
  | Readable rows => Ok rows
  end.

(** [row[key]] *)
Definition getitem (r : row) (key : string) : res (option string) :=
  match r !! key with
  | Some v => Ok v
  | None => Raise (KeyError key)
  end.

Section Float.

(** Python's [float] on a string: the number it denotes, if any. *)
Variable parse_float : string -> option R.

Definition float (v : option string) : res R :=
  match v with
  | None => Raise TypeError
  | Some s =>
      match parse_float s with
      | Some r => Ok r
      | None => Raise ValueError
      end
  end.

(** [for row in reader: eth_amounts.append(...); love_multipliers.append(...)] *)
Fixpoint read_rows (rows : list row) (eth_amounts love_multipliers : list R)
  : res (list R * list R) :=
  match rows with
  | [] => Ok (eth_amounts, love_multipliers)
  | r :: rest =>
      x ← getitem r "eth_amount" ≫= float;
      y ← getitem r "love_multiplier" ≫= float;
      read_rows rest (eth_amounts ++ [x]) (love_multipliers ++ [y])
  end.

Definition load (s : source) : res (list R * list R) :=
  rows ← open_csv s;
  read_rows rows [] [].

End Float.

End Loader.
Import Loader.

(** ** Files

    A file system maps a path to a file: the dataset, a file that cannot
    be opened, or an artifact some script wrote.  Directories are not
    modelled ([os.makedirs(..., exist_ok=True)] always succeeds), and a
    write always succeeds. *)

Module FS.

Inductive file (F : Type) : Type :=
| Dataset (rows : list row)
| Locked
| Artifact (content : F).
Arguments Dataset {F} rows.
Arguments Locked {F}.
Arguments Artifact {F} content.

(** [open(path, 'r')] handed to [csv.DictReader].  An artifact read back
    as a dataset has rows, and none has the dataset's fields. *)
Definition open_read {F} (m : gmap string (file F)) (path : string) : source :=
  match m !! path with
  | None => Missing
  | Some Locked => Unreadable
  | Some (Dataset rows) => Readable rows
  | Some (Artifact _) => Readable [∅]
  end.

Definition apply_event {F} (m : gmap string (file F)) (e : event F)
  : gmap string (file F) :=
  match e with
  | Stdout _ _ => m
  | FileWrite path content => <[path := Artifact content]> m
  | FileRemove path => delete path m
  end.

(** The file system after the writes and removals of a trace. *)
Definition commit {F} (tr : list (event F)) (m : gmap string (file F))
  : gmap string (file F) :=
  foldl apply_event m tr.

(** The path an event writes or removes, and what the event leaves at
    a path [p] that held [before]. *)
Definition target {F} (e : event F) : option string :=
  match e with
  | Stdout _ _ => None
  | FileWrite path _ => Some path
  | FileRemove path => Some path
  end.

Definition effect {F} (e : event F) (p : string) (before : option (file F))
  : option (file F) :=
  match e with
  | Stdout _ _ => before
  | FileWrite path content => if decide (path = p) then Some (Artifact content) else before
  | FileRemove path => if decide (path = p) then None else before
  end.

Fixpoint last_effect {F} (tr : list (event F)) (p : string)
    (before : option (file F)) : option (file F) :=
  match tr with
  | [] => before
  | e :: tr' => last_effect tr' p (effect e p before)
  end.

(** [os.path.join(a, b)] for a relative [b]. *)
Definition ends_with_slash (a : string) : bool :=
  match last (String.list_ascii_of_string a) with
  | Some c => bool_decide (c = "/"%char)
  | None => false
  end.

Definition join (a b : string) : string :=
  if bool_decide (a = "") then b
  else if ends_with_slash a then a +:+ b
  else a +:+ "/" +:+ b.

(** How many characters [join] puts between its arguments. *)
Definition separator (a : string) : nat :=
  if bool_decide (a = "") then 0 else if ends_with_slash a then 0 else 1.

(** One run of a script: it reads the dataset at [csv_path], and its
    trace is committed to the file system. *)
Definition exec {F A} (script : source -> io F A) (csv_path : string)
    (m : gmap string (file F)) : gmap string (file F) :=
  commit (trace (script (open_read m csv_path))) m.

End FS.
Import FS.

(** ** Chart geometry and the log-scale coordinate mapping

    [generate_vrgda_chart.py] lines 27-31 and [generate_vrgda_png.py]
    lines 36-39 and 158-161 set the same dimensions; the mapping
    expression is repeated verbatim at every use (chart lines 57, 58, 75,
    82, 91, 120; png lines 74, 75, 92, 99, 142, 177, 178, 201). *)

Module Mapper.

Definition width : Z := 800.
Definition height : Z := 600.
Definition margin : Z := 60.
Definition chart_width : Z := width - 2 * margin.
Definition chart_height : Z := height - 2 * margin.

(** [margin + (math.log10(eth) - math.log10(0.0001)) /
     (math.log10(200) - math.log10(0.0001)) * chart_width] *)
Definition map_x (eth : R) : res R :=
  a ← log10 eth;
  b ← log10 0.0001;
  c ← log10 200;
  d ← log10 0.0001;
  q ← div (a - b) (c - d);
  mret (margin + q * chart_width).

(** [margin + (10 - mult) * chart_height / 10] *)
Definition map_y (mult : R) : R :=
  margin + (10 - mult) * chart_height / 10.

(** [margin + ((math.log10(start) + math.log10(end)) / 2 - math.log10(0.0001)) /
     (math.log10(200) - math.log10(0.0001)) * chart_width] *)
Definition x_center (start end_ : R) : res R :=
  a ← log10 start;
  b ← log10 end_;
  c ← log10 0.0001;
  d ← log10 200;
  e ← log10 0.0001;
  q ← div ((a + b) / 2 - c) (d - e);
  mret (margin + q * chart_width).



End Mapper.

(** ** The mapping on doubles

    The scripts evaluate the mapping in IEEE double precision.
    [Float64] repeats the two expressions on the kernel's binary64
    floats, operation by operation and in the source's order.
    [math.log10] is the C library's function, not code of the
    repository: it is the parameter [log10], and a statement names the
    values of it that it relies on. *)

Module Float64.
Import PrimFloat.

(** [margin], [chart_width] and [chart_height], converted to floats by
    the arithmetic: 60.0, 680.0 and 480.0. *)
Definition margin : PrimFloat.float := 60%float.
Definition chart_width : PrimFloat.float := 680%float.
Definition chart_height : PrimFloat.float := 480%float.

(** The literals [0.0001] and [200].  0.0001 is no double; Python reads
    the literal as the closest one, written here in hexadecimal. *)
Definition x_min : PrimFloat.float := 0x1.a36e2eb1c432dp-14%float.
Definition x_max : PrimFloat.float := 200%float.

(** [margin + (math.log10(eth) - math.log10(0.0001)) /
     (math.log10(200) - math.log10(0.0001)) * chart_width] *)
Definition map_x (log10 : PrimFloat.float -> PrimFloat.float) (eth : PrimFloat.float)
  : PrimFloat.float :=
  (margin + (log10 eth - log10 x_min) / (log10 x_max - log10 x_min) * chart_width)%float.

(** [margin + (10 - mult) * chart_height / 10] *)
Definition map_y (mult : PrimFloat.float) : PrimFloat.float :=
  (margin + (10 - mult) * chart_height / 10)%float.

(** The double after 1, [1.0000000000000002], and the value
    [9.64327466553287e-17] that [math.log10] returns for it. *)
Definition after_one : PrimFloat.float := 0x1.0000000000001p+0%float.
Definition log10_after_one : PrimFloat.float := 0x1.bcb7b1526e50dp-54%float.

(** A function with the values of [math.log10] at the four arguments
    the examples use: -4.0 at 0.0001, 2.3010299956639813 at 200, 0.0 at
    1 and [log10_after_one] at [after_one]. *)
Definition log10_table (x : PrimFloat.float) : PrimFloat.float :=
  if (x =? x_min)%float then (-4)%float
  else if (x =? x_max)%float then 0x1.268826a13ef40p+1%float
  else if (x =? after_one)%float then log10_after_one
  else 0%float.

End Float64.

(** ** [analysis/python/plot_vrgda_curve.py] *)

Module Plot.

(** What the script hands to matplotlib, call by call; colours, fonts and
    other styling arguments are left out. *)
Inductive artist : Type :=
| Curve (xs ys : list R)
| AxHLine (y : R) (label : string)
| AxVSpan (x0 x1 : R)
| Text (x y : R) (s : string)
| Annotate (label : string) (xy xytext : R * R).

Inductive artifact : Type :=
| Png (fig : list artist)
| Pdf (fig : list artist).

Definition zones : list (R * string) :=
  [(0.001, "Starving"); (0.1, "Hungry"); (1, "Fed"); (10, "Well-Fed");
   (100, "Overfed")].

(** Lines 61-72: shade each zone and label it at the top. *)
Definition label_x (prev_x x : R) : R :=
  if bool_decide (prev_x < 1) then sqrt (prev_x * x) else (prev_x + x) / 2.

Fixpoint shade_zones (prev_x : R) (zs : list (R * string)) : list artist :=
  match zs with
  | [] => []
  | (x, label) :: rest =>
      AxVSpan prev_x x :: Text (label_x prev_x x) 10.5 label
        :: shade_zones x rest
  end.

Definition key_points : list (R * R * string) :=
  [(0.001, 10, "10x"); (0.1, 7.38, "7.4x"); (1, 5.46, "5.5x");
   (10, 3.48, "3.5x"); (50, 2.34, "2.3x"); (100, 0.1, "0.1x")].

(** Lines 90-96: the scan for the sample closest to [x].  [i] counts the
    samples already seen; [min_diff] and [actual_y] are the loop's two
    variables. *)
Fixpoint closest_scan (x : R) (love_multipliers : list R) (i : nat)
    (eths : list R) (min_diff : ext) (actual_y : R) : res R :=
  match eths with
  | [] => Ok actual_y
  | eth :: rest =>
      if lt_ext (Rabs (eth - x)) min_diff then
        y ← index love_multipliers i;
        closest_scan x love_multipliers (S i) rest (Fin (Rabs (eth - x))) y
      else
        closest_scan x love_multipliers (S i) rest min_diff actual_y
  end.

Definition actual_y (eth_amounts love_multipliers : list R) (x y_target : R)
  : res R :=
  closest_scan x love_multipliers 0 eth_amounts Inf y_target.

Definition annotate (eth_amounts love_multipliers : list R)
    (kp : R * R * string) : res artist :=
  let '(x, y_target, label) := kp in
  y ← actual_y eth_amounts love_multipliers x y_target;
  mret (Annotate label (x, y) (x, y + 0.5)).

Definition figure (eth_amounts love_multipliers : list R) : res (list artist) :=
  notes ← mapM (annotate eth_amounts love_multipliers) key_points;
  mret ([Curve eth_amounts love_multipliers;
         AxHLine 10 "Max multiplier (10x)";
         AxHLine 5.5 "Equilibrium (~5.5x)";
         AxHLine 0.1 "Min multiplier (0.1x)"]
        ++ shade_zones 0.0001 zones
        ++ [AxVSpan 100 200; Text 140 10.5 "Extreme"]
        ++ notes).

(** Lines 126-136: the two loops that report where the multiplier first
    drops below a threshold ([5], then [1]); the loop stops at the first
    match ([break]).  [i] counts the samples already seen. *)
Fixpoint drops_below (threshold : R) (text : string) (eth_amounts : list R)
    (i : nat) (mults : list R) : io artifact unit :=
  match mults with
  | [] => mret tt
  | mult :: rest =>
      if bool_decide (mult < threshold) then
        eth ← lift (index eth_amounts i);
        print [Str text; Float ".1f" eth; Str " ETH"]
      else drops_below threshold text eth_amounts (S i) rest
  end.

(** Lines 118-124. *)
Definition summary (eth_amounts love_multipliers : list R) : io artifact unit :=
  print [Newline; Str "VRGDA Curve Summary:"];;
  lo ← lift (min_list eth_amounts);
  print [Str "Minimum ETH: "; Float ".4f" lo];;
  hi ← lift (max_list eth_amounts);
  print [Str "Maximum ETH: "; Float ".0f" hi];;
  top ← lift (max_list love_multipliers);
  print [Str "Maximum multiplier: "; Float ".1f" top; Str "x"];;
  bottom ← lift (min_list love_multipliers);
  print [Str "Minimum multiplier: "; Float ".1f" bottom; Str "x"].

Section Main.
Variable parse_float : string -> option R.

Definition main (src : source) : io artifact unit :=
  '(eth_amounts, love_multipliers) ← lift (load parse_float src);
  fig ← lift (figure eth_amounts love_multipliers);
  write_file "vrgda_curve_chart.png" (Png fig);;
  print [Str "Chart saved to: "; Str "vrgda_curve_chart.png"];;
  write_file "vrgda_curve_chart.pdf" (Pdf fig);;
  print [Str "PDF version saved to: "; Str "vrgda_curve_chart.pdf"];;
  summary eth_amounts love_multipliers;;
  drops_below 5 "Multiplier drops below 5x at: " eth_amounts 0 love_multipliers;;
  drops_below 1 "Multiplier drops below 1x at: " eth_amounts 0 love_multipliers.

End Main.

End Plot.

(** ** [script/python/generate_vrgda_chart.py] *)

Module Chart.
Import Mapper.

(** The SVG document, element by element; stroke styles, font sizes and
    opacities are left out. *)
Inductive elem : Type :=
| Rect (x y w h : R) (fill : string)
| Line (x1 y1 x2 y2 : R) (stroke : string)
| Label (x y : R) (text : line)
| Polyline (points : list (R * R))
| Circle (cx cy r : R).

Inductive artifact : Type :=
| Svg (svg : list elem)
| Html (svg : list elem).

Definition zones : list (R * R * string * string) :=
  [(0.0001, 0.001, "#FFE5E5", "Starving");
   (0.001, 0.1, "#FFF0E5", "Hungry");
   (0.1, 1, "#E5F5E5", "Fed");
   (1, 10, "#E5E5FF", "Well-Fed");
   (10, 100, "#F0E5FF", "Overfed");
   (100, 200, "#FFE5E5", "Extreme")].

(** Lines 55-62. *)
Definition zone_rect (z : R * R * string * string) : res elem :=
  let '(start, end_, color, label) := z in
  x1 ← map_x start;
  x2 ← map_x end_;
  mret (Rect x1 margin (x2 - x1) chart_height color).

(** Lines 65-70. *)
Definition grid_line (i : Z) : list elem :=
  let y := margin + i * chart_height / 10 in
  let mult := (10 - i)%Z in
  [Line margin y (margin + chart_width)%Z y "#ddd";
   Label (margin - 10)%Z (y + 5) [Int mult; Str "x"]].

Definition x_labels : list R := [0.0001; 0.001; 0.01; 0.1; 1; 10; 100].

(** Lines 74-77. *)
Definition x_label (eth : R) : res (list elem) :=
  x ← map_x eth;
  mret [Line x margin x (margin + chart_height)%Z "#ddd";
        Label x (margin + chart_height + 20)%Z [Float "" eth]].

(** Lines 80-84 and 90-93: the same mapping, once for the polyline and
    once for the circles. *)
Definition point (sample : R * R) : res (R * R) :=
  let '(eth, mult) := sample in
  x ← map_x eth;
  let y := map_y mult in
  mret (x, y).

Definition circle (sample : R * R) : res elem :=
  let '(eth, mult) := sample in
  x ← map_x eth;
  let y := map_y mult in
  mret (Circle x y 3).

(** Lines 119-121. *)
Definition zone_label (z : R * R * string * string) : res elem :=
  let '(start, end_, color, label) := z in
  c ← x_center start end_;
  mret (Label c (margin - 10)%Z [Str label]).

Definition build_svg (eth_amounts love_multipliers : list R) : res (list elem) :=
  rects ← mapM zone_rect zones;
  ticks ← mapM x_label x_labels;
  points ← mapM point (zip eth_amounts love_multipliers);
  circles ← mapM circle (zip eth_amounts love_multipliers);
  labels ← mapM zone_label zones;
  mret ([Rect 0 0 width height "white";
         Label (width / 2) 30 [Str "Aminal VRGDA Love Curve"];
         Rect margin margin chart_width chart_height "none"]
        ++ rects
        ++ concat (map grid_line (range 0 11))
        ++ concat ticks
        ++ [Polyline points]
        ++ circles
        ++ [Line margin margin (margin + chart_width)%Z margin "green";
            Label (margin + chart_width + 10)%Z (margin + 5)%Z [Str "Max (10x)"];
            Line margin (margin + chart_height * 0.45)
                 (margin + chart_width)%Z (margin + chart_height * 0.45) "orange";
            Label (margin + chart_width + 10)%Z (margin + chart_height * 0.45 + 5)
                  [Str "Equilibrium (~5.5x)"];
            Line margin (margin + chart_height * 0.99)
                 (margin + chart_width)%Z (margin + chart_height * 0.99) "red";
            Label (margin + chart_width + 10)%Z (margin + chart_height * 0.99 + 5)
                  [Str "Min (0.1x)"];
            Label (width / 2) (height - 10)%Z [Str "Energy Level (ETH)"];
            Label 20 (height / 2) [Str "Love Multiplier"]]
        ++ labels).

Section Main.
Variable parse_float : string -> option R.
(** [os.path.dirname(script_dir)] *)
Variable parent_dir : string.

Definition csv_path : string := join parent_dir "vrgda_curve_data.csv".
Definition output_dir : string := join parent_dir "output".
Definition svg_path : string := join output_dir "vrgda_curve_chart.svg".
Definition html_path : string := join output_dir "vrgda_curve_chart.html".

Definition main (src : source) : io artifact unit :=
  '(eth_amounts, love_multipliers) ← lift (load parse_float src);
  svg ← lift (build_svg eth_amounts love_multipliers);
  write_file svg_path (Svg svg);;
  print [Str "SVG chart saved to: "; Str svg_path];;
  write_file html_path (Html svg);;
  print [Str "HTML chart saved to: "; Str html_path];;
  print [Newline;
         Str "You can open the HTML file in a web browser to view the interactive chart."].

End Main.

End Chart.

(** ** [script/python/generate_vrgda_png.py] *)

Module Png.
Import Mapper.

Definition color : Type := (Z * Z * Z)%type.

Inductive paint : Type :=
| Named (name : string)
| Rgb (c : color).

(** *** The PIL path (lines 34-152): the calls on [draw], in order; fonts
    and anchors are left out. *)
Inductive draw : Type :=
| DrawText (x y : R) (text : line) (fill : paint)
| Outline (x0 y0 x1 y1 : R)
| Filled (x0 y0 x1 y1 : R) (fill : paint)
| Segment (p q : R * R) (fill : paint)
| Ellipse (x0 y0 x1 y1 : R) (fill : paint).

Definition zones : list (R * R * color * string) :=
  [(0.0001, 0.001, (255, 229, 229)%Z, "Starving");
   (0.001, 0.1, (255, 240, 229)%Z, "Hungry");
   (0.1, 1, (229, 245, 229)%Z, "Fed");
   (1, 10, (229, 229, 255)%Z, "Well-Fed");
   (10, 100, (240, 229, 255)%Z, "Overfed");
   (100, 200, (255, 229, 229)%Z, "Extreme")].

Definition border : draw :=
  Outline margin margin (width - margin)%Z (height - margin)%Z.

(** Lines 73-76. *)
Definition zone_rect (z : R * R * color * string) : res draw :=
  let '(start, end_, color, label) := z in
  x1 ← map_x start;
  x2 ← map_x end_;
  mret (Filled x1 margin x2 (height - margin)%Z (Rgb color)).

(** Lines 83-87. *)
Definition grid_line (i : Z) : list draw :=
  let y := margin + i * chart_height / 10 in
  let mult := (10 - i)%Z in
  [Segment (IZR margin, y) (IZR (width - margin), y) (Named "lightgray");
   DrawText (margin - 10)%Z y [Int mult; Str "x"] (Named "black")].

Definition x_labels : list R := [0.0001; 0.001; 0.01; 0.1; 1; 10; 100].

(** Lines 91-94. *)
Definition x_label (eth : R) : res (list draw) :=
  x ← map_x eth;
  mret [Segment (x, IZR margin) (x, IZR (height - margin)) (Named "lightgray");
        DrawText x (height - margin + 10)%Z [Float "" eth] (Named "black")].

(** Lines 97-101. *)
Definition point (sample : R * R) : res (R * R) :=
  let '(eth, mult) := sample in
  x ← map_x eth;
  let y := map_y mult in
  mret (x, y).

(** Lines 104-105: [for i in range(len(points) - 1)]. *)
Fixpoint segments (points : list (R * R)) : list draw :=
  match points with
  | p :: (q :: _) as rest => Segment p q (Rgb (255, 107, 107)%Z) :: segments rest
  | _ => []
  end.

(** Lines 108-110. *)
Definition dot (p : R * R) : draw :=
  let '(x, y) := p in
  Ellipse (x - 3) (y - 3) (x + 3) (y + 3) (Rgb (255, 107, 107)%Z).

(** Lines 135-138. *)
Definition y_label : string := "Love Multiplier".

Definition y_label_chars : list draw :=
  imap (fun i char =>
          DrawText 20 (height / 2 - Z.of_nat (String.length y_label) * 8
                       + Z.of_nat i * 16)%Z
                   [Str (String char EmptyString)] (Named "black"))
       (String.list_ascii_of_string y_label).

(** Lines 141-145. *)
Definition zone_label (z : R * R * color * string) : res (list draw) :=
  let '(start, end_, color, label) := z in
  c ← x_center start end_;
  mret (if bool_decide (c > margin) && bool_decide (c < (width - margin)%Z)
        then [DrawText c (margin - 10)%Z [Str label] (Named "black")]
        else []).

Definition pil_image (eth_amounts love_multipliers : list R) : res (list draw) :=
  rects ← mapM zone_rect zones;
  ticks ← mapM x_label x_labels;
  points ← mapM point (zip eth_amounts love_multipliers);
  labels ← mapM zone_label zones;
  let y_eq := margin + chart_height * 0.45 in
  let y_min := margin + chart_height * 0.99 in
  mret ([DrawText (width / 2)%Z 30 [Str "Aminal VRGDA Love Curve"] (Named "black");
         border]
        ++ rects
        ++ [border]
        ++ concat (map grid_line (range 0 11))
        ++ concat ticks
        ++ segments points
        ++ map dot points
        ++ [Segment (IZR margin, IZR margin) (IZR (width - margin), IZR margin)
                    (Named "green");
            DrawText (width - margin + 5)%Z margin [Str "Max (10x)"] (Named "green");
            Segment (IZR margin, y_eq) (IZR (width - margin), y_eq) (Named "orange");
            DrawText (width - margin + 5)%Z y_eq [Str "Equilibrium (~5.5x)"]
                     (Named "orange");
            Segment (IZR margin, y_min) (IZR (width - margin), y_min) (Named "red");
            DrawText (width - margin + 5)%Z y_min [Str "Min (0.1x)"] (Named "red");
            DrawText (width / 2)%Z (height - 10)%Z [Str "Energy Level (ETH)"]
                     (Named "black")]
        ++ y_label_chars
        ++ concat labels).

(** *** The fallback rasterizer (lines 154-226)

    [pixels] is a list of [height] rows of [width] colours.  Every
    assignment [pixels[py][px] = c] is recorded in order. *)
Record assign : Type := Assign { py : Z; px : Z; value : color }.

Definition fallback_zones : list (R * R * color) :=
  [(0.0001, 0.001, (255, 229, 229)%Z);
   (0.001, 0.1, (255, 240, 229)%Z);
   (0.1, 1, (229, 245, 229)%Z);
   (1, 10, (229, 229, 255)%Z);
   (10, 100, (240, 229, 255)%Z);
   (100, 200, (255, 229, 229)%Z)].

(** Lines 176-181. *)
Definition zone_fill (z : R * R * color) : res (list assign) :=
  let '(start, end_, color) := z in
  c1 ← map_x start;
  let x1 := int c1 in
  c2 ← map_x end_;
  let x2 := int c2 in
  mret (y ← range margin (height - margin);
        x ← range (Z.max margin x1) (Z.min (width - margin) x2);
        [Assign y x color]).

(** Lines 184-189. *)
Definition border_pixels : list assign :=
  (x ← range margin (width - margin);
   [Assign margin x (0, 0, 0)%Z; Assign (height - margin - 1) x (0, 0, 0)%Z])
  ++
  (y ← range margin (height - margin);
   [Assign y margin (0, 0, 0)%Z; Assign y (width - margin - 1) (0, 0, 0)%Z]).

(** Lines 192-196. *)
Definition grid_pixels : list assign :=
  i ← range 0 11;
  let y := (margin + i * chart_height / 10)%Z in
  x ← range margin (width - margin);
  if bool_decide (x mod 4 < 2)%Z then [Assign y x (200, 200, 200)%Z] else [].

(** Lines 207-216: the segment from the previous sample, three pixels
    thick. *)
Definition line_pixels (prev_x prev_y x y : Z) : list assign :=
  let steps := Z.max (Z.abs (x - prev_x)) (Z.abs (y - prev_y)) in
  if bool_decide (steps > 0)%Z then
    j ← range 0 (steps + 1);
    let px := int (prev_x + ((x - prev_x) * j)%Z / steps) in
    let py := int (prev_y + ((y - prev_y) * j)%Z / steps) in
    if bool_decide (0 <= py < height)%Z && bool_decide (0 <= px < width)%Z then
      [Assign py px (255, 107, 107)%Z]
      ++ (if bool_decide (py > 0)%Z then [Assign (py - 1) px (255, 107, 107)%Z] else [])
      ++ (if bool_decide (py < height - 1)%Z
          then [Assign (py + 1) px (255, 107, 107)%Z] else [])
    else []
  else [].

(** Lines 219-224: the sample's dot. *)
Definition point_pixels (x y : Z) : list assign :=
  dy ← range (-3) 4;
  dx ← range (-3) 4;
  if bool_decide (dx * dx + dy * dy <= 9)%Z then
    let py := (y + dy)%Z in
    let px := (x + dx)%Z in
    if bool_decide (0 <= py < height)%Z && bool_decide (0 <= px < width)%Z then
      [Assign py px (200, 50, 50)%Z]
    else []
  else [].

(** Lines 199-226: the loop over the samples; [prev] is
    [(prev_x, prev_y)], [None] before the first sample.  The row
    [int (map_y mult)] is taken over [R]; in the source the product
    [(10 - mult) * chart_height] overflows a double for a multiplier
    beyond about 3.7e305 and [int] raises OverflowError, which is why a
    statement about a run that ends normally bounds the multipliers. *)
Fixpoint curve_pixels (prev : option (Z * Z)) (samples : list (R * R))
  : res (list assign) :=
  match samples with
  | [] => Ok []
  | (eth, mult) :: rest =>
      c ← map_x eth;
      let x := int c in
      let y := int (map_y mult) in
      let segment :=
        match prev with
        | Some (prev_x, prev_y) => line_pixels prev_x prev_y x y
        | None => []
        end in
      later ← curve_pixels (Some (x, y)) rest;
      mret (segment ++ point_pixels x y ++ later)
  end.

(** Every assignment of the fallback path, in program order. *)
Definition assignments (eth_amounts love_multipliers : list R)
  : res (list assign) :=
  fills ← mapM zone_fill fallback_zones;
  curve ← curve_pixels None (zip eth_amounts love_multipliers);
  mret (concat fills ++ border_pixels ++ grid_pixels ++ curve).

(** [l[i] = v] for a Python list: a negative index counts from the end,
    and an index outside [-len, len) raises [IndexError]. *)
Definition position (len : nat) (i : Z) : res nat :=
  if bool_decide (0 <= i < Z.of_nat len)%Z then Ok (Z.to_nat i)
  else if bool_decide (- Z.of_nat len <= i < 0)%Z then Ok (Z.to_nat (Z.of_nat len + i))
  else Raise IndexError.

Definition set_pixel (pixels : list (list color)) (a : assign)
  : res (list (list color)) :=
  r ← position (length pixels) (py a);
  row ← index pixels r;
  c ← position (length row) (px a);
  mret (<[r := <[c := value a]> row]> pixels).

Definition blank : list (list color) :=
  replicate (Z.to_nat height) (replicate (Z.to_nat width) (255, 255, 255)%Z).

Fixpoint paint_all (pixels : list (list color)) (l : list assign)
  : res (list (list color)) :=
  match l with
  | [] => Ok pixels
  | a :: l' => pixels' ← set_pixel pixels a; paint_all pixels' l'
  end.

(** *** The script (lines 34, 147-156, 228-282) *)

Inductive artifact : Type :=
| PilPng (image : list draw)
| Ppm (pixels : list (list color))
| Converted (tool : string) (pixels : list (list color)).

(** What the run finds installed: PIL, the executables [shutil.which]
    finds, and whether a conversion tool, once started, succeeds. *)
Record env : Type := Env {
  has_pil : bool;
  which : string -> bool;
  succeeds : string -> bool
}.

Section Main.
Variable parse_float : string -> option R.
(** [os.path.dirname(script_dir)] *)
Variable parent_dir : string.
Variable e : env.

Definition csv_path : string := join parent_dir "vrgda_curve_data.csv".
Definition output_dir : string := join parent_dir "output".
Definition png_path : string := join output_dir "vrgda_curve_chart.png".
Definition ppm_path : string := join output_dir "vrgda_curve_chart.ppm".

(** [try: subprocess.run([tool, ...], check=True); converted = True;
    print(...) except: pass] *)
Definition try_tool (tool note : string) (pixels : list (list color))
  : io artifact bool :=
  if succeeds e tool then
    write_file png_path (Converted tool pixels);;
    print [Str "PNG chart saved to: "; Str png_path; Str note];;
    mret true
  else mret false.

(** Lines 245-282. *)
Definition convert (pixels : list (list color)) : io artifact unit :=
  converted ←
    (if which e "magick" then
       try_tool "magick" " (converted using ImageMagick)" pixels
     else if which e "convert" then
       try_tool "convert" " (converted using ImageMagick)" pixels
     else mret false);
  converted ←
    (if negb converted && which e "sips" then
       try_tool "sips" " (converted using sips)" pixels
     else mret converted);
  if converted : bool then Run [FileRemove ppm_path] (Ok tt)
  else print [Str "Note: Could not convert to PNG automatically. PPM file is available."].

Definition main (src : source) : io artifact unit :=
  '(eth_amounts, love_multipliers) ← lift (load parse_float src);
  if has_pil e then
    image ← lift (pil_image eth_amounts love_multipliers);
    write_file png_path (PilPng image);;
    print [Str "PNG chart saved to: "; Str png_path]
  else
    print [Str "PIL not available. Generating simple bitmap..."];;
    writes ← lift (assignments eth_amounts love_multipliers);
    pixels ← lift (paint_all blank writes);
    write_file ppm_path (Ppm pixels);;
    print [Str "PPM file saved to: "; Str ppm_path];;
    convert pixels.

End Main.

End Png.

(** ** [script/python/plot_vrgda_curve_simple.py] *)

Module Simple.

Inductive artifact : Type :=
| Summary (text : list line).

Definition chart_height : Z := 20.
Definition chart_width : Z := 70.

(** [s * n] on a string. *)
Fixpoint times (s : string) (n : nat) : string :=
  match n with
  | O => ""
  | S n' => s +:+ times s n'
  end.

(** Lines 54-59: the scan for the sample closest to [eth_position] on
    the log axis.  [i] counts the samples already seen; [closest_idx] and
    [min_diff] are the loop's two variables.  The source evaluates
    [abs(math.log(eth) - math.log(eth_position))] in the test and again in
    the assignment; it is evaluated once here. *)
Fixpoint closest_scan (eth_position : R) (i : nat) (eths : list R)
    (closest_idx : nat) (min_diff : ext) : res nat :=
  match eths with
  | [] => Ok closest_idx
  | eth :: rest =>
      a ← log eth;
      b ← log eth_position;
      if lt_ext (Rabs (a - b)) min_diff then
        closest_scan eth_position (S i) rest i (Fin (Rabs (a - b)))
      else
        closest_scan eth_position (S i) rest closest_idx min_diff
  end.

Definition closest_idx (eth_amounts : list R) (eth_position : R) : res nat :=
  closest_scan eth_position 0 eth_amounts 0%nat Inf.

(** Line 51: [0.0001 * math.pow(2000000, col / chart_width)]. *)
Definition eth_position (col : Z) : R :=
  0.0001 * Rpower 2000000 (col / chart_width).

(** Lines 49-67: one character cell ([love_multipliers[closest_idx]] is
    read once here, in both tests in the source). *)
Definition cell (eth_amounts love_multipliers : list R) (row_multiplier : R)
    (col : Z) : io artifact unit :=
  idx ← lift (closest_idx eth_amounts (eth_position col));
  mult ← lift (index love_multipliers idx);
  if bool_decide (Rabs (mult - row_multiplier) < 0.25) then print_noline [Str "█"]
  else if bool_decide (Rabs (mult - row_multiplier) < 0.5) then print_noline [Str "▄"]
  else print_noline [Str " "].

(** Lines 36-69: one chart row. *)
Definition chart_row (eth_amounts love_multipliers : list R) (row : Z)
  : io artifact unit :=
  let row_multiplier := 10 - row * 0.5 in
  let label :=
    if bool_decide (row_multiplier = IZR (int row_multiplier))
    then [Int (int row_multiplier); Str "x"]
    else [Float ".1f" row_multiplier; Str "x"] in
  print_noline [Padded ">4" label; Str " |"];;
  for_each (range 0 chart_width) (cell eth_amounts love_multipliers row_multiplier);;
  print [].

Definition zones : list (R * string) :=
  [(0.001, "Starving"); (0.01, "Hungry"); (0.1, "Hungry"); (1, "Fed");
   (10, "Well-Fed"); (50, "Overfed"); (100, "Extremely Overfed")].

(** Lines 100-104: the multiplier shown for [eth_target]; [i] counts the
    samples already seen.  The loop leaves at the first sample that
    passes the test ([break]); [0] is [closest_mult]'s initial value. *)
Fixpoint threshold_scan (eth_target : R) (love_multipliers : list R) (i : nat)
    (eths : list R) : res R :=
  match eths with
  | [] => Ok 0
  | eth :: rest =>
      if bool_decide (Rabs (eth - eth_target) < 0.01)
         || (bool_decide (eth_target >= 1)
             && bool_decide (Rabs (eth - eth_target) < eth_target * 0.1))
      then index love_multipliers i
      else threshold_scan eth_target love_multipliers (S i) rest
  end.

Definition closest_mult (eth_amounts love_multipliers : list R) (eth_target : R)
  : res R :=
  threshold_scan eth_target love_multipliers 0 eth_amounts.

(** Lines 98-106: one row of the KEY THRESHOLDS table. *)
Definition table_row (eth_amounts love_multipliers : list R) (z : R * string)
  : io artifact unit :=
  let '(eth_target, zone) := z in
  mult ← lift (closest_mult eth_amounts love_multipliers eth_target);
  print [Float ">8.3f" eth_target; Str " ETH | "; Float ">14.1f" mult;
         Str "x | "; Str zone].

(** Lines 111-122: the summary file.  The four extrema are the ones
    lines 79-80 already printed. *)
Definition summary_text (lo_x hi_x lo_y hi_y : R) : list line :=
  [[Str "AMINAL VRGDA CURVE SUMMARY"; Newline];
   [Str (times "=" 50); Newline; Newline];
   [Str "Energy Range: "; Float ".4f" lo_x; Str " - "; Float ".0f" hi_x;
    Str " ETH"; Newline];
   [Str "Multiplier Range: "; Float ".1f" lo_y; Str "x - "; Float ".1f" hi_y;
    Str "x"; Newline; Newline];
   [Str "Key Points:"; Newline];
   [Str "- Starving (<0.005 ETH): 10x multiplier"; Newline];
   [Str "- Hungry (0.005-0.1 ETH): 9.5x-7.4x multiplier"; Newline];
   [Str "- Fed (0.1-1 ETH): 7.4x-5.5x multiplier"; Newline];
   [Str "- Well-Fed (1-10 ETH): 5.5x-3.5x multiplier"; Newline];
   [Str "- Overfed (10-100 ETH): 3.5x-0.1x multiplier"; Newline];
   [Str "- Beyond Threshold (>100 ETH): 0.1x multiplier"; Newline]].

Section Main.
Variable parse_float : string -> option R.

Definition main (src : source) : io artifact unit :=
  '(eth_amounts, love_multipliers) ← lift (load parse_float src);
  print [Newline; Str (times "=" 80)];;
  print [Str (times " " 25 +:+ "AMINAL VRGDA LOVE CURVE")];;
  print [Str (times "=" 80)];;
  print [Newline; Str "Love Multiplier vs Energy Level (ETH)"];;
  print [Newline; Str ("10x |" +:+ times "*" 70)];;
  for_each (range 0 chart_height) (chart_row eth_amounts love_multipliers);;
  print [Str (" 0x |" +:+ times "─" (Z.to_nat chart_width))];;
  print [Str ("     0.0001 ETH" +:+ times " " 20 +:+ "1 ETH" +:+ times " " 20
              +:+ "100 ETH →")];;
  print [Newline; Str (times "=" 80)];;
  print [Str "SUMMARY STATISTICS:"];;
  print [Str (times "=" 80)];;
  lo_x ← lift (min_list eth_amounts);
  hi_x ← lift (max_list eth_amounts);
  print [Str "Energy Range: "; Float ".4f" lo_x; Str " - "; Float ".0f" hi_x;
         Str " ETH"];;
  lo_y ← lift (min_list love_multipliers);
  hi_y ← lift (max_list love_multipliers);
  print [Str "Multiplier Range: "; Float ".1f" lo_y; Str "x - "; Float ".1f" hi_y;
         Str "x"];;
  print [Newline; Str "KEY THRESHOLDS:"];;
  print [Str (times "-" 40)];;
  print [Str "Energy Level | Love Multiplier | Zone"];;
  print [Str (times "-" 40)];;
  for_each zones (table_row eth_amounts love_multipliers);;
  print [Str (times "-" 40)];;
  write_file "vrgda_curve_summary.txt" (Summary (summary_text lo_x hi_x lo_y hi_y));;
  print [Newline; Str "Summary saved to: vrgda_curve_summary.txt"].

End Main.

End Simple.

(** ** Vocabulary of the specification *)

Module Spec.

(** [k] is the first position of [l] whose element satisfies [P]. *)
Definition first_at (P : R -> Prop) (l : list R) (k : nat) : Prop :=
  (exists y, l !! k = Some y /\ P y)
  /\ forall j y', (j < k)%nat -> l !! j = Some y' -> ~ P y'.

(** The tolerance of the KEY THRESHOLDS table: an absolute difference
    below 0.01, or, for a target of at least 1, a relative difference
    below 10%. *)
Definition within_tolerance (target eth : R) : Prop :=
  Rabs (eth - target) < 0.01
  \/ (target >= 1 /\ Rabs (eth - target) / target < 0.1).

(** The number a row holds under a field name, when the row has the
    field and its text parses as a number; and the row's (x, y) pair. *)
Definition field (parse_float : string -> option R) (r : row) (key : string)
  : option R :=
  match r !! key with
  | Some (Some s) => parse_float s
  | _ => None
  end.

Definition row_numbers (parse_float : string -> option R) (r : row)
  : option (R * R) :=
  match field parse_float r "eth_amount", field parse_float r "love_multiplier" with
  | Some x, Some y => Some (x, y)
  | _, _ => None
  end.

(** Distance of a sample's x from a target: on the linear axis (the
    annotations of the matplotlib script) and on the log axis (the cells
    of the character-art script). *)
Definition distance (target eth : R) : R := Rabs (eth - target).
Definition log_distance (target eth : R) : R := Rabs (ln eth - ln target).

(** [k] is the position of the sample of [l] closest to the target under
    [key]; among equidistant samples it is the earliest one. *)
Definition closest_at (key : R -> R) (l : list R) (k : nat) : Prop :=
  exists e, l !! k = Some e
    /\ (forall j e', l !! j = Some e' -> key e <= key e')
    /\ (forall j e', (j < k)%nat -> l !! j = Some e' -> key e < key e').

(** What a closest-sample scan knows after the samples [l]: the smallest
    distance so far and where it was first met. *)
Inductive scanned (key : R -> R) (l : list R) : ext -> option nat -> Prop :=
| scanned_none : l = [] -> scanned key l Inf None
| scanned_some (k : nat) (e : R) :
    l !! k = Some e -> closest_at key l k -> scanned key l (Fin (key e)) (Some k).




(** The event prints no number. *)
Definition numberless {F} (e : event F) : Prop :=
  match e with
  | Stdout l _ => numbers l = []
  | _ => True
  end.



(** An assignment of the fallback rasterizer addresses a pixel of the
    image. *)
Definition in_bounds (a : Png.assign) : Prop :=
  (0 <= Png.py a < Mapper.height)%Z /\ (0 <= Png.px a < Mapper.width)%Z.

(** A pixel grid of the image's size. *)
Definition well_sized (pixels : list (list Png.color)) : Prop :=
  length pixels = Z.to_nat Mapper.height
  /\ Forall (fun row => length row = Z.to_nat Mapper.width) pixels.

End Spec.
Import Spec.

(** ** A small dataset for the examples *)

Module Samples.

(** A [float] that reads three spellings. *)
Definition three_numbers (s : string) : option R :=
  if String.eqb s "0.5" then Some 0.5
  else if String.eqb s "7" then Some 7
  else if String.eqb s "2" then Some 2
  else None.

(** The file [eth_amount,love_multiplier / 0.5,7 / 2,0.5]. *)
Definition two_rows : list row :=
  [ {[ "eth_amount"%string := Some "0.5"%string;
       "love_multiplier"%string := Some "7"%string ]};
    {[ "eth_amount"%string := Some "2"%string;
       "love_multiplier"%string := Some "0.5"%string ]} ].

(** A directory that holds that file and nothing else, as the SVG script
    finds it when its parent directory is the working directory. *)
Definition only_dataset : gmap string (file Chart.artifact) :=
  {[ "vrgda_curve_data.csv"%string := Dataset two_rows ]}.

End Samples.
Import Samples.

(** ** The PPM file of the fallback path

    [generate_vrgda_png.py] lines 232-237: the text the script writes
    under [ppm_path], call of [f.write] by call, for the pixel grid the
    artifact [Png.Ppm] holds. *)

Module Ppm.
Import Mapper.





End Ppm.

(** ** Vocabulary of the further properties *)

Module Reading.






End Reading.
Import Reading.

(** ** Vocabulary of the bitmap *)

Module Canvas.

(** The colour [pixels[y][x]] of a grid, for a pixel of the image. *)
Definition pixel_at (pixels : list (list Png.color)) (y x : Z) : option Png.color :=
  row ← pixels !! Z.to_nat y; row !! Z.to_nat x.

(** An assignment that addresses the pixel in row [y], column [x]. *)
Definition addresses (y x : Z) (a : Png.assign) : Prop :=
  Png.py a = y /\ Png.px a = x.

#[global] Instance addresses_dec (y x : Z) (a : Png.assign) : Decision (addresses y x a).
Proof. unfold addresses. apply _. Defined.

End Canvas.
Import Canvas.

(** ** More sample data *)

Module MoreSamples.

(** A row whose x field is no number. *)
Definition malformed_row : row :=
  {[ "eth_amount"%string := Some "abc"%string;
     "love_multiplier"%string := Some "7"%string ]}.

(** A [float] that also reads a zero and a negative number. *)
Definition signed_numbers (s : string) : option R :=
  if String.eqb s "0" then Some 0
  else if String.eqb s "-1" then Some (-1)
  else three_numbers s.

(** The file [eth_amount,love_multiplier / 0.5,7 / 0,2]: its second x is
    not positive. *)
Definition zero_rows : list row :=
  [ {[ "eth_amount"%string := Some "0.5"%string;
       "love_multiplier"%string := Some "7"%string ]};
    {[ "eth_amount"%string := Some "0"%string;
       "love_multiplier"%string := Some "2"%string ]} ].


(** A directory that holds the dataset [two_rows] and nothing else. *)
Definition dataset_only (F : Type) : gmap string (file F) :=
  {[ "vrgda_curve_data.csv"%string := Dataset two_rows ]}.

(** No PIL and no conversion tool. *)
Definition no_tools : Png.env := Png.Env false (fun _ => false) (fun _ => false).

End MoreSamples.
Import MoreSamples.

(** * Properties *)

(** ** Python runtime *)

Section PyFacts.

Lemma ln10_pos : 0 < ln 10.
Proof. rewrite <- ln_1. apply ln_increasing; lra. Qed.

Lemma log10_ok (x : R) : 0 < x -> log10 x = Ok (log10r x).
Proof. intros Hx. unfold log10. destruct (Rlt_dec 0 x); [reflexivity | contradiction]. Qed.

Lemma log_ok (x : R) : 0 < x -> log x = Ok (ln x).
Proof. intros Hx. unfold log. destruct (Rlt_dec 0 x); [reflexivity | contradiction]. Qed.

Lemma log10_raises (x : R) : x <= 0 -> log10 x = Raise ValueError.
Proof. intros Hx. unfold log10. destruct (Rlt_dec 0 x); [lra | reflexivity]. Qed.

Lemma log10r_increasing (x y : R) : 0 < x -> x < y -> log10r x < log10r y.
Proof.
  intros Hx Hxy. unfold log10r.
  apply Rmult_lt_compat_r.
  - apply Rinv_0_lt_compat, ln10_pos.
  - now apply ln_increasing.
Qed.

Lemma log10r_sqrt_mult (a b : R) :
  0 < a -> 0 < b -> log10r (sqrt (a * b)) = (log10r a + log10r b) / 2.
Proof.
  intros Ha Hb. unfold log10r.
  rewrite <- Rpower_sqrt by (apply Rmult_lt_0_compat; assumption).
  rewrite ln_Rpower, ln_mult by assumption.
  pose proof ln10_pos. field. lra.
Qed.

Lemma Ok_inj {A} (a b : A) : Ok a = Ok b -> a = b.
Proof. now intros [= ->]. Qed.

Lemma div_ok (a b : R) : b <> 0 -> div a b = Ok (a / b).
Proof. intros Hb. unfold div. destruct (Req_dec_T b 0); [contradiction | reflexivity]. Qed.

Lemma in_range (a b x : Z) : In x (range a b) <-> (a <= x < b)%Z.
Proof.
  unfold range. rewrite in_map_iff. split.
  - intros (k & <- & Hk). apply in_seq in Hk. lia.
  - intros Hx. exists (Z.to_nat (x - a)). split; [lia |]. apply in_seq. lia.
Qed.

End PyFacts.

(** ** The coordinate mapping *)

Section MapperFacts.
Import Mapper.

Lemma chart_width_eq : chart_width = 680%Z.
Proof. reflexivity. Qed.

Lemma chart_height_eq : chart_height = 480%Z.
Proof. reflexivity. Qed.

(** The two ends of the x axis are a positive distance apart on the log
    scale, so the division in the mapping never raises. *)
Lemma log_span_pos : 0 < log10r 200 - log10r 0.0001.
Proof.
  assert (log10r 0.0001 < log10r 200) by (apply log10r_increasing; lra). lra.
Qed.

Lemma map_x_ok (x : R) :
  0 < x ->
  map_x x = Ok (margin + (log10r x - log10r 0.0001)
                         / (log10r 200 - log10r 0.0001) * chart_width).
Proof.
  intros Hx. unfold map_x.
  rewrite (log10_ok x Hx), (log10_ok 0.0001), (log10_ok 200) by lra. cbn.
  rewrite div_ok by (apply Rgt_not_eq, Rlt_gt, log_span_pos). reflexivity.
Qed.

Lemma map_x_raises (x : R) : x <= 0 -> map_x x = Raise ValueError.
Proof. intros Hx. unfold map_x. rewrite (log10_raises x) by assumption. reflexivity. Qed.

Lemma x_center_ok (a b : R) :
  0 < a -> 0 < b ->
  x_center a b = Ok (margin + ((log10r a + log10r b) / 2 - log10r 0.0001)
                              / (log10r 200 - log10r 0.0001) * chart_width).
Proof.
  intros Ha Hb. unfold x_center.
  rewrite (log10_ok a Ha), (log10_ok b Hb), (log10_ok 0.0001), (log10_ok 200) by lra.
  cbn. rewrite div_ok by (apply Rgt_not_eq, Rlt_gt, log_span_pos). reflexivity.
Qed.




(** C3: the column mapping is monotonic on [0.0001, 200]: an x that is
    not smaller gets a column that is not further left. *)
Theorem map_x_monotonic (x1 x2 : R) :
  0.0001 <= x1 -> x1 <= x2 -> x2 <= 200 ->
  exists c1 c2 : R, map_x x1 = Ok c1 /\ map_x x2 = Ok c2 /\ c1 <= c2.
Proof.
  intros H1 H12 H2.
  eexists _, _. rewrite !map_x_ok by lra. split; [reflexivity | split; [reflexivity |]].
  assert (Hlog : log10r x1 <= log10r x2).
  { destruct H12 as [Hlt | <-]; [left; apply log10r_increasing; lra | right; reflexivity]. }
  pose proof log_span_pos as Hspan.
  apply Rplus_le_compat_l, Rmult_le_compat_r.
  - rewrite chart_width_eq. lra.
  - apply Rmult_le_compat_r; [left; now apply Rinv_0_lt_compat | lra].
Qed.

Lemma map_x_monotonic_witness :
  exists c1 c2 : R, map_x 0.1 = Ok c1 /\ map_x 1 = Ok c2 /\ c1 <= c2.
Proof. apply (map_x_monotonic 0.1 1); lra. Defined.

End MapperFacts.

Section FloatColumns.
Import PrimFloat.

(** C3, as the specification words it, fails on doubles: the order of
    two columns is not strict.  1.0 and the next double,
    1.0000000000000002, lie in the range and get the same column,
    whatever [math.log10] returns at 200, because adding 4 to
    9.64e-17 rounds to 4; with the C library's value at 200 the
    column of both is 491.6754565319881. *)
Theorem float_columns_collide :
  exists x1 x2 : PrimFloat.float,
    (x1 <? x2)%float = true
    /\ (Float64.x_min <=? x1)%float = true
    /\ (x2 <=? Float64.x_max)%float = true
    /\ (forall log10 : PrimFloat.float -> PrimFloat.float,
          log10 Float64.x_min = (-4)%float ->
          log10 x1 = 0%float ->
          log10 x2 = Float64.log10_after_one ->
          Float64.map_x log10 x1 = Float64.map_x log10 x2)
    /\ Float64.map_x Float64.log10_table x1 = 0x1.ebaceab822c23p+8%float
    /\ Float64.map_x Float64.log10_table x2 = 0x1.ebaceab822c23p+8%float.
Proof.
  exists 1%float, Float64.after_one.
  split; [reflexivity |]. split; [reflexivity |]. split; [reflexivity |].
  split; [| split; reflexivity].
  intros log10 Hmin Hone Hafter. unfold Float64.map_x. rewrite Hmin, Hone, Hafter.
  change (0 - -4)%float with 4%float.
  change (Float64.log10_after_one - -4)%float with 4%float.
  reflexivity.
Qed.

End FloatColumns.

(** ** Zone labels *)

Section ZoneLabels.
Import Mapper.

(** On the log axis the pixel midway between the mapped ends of a zone is
    the image of the geometric mean of the ends. *)
Lemma x_center_is_midpoint (a b : R) :
  0 < a -> 0 < b ->
  exists c ca cb : R,
    x_center a b = Ok c /\ map_x a = Ok ca /\ map_x b = Ok cb
    /\ c = (ca + cb) / 2 /\ map_x (sqrt (a * b)) = Ok c.
Proof.
  intros Ha Hb.
  assert (Hab : 0 < sqrt (a * b)) by (apply sqrt_lt_R0, Rmult_lt_0_compat; assumption).
  eexists _, _, _.
  rewrite x_center_ok, !map_x_ok by assumption.
  repeat split; try reflexivity.
  - pose proof log_span_pos. field. lra.
  - rewrite log10r_sqrt_mult by assumption. reflexivity.
Qed.

Lemma label_x_below_one (prev_x x : R) :
  prev_x < 1 -> Plot.label_x prev_x x = sqrt (prev_x * x).
Proof. intros H. unfold Plot.label_x. now rewrite bool_decide_eq_true_2. Qed.

Lemma label_x_from_one (prev_x x : R) :
  1 <= prev_x -> Plot.label_x prev_x x = (prev_x + x) / 2.
Proof. intros H. unfold Plot.label_x. rewrite bool_decide_eq_false_2; [reflexivity | lra]. Qed.

Lemma sqrt_tenth_bounds : 0.316 < sqrt (0.1 * 1) < 0.317.
Proof.
  split.
  - rewrite <- (sqrt_square 0.316) by lra. apply sqrt_lt_1_alt. lra.
  - rewrite <- (sqrt_square 0.317) by lra. apply sqrt_lt_1_alt. lra.
Qed.

(** C7: the zone [0.1, 1) is labelled at the geometric mean of its ends,
    sqrt(0.1 * 1), about 0.316, by the matplotlib script; the SVG script
    puts the label at the pixel midway between the mapped ends, which is
    the image of that geometric mean. *)
Theorem fed_zone_label_at_geometric_mean :
  Plot.shade_zones 0.0001 Plot.zones !! 5%nat
    = Some (Plot.Text (sqrt (0.1 * 1)) 10.5 "Fed")
  /\ 0.316 < sqrt (0.1 * 1) < 0.317
  /\ In (0.1, 1, "#E5F5E5"%string, "Fed"%string) Chart.zones
  /\ exists c c1 c2 : R,
       Chart.zone_label (0.1, 1, "#E5F5E5"%string, "Fed"%string)
         = Ok (Chart.Label c (margin - 10)%Z [Str "Fed"])
       /\ map_x 0.1 = Ok c1 /\ map_x 1 = Ok c2
       /\ c = (c1 + c2) / 2
       /\ map_x (sqrt (0.1 * 1)) = Ok c.
Proof.
  split; [| split; [| split]].
  - cbn -[sqrt Rmult Plot.label_x]. rewrite label_x_below_one by lra. reflexivity.
  - exact sqrt_tenth_bounds.
  - cbn. tauto.
  - destruct (x_center_is_midpoint 0.1 1) as (c & c1 & c2 & Hc & H1 & H2 & Hmid & Hgeo);
      [lra | lra |].
    exists c, c1, c2. unfold Chart.zone_label. rewrite Hc. auto.
Qed.

End ZoneLabels.

(** ** Threshold crossings in the matplotlib script's summary *)

Section Crossings.

Lemma first_at_head (P : R -> Prop) (y : R) (l : list R) :
  P y -> forall k, first_at P (y :: l) k -> k = 0%nat.
Proof.
  intros Hy k [_ Hbefore]. destruct k as [| k]; [reflexivity |].
  exfalso. apply (Hbefore 0%nat y); [lia | reflexivity | exact Hy].
Qed.

Lemma first_at_tail (P : R -> Prop) (y : R) (l : list R) (k : nat) :
  ~ P y -> first_at P (y :: l) k -> exists k', k = S k' /\ first_at P l k'.
Proof.
  intros Hy [(y0 & Hk & Hy0) Hbefore]. destruct k as [| k].
  - cbn in Hk. congruence.
  - exists k. split; [reflexivity |]. split.
    + exists y0. auto.
    + intros j y' Hj Hl. apply (Hbefore (S j) y'); [lia | exact Hl].
Qed.

Lemma drops_below_found (threshold : R) (text : string) (eths mults : list R)
    (i k : nat) (e : R) :
  first_at (fun y => y < threshold) mults k ->
  eths !! (i + k)%nat = Some e ->
  Plot.drops_below threshold text eths i mults
  = Run [Stdout [Str text; Float ".1f" e; Str " ETH"] true] (Ok tt).
Proof.
  revert i k. induction mults as [| mult rest IH]; intros i k Hfirst He.
  - destruct Hfirst as [(y & Hy & _) _]. destruct k; discriminate.
  - cbn [Plot.drops_below]. case_bool_decide as Hlt.
    + apply first_at_head in Hfirst as ->; [| exact Hlt].
      rewrite Nat.add_0_r in He. unfold index. rewrite He. reflexivity.
    + apply first_at_tail in Hfirst as (k' & -> & Hfirst); [| exact Hlt].
      apply (IH (S i) k' Hfirst). rewrite <- He. f_equal. lia.
Qed.

Lemma drops_below_silent (threshold : R) (text : string) (eths mults : list R)
    (i : nat) :
  (forall y, In y mults -> threshold <= y) ->
  Plot.drops_below threshold text eths i mults = Run [] (Ok tt).
Proof.
  revert i. induction mults as [| mult rest IH]; intros i Hall.
  - reflexivity.
  - cbn [Plot.drops_below]. rewrite bool_decide_eq_false_2.
    + apply IH. intros y Hy. apply Hall. now right.
    + specialize (Hall mult (or_introl eq_refl)). lra.
Qed.

(** C4: each of the two loops reports the first sample, in input order,
    whose y is strictly below its threshold (5, then 1) and stops there:
    one line, showing that sample's x.  Applied to y = [10, 7, 5.5, 4.8, 3]
    and threshold 5 (the witness below) the sample is the one at index 3. *)
Theorem first_crossing_reported (threshold : R) (text : string)
    (eth_amounts love_multipliers : list R) (k : nat) (e : R) :
  first_at (fun y => y < threshold) love_multipliers k ->
  eth_amounts !! k = Some e ->
  Plot.drops_below threshold text eth_amounts 0 love_multipliers
  = Run [Stdout [Str text; Float ".1f" e; Str " ETH"] true] (Ok tt).
Proof. intros Hfirst He. now apply (drops_below_found _ _ _ _ 0%nat k). Qed.

Lemma first_crossing_reported_witness :
  first_at (fun y => y < 5) [10; 7; 5.5; 4.8; 3] 3
  /\ Plot.drops_below 5 "Multiplier drops below 5x at: "
       [0.001; 0.1; 1; 10; 100] 0 [10; 7; 5.5; 4.8; 3]
     = Run [Stdout [Str "Multiplier drops below 5x at: "; Float ".1f" 10;
                    Str " ETH"] true] (Ok tt).
Proof.
  assert (H : first_at (fun y => y < 5) [10; 7; 5.5; 4.8; 3] 3).
  { split.
    - exists 4.8. split; [reflexivity | lra].
    - intros j y' Hj Hl.
      destruct j as [| [| [| j]]]; [| | | lia]; cbn in Hl; inversion Hl; lra. }
  split; [exact H |].
  apply (first_crossing_reported 5 _ [0.001; 0.1; 1; 10; 100] [10; 7; 5.5; 4.8; 3] 3 10 H).
  reflexivity.
Defined.

End Crossings.

(** ** The KEY THRESHOLDS table of the character-art script *)

Section ThresholdTable.

(** The loop's test is the tolerance test. *)
Lemma tolerance_test (target eth : R) :
  bool_decide (Rabs (eth - target) < 0.01)
  || (bool_decide (target >= 1)
      && bool_decide (Rabs (eth - target) < target * 0.1)) = true
  <-> within_tolerance target eth.
Proof.
  unfold within_tolerance.
  rewrite orb_true_iff, andb_true_iff, !bool_decide_eq_true.
  split; (intros [H | [H1 H2]]; [left; exact H | right; split; [exact H1 |]]).
  - apply Rmult_lt_reg_r with target; [lra |].
    unfold Rdiv. rewrite Rmult_assoc, Rinv_l by lra. lra.
  - apply Rmult_lt_compat_r with (r := target) in H2; [| lra].
    unfold Rdiv in H2. rewrite Rmult_assoc, Rinv_l in H2 by lra. lra.
Qed.

Lemma threshold_scan_found (target : R) (eths mults : list R) (i k : nat) (y : R) :
  first_at (within_tolerance target) eths k ->
  mults !! (i + k)%nat = Some y ->
  Simple.threshold_scan target mults i eths = Ok y.
Proof.
  revert i k. induction eths as [| eth rest IH]; intros i k Hfirst Hy.
  - destruct Hfirst as [(e & He & _) _]. destruct k; discriminate.
  - cbn [Simple.threshold_scan].
    destruct (_ || _) eqn:Htest.
    + apply tolerance_test in Htest.
      apply first_at_head in Hfirst as ->; [| exact Htest].
      rewrite Nat.add_0_r in Hy. unfold index. now rewrite Hy.
    + assert (Hout : ~ within_tolerance target eth).
      { intros Hin. apply tolerance_test in Hin. congruence. }
      apply first_at_tail in Hfirst as (k' & -> & Hfirst); [| exact Hout].
      apply (IH (S i) k' Hfirst). rewrite <- Hy. f_equal. lia.
Qed.



End ThresholdTable.

(** ** Closest-sample scans *)

Section ClosestScans.

Lemma closest_at_unique (key : R -> R) (l : list R) (k k' : nat) :
  closest_at key l k -> closest_at key l k' -> k = k'.
Proof.
  intros (e & He & Hle & Hlt) (e' & He' & Hle' & Hlt').
  destruct (Nat.lt_trichotomy k k') as [H | [H | H]]; [| exact H |].
  - pose proof (Hlt' k e H He). pose proof (Hle k' e' He'). lra.
  - pose proof (Hlt k' e' H He'). pose proof (Hle' k e He). lra.
Qed.

(** One more sample: the scan moves to it exactly when it is strictly
    closer than everything before. *)
Lemma scanned_step (key : R -> R) (l : list R) (m : ext) (st : option nat) (e : R) :
  scanned key l m st ->
  scanned key (l ++ [e])
    (if lt_ext (key e) m then Fin (key e) else m)
    (if lt_ext (key e) m then Some (length l) else st).
Proof.
  intros [-> | k e0 Hk (e1 & Hk1 & Hle & Hlt)].
  - cbn. apply scanned_some; [reflexivity |].
    exists e. split; [reflexivity |]. split.
    + intros [| j] e' Hj; cbn in Hj; [inversion Hj; lra | discriminate].
    + intros j e' Hj. lia.
  - assert (e1 = e0) as -> by congruence. cbn [lt_ext]. case_bool_decide as Hcmp.
    + apply scanned_some; [apply list_lookup_middle; reflexivity |].
      exists e. split; [apply list_lookup_middle; reflexivity |]. split.
      * intros j e' Hj. apply lookup_snoc_Some in Hj as [[_ Hj] | [_ ->]]; [| lra].
        pose proof (Hle j e' Hj). lra.
      * intros j e' Hlen Hj. rewrite lookup_app_l in Hj by exact Hlen.
        pose proof (Hle j e' Hj). lra.
    + pose proof (lookup_lt_Some _ _ _ Hk) as Hklen.
      apply scanned_some; [rewrite lookup_app_l by exact Hklen; exact Hk |].
      exists e0. split; [rewrite lookup_app_l by exact Hklen; exact Hk |]. split.
      * intros j e' Hj. apply lookup_snoc_Some in Hj as [[_ Hj] | [_ ->]]; [| lra].
        exact (Hle j e' Hj).
      * intros j e' Hjk Hj. rewrite lookup_app_l in Hj by lia.
        exact (Hlt j e' Hjk Hj).
Qed.

Lemma scanned_nonempty (key : R -> R) (l : list R) (m : ext) (st : option nat) :
  l <> [] -> scanned key l m st -> exists k, st = Some k /\ closest_at key l k.
Proof. intros Hne [Hnil | k e Hk Hclosest]; [contradiction | eauto]. Qed.

(** The annotation loop of the matplotlib script, from any point of the
    scan on. *)
Lemma plot_scan_correct (x : R) (mults rest : list R) :
  forall (pre : list R) (m : ext) (st : option nat) (ay : R),
    scanned (distance x) pre m st ->
    (forall k, st = Some k -> mults !! k = Some ay) ->
    (length pre + length rest <= length mults)%nat ->
    exists (y : R) (m' : ext) (st' : option nat),
      Plot.closest_scan x mults (length pre) rest m ay = Ok y
      /\ scanned (distance x) (pre ++ rest) m' st'
      /\ (forall k, st' = Some k -> mults !! k = Some y).
Proof.
  induction rest as [| eth rest IH]; intros pre m st ay Hscan Hay Hlen.
  - exists ay, m, st. rewrite app_nil_r. auto.
  - cbn [Plot.closest_scan]. cbn [length] in Hlen.
    pose proof (scanned_step _ _ _ _ eth Hscan) as Hstep.
    fold (distance x eth). rewrite (cons_middle eth pre rest), app_assoc.
    replace (S (length pre)) with (length (pre ++ [eth])) by (rewrite length_app; cbn; lia).
    destruct (lt_ext (distance x eth) m).
    + destruct (lookup_lt_is_Some_2 mults (length pre)) as [y0 Hy0]; [lia |].
      unfold index. rewrite Hy0. cbn.
      apply (IH _ _ _ y0 Hstep).
      * intros k [= <-]. exact Hy0.
      * rewrite length_app. cbn. lia.
    + apply (IH _ _ _ ay Hstep Hay). rewrite length_app. cbn. lia.
Qed.

Lemma actual_y_closest (eth_amounts love_multipliers : list R) (x y_target : R) :
  eth_amounts <> [] ->
  length love_multipliers = length eth_amounts ->
  exists (k : nat) (y : R),
    closest_at (distance x) eth_amounts k
    /\ love_multipliers !! k = Some y
    /\ Plot.actual_y eth_amounts love_multipliers x y_target = Ok y.
Proof.
  intros Hne Hlen.
  destruct (plot_scan_correct x love_multipliers eth_amounts [] Inf None y_target)
    as (y & m' & st' & Hrun & Hscan & Hy).
  - now apply scanned_none.
  - discriminate.
  - cbn. lia.
  - cbn in Hscan, Hrun.
    destruct (scanned_nonempty _ _ _ _ Hne Hscan) as (k & -> & Hclosest).
    exists k, y. auto.
Qed.



(** The cell search of the character-art script, from any point of the
    scan on. *)
Lemma simple_scan_correct (pos : R) (rest : list R) :
  0 < pos ->
  Forall (fun eth => 0 < eth) rest ->
  forall (pre : list R) (m : ext) (st : option nat) (idx : nat),
    scanned (log_distance pos) pre m st ->
    (forall k, st = Some k -> idx = k) ->
    exists (k : nat) (m' : ext) (st' : option nat),
      Simple.closest_scan pos (length pre) rest idx m = Ok k
      /\ scanned (log_distance pos) (pre ++ rest) m' st'
      /\ (forall k', st' = Some k' -> k = k').
Proof.
  intros Hpos. induction 1 as [| eth rest Heth Hrest IH]; intros pre m st idx Hscan Hidx.
  - exists idx, m, st. rewrite app_nil_r. auto.
  - cbn [Simple.closest_scan]. rewrite (log_ok eth Heth), (log_ok pos Hpos). cbn.
    pose proof (scanned_step _ _ _ _ eth Hscan) as Hstep.
    fold (log_distance pos eth). rewrite (cons_middle eth pre rest), app_assoc.
    replace (S (length pre)) with (length (pre ++ [eth])) by (rewrite length_app; cbn; lia).
    destruct (lt_ext (log_distance pos eth) m).
    + apply (IH _ _ _ _ Hstep). now intros k [= <-].
    + apply (IH _ _ _ _ Hstep Hidx).
Qed.

Lemma closest_idx_closest (eth_amounts : list R) (eth_position : R) :
  eth_amounts <> [] ->
  Forall (fun eth => 0 < eth) eth_amounts ->
  0 < eth_position ->
  exists k : nat,
    closest_at (log_distance eth_position) eth_amounts k
    /\ Simple.closest_idx eth_amounts eth_position = Ok k.
Proof.
  intros Hne Hall Hpos.
  destruct (simple_scan_correct eth_position eth_amounts Hpos Hall [] Inf None 0%nat)
    as (k & m' & st' & Hrun & Hscan & Hk).
  - now apply scanned_none.
  - discriminate.
  - cbn in Hscan, Hrun.
    destruct (scanned_nonempty _ _ _ _ Hne Hscan) as (k' & -> & Hclosest).
    rewrite (Hk k' eq_refl) in Hrun. exists k'. auto.
Qed.



End ClosestScans.

(** ** The table against the annotations *)

Section TableVersusAnnotations.

Ltac abs_lra := unfold distance, Rabs in *; repeat destruct (Rcase_abs _); lra.

Lemma near_one_first_within : first_at (within_tolerance 1) [0.95; 1] 0.
Proof.
  split.
  - exists 0.95. split; [reflexivity |]. right. split; [lra |]. abs_lra.
  - intros j y' Hj. lia.
Qed.

Lemma near_one_closest : closest_at (distance 1) [0.95; 1] 1.
Proof.
  exists 1. split; [reflexivity |]. split.
  - intros j e' _. abs_lra.
  - intros [| j] e' Hj He'; [| lia]. cbn in He'. inversion He'. abs_lra.
Qed.

(** C1, on the samples x = [0.95, 1], y = [5.5, 5.4] and the target 1:
    the KEY THRESHOLDS table shows 5.5, the y of the first sample, while
    the closest sample is the second one, whose y, 5.4, is what the
    annotation loop of the matplotlib script resolves the same target to. *)
Theorem threshold_table_misses_closest_sample :
  Simple.closest_mult [0.95; 1] [5.5; 5.4] 1 = Ok 5.5
  /\ closest_at (distance 1) [0.95; 1] 1
  /\ Plot.actual_y [0.95; 1] [5.5; 5.4] 1 5.46 = Ok 5.4.
Proof.
  split; [| split].
  - apply (threshold_scan_found 1 [0.95; 1] [5.5; 5.4] 0 0 5.5 near_one_first_within).
    reflexivity.
  - exact near_one_closest.
  - destruct (actual_y_closest [0.95; 1] [5.5; 5.4] 1 5.46)
      as (k & y & Hk & Hy & Hrun); [discriminate | reflexivity |].
    rewrite (closest_at_unique _ _ _ _ Hk near_one_closest) in Hy.
    cbn in Hy. inversion Hy. subst y. exact Hrun.
Qed.


End TableVersusAnnotations.

(** ** The dataset loader *)

Section LoaderFacts.
Variable parse_float : string -> option R.

Lemma read_field (r : row) (key : string) :
  match field parse_float r key with
  | Some x => getitem r key ≫= float parse_float = Ok x
  | None => exists e, getitem r key ≫= float parse_float = Raise e
  end.
Proof.
  unfold field, getitem, float.
  destruct (r !! key) as [[s |] |]; cbn.
  - destruct (parse_float s); [reflexivity | eauto].
  - eauto.
  - eauto.
Qed.

Lemma read_field_ok (r : row) (key : string) (x : R) :
  field parse_float r key = Some x -> getitem r key ≫= float parse_float = Ok x.
Proof. intros H. pose proof (read_field r key) as Hr. now rewrite H in Hr. Qed.

Lemma read_rows_ok (rows : list row) (pairs : list (R * R)) :
  Forall2 (fun r p => row_numbers parse_float r = Some p) rows pairs ->
  forall xs ys,
    read_rows parse_float rows xs ys = Ok (xs ++ pairs.*1, ys ++ pairs.*2).
Proof.
  induction 1 as [| r [x y] rows pairs Hr _ IH]; intros xs ys.
  - cbn. now rewrite !app_nil_r.
  - cbn [read_rows]. unfold row_numbers in Hr.
    destruct (field parse_float r "eth_amount") as [x' |] eqn:Hx; [| discriminate].
    destruct (field parse_float r "love_multiplier") as [y' |] eqn:Hy; [| discriminate].
    injection Hr as -> ->.
    rewrite (read_field_ok _ _ _ Hx), (read_field_ok _ _ _ Hy). cbn.
    rewrite IH, <- !app_assoc. reflexivity.
Qed.

Lemma read_rows_raises (rows : list row) :
  Exists (fun r => row_numbers parse_float r = None) rows ->
  forall xs ys, exists e, read_rows parse_float rows xs ys = Raise e.
Proof.
  induction 1 as [r rows Hbad | r rows _ IH]; intros xs ys; cbn [read_rows].
  - unfold row_numbers in Hbad.
    pose proof (read_field r "eth_amount") as Hx.
    pose proof (read_field r "love_multiplier") as Hy.
    destruct (field parse_float r "eth_amount").
    + rewrite Hx. cbn.
      destruct (field parse_float r "love_multiplier"); [discriminate |].
      destruct Hy as [e ->]. cbn. eauto.
    + destruct Hx as [e ->]. cbn. eauto.
  - destruct (getitem r "eth_amount" ≫= float parse_float); cbn; [| eauto].
    destruct (getitem r "love_multiplier" ≫= float parse_float); cbn; [| eauto].
    apply IH.
Qed.

(** C5: from a readable file whose x and y fields all parse, the loader
    returns the two sequences of numbers, as long as the file has rows and
    in row order; a missing or unreadable file, or a field that does not
    parse, raises; and a script whose loader raises ends with that error
    having printed and written nothing. *)
Theorem loader_contract (src : source) :
  (forall rows pairs,
      src = Readable rows ->
      Forall2 (fun r p => row_numbers parse_float r = Some p) rows pairs ->
      load parse_float src = Ok (pairs.*1, pairs.*2)
      /\ length pairs.*1 = length rows /\ length pairs.*2 = length rows)
  /\ (src = Missing -> load parse_float src = Raise FileNotFoundError)
  /\ (src = Unreadable -> load parse_float src = Raise PermissionError)
  /\ (forall rows,
         src = Readable rows ->
         Exists (fun r => row_numbers parse_float r = None) rows ->
         exists e, load parse_float src = Raise e)
  /\ (forall e,
         load parse_float src = Raise e ->
         forall (parent_dir : string) (env : Png.env),
           Plot.main parse_float src = Run [] (Raise e)
           /\ Chart.main parse_float parent_dir src = Run [] (Raise e)
           /\ Png.main parse_float parent_dir env src = Run [] (Raise e)
           /\ Simple.main parse_float src = Run [] (Raise e)).
Proof.
  split; [| split; [| split; [| split]]].
  - intros rows pairs -> Hrows. split; [| split].
    + unfold load. cbn. now rewrite (read_rows_ok _ _ Hrows).
    + rewrite length_fmap. symmetry. exact (Forall2_length _ _ _ Hrows).
    + rewrite length_fmap. symmetry. exact (Forall2_length _ _ _ Hrows).
  - now intros ->.
  - now intros ->.
  - intros rows -> Hbad. unfold load. cbn. now apply read_rows_raises.
  - intros e Hload parent_dir env.
    unfold Plot.main, Chart.main, Png.main, Simple.main. rewrite Hload.
    repeat split; reflexivity.
Qed.

End LoaderFacts.

Section LoaderExample.

Lemma loader_contract_witness :
  load three_numbers (Readable two_rows) = Ok ([0.5; 2], [7; 0.5])
  /\ length [0.5; 2] = length two_rows /\ length [7; 0.5] = length two_rows.
Proof.
  apply (proj1 (loader_contract three_numbers (Readable two_rows))
           two_rows [(0.5, 7); (2, 0.5)] eq_refl).
  repeat constructor.
Defined.

End LoaderExample.

(** ** Traces *)

Section TraceFacts.
Context {F : Type}.

Lemma trace_bind {A B} (m : io F A) (f : A -> io F B) :
  trace (m ≫= f)
  = trace m ++ match result m with Ok a => trace (f a) | Raise _ => [] end.
Proof.
  unfold mbind, io_bind. destruct (result m); cbn; [reflexivity | now rewrite app_nil_r].
Qed.

Lemma result_bind {A B} (m : io F A) (f : A -> io F B) :
  result (m ≫= f)
  = match result m with Ok a => result (f a) | Raise e => Raise e end.
Proof. unfold mbind, io_bind. now destruct (result m). Qed.

Lemma all_bind {A B} (P : event F -> Prop) (m : io F A) (f : A -> io F B) :
  Forall P (trace m) -> (forall a, Forall P (trace (f a))) ->
  Forall P (trace (m ≫= f)).
Proof.
  intros Hm Hf. rewrite trace_bind. apply Forall_app. split; [exact Hm |].
  destruct (result m); [apply Hf | constructor].
Qed.

Lemma all_for_each {A} (P : event F -> Prop) (l : list A) (body : A -> io F unit) :
  (forall a, Forall P (trace (body a))) -> Forall P (trace (for_each l body)).
Proof.
  intros Hbody. induction l as [| a l IH]; cbn [for_each].
  - constructor.
  - apply all_bind; [apply Hbody | intros _; exact IH].
Qed.





End TraceFacts.







Ltac leaf_event :=
  cbn [numberless is_write target numbers];
  first [ reflexivity | exact I | discriminate | congruence ].

Ltac step_trace :=
  first
    [ apply all_bind; [| intros ?]
    | apply all_for_each; intros ?
    | match goal with
      | |- Forall _ (trace (let '(_, _) := ?p in _)) => destruct p
      | |- Forall _ (trace (if ?b then _ else _)) => destruct b
      | |- Forall _ (trace (lift _)) => constructor
      | |- Forall _ (trace (mret _)) => constructor
      | |- Forall _ (trace (print _)) => constructor; [leaf_event | constructor]
      | |- Forall _ (trace (print_noline _)) =>
          constructor; [leaf_event | constructor]
      | |- Forall _ (trace (write_file _ _)) =>
          constructor; [leaf_event | constructor]
      | |- Forall _ (trace (Run [_] _)) =>
          constructor; [leaf_event | constructor]
      end ].

Section Silent.
Variable parse_float : string -> option R.
Variable parent_dir : string.



End Silent.

Section SummaryFacts.
Variable parse_float : string -> option R.

Lemma read_rows_lengths (rows : list row) :
  forall xs ys xs' ys',
    read_rows parse_float rows xs ys = Ok (xs', ys') ->
    length xs = length ys -> length xs' = length ys'.
Proof.
  induction rows as [| r rows IH]; intros xs ys xs' ys' Hrun Hlen; cbn [read_rows] in Hrun.
  - now injection Hrun as <- <-.
  - destruct (getitem r "eth_amount" ≫= float parse_float); cbn in Hrun; [| discriminate].
    destruct (getitem r "love_multiplier" ≫= float parse_float); cbn in Hrun; [| discriminate].
    apply (IH _ _ _ _ Hrun). rewrite !length_app. cbn. lia.
Qed.

Lemma load_lengths (src : source) (eths mults : list R) :
  load parse_float src = Ok (eths, mults) -> length eths = length mults.
Proof.
  unfold load. destruct (open_csv src); cbn; [| discriminate].
  intros Hrun. now apply (read_rows_lengths _ _ _ _ _ Hrun).
Qed.

Lemma mapM_ok {A B} (f : A -> res B) (l : list A) :
  (forall a, exists b, f a = Ok b) -> exists bs, mapM f l = Ok bs.
Proof.
  intros Hf. induction l as [| a l [bs IH]]; cbn [mapM].
  - now exists [].
  - destruct (Hf a) as [b ->]. rewrite IH. cbn. eauto.
Qed.

Lemma figure_ok (eths mults : list R) :
  eths <> [] -> length mults = length eths ->
  exists fig, Plot.figure eths mults = Ok fig.
Proof.
  intros Hne Hlen. unfold Plot.figure.
  destruct (mapM_ok (Plot.annotate eths mults) Plot.key_points) as [notes ->].
  - intros [[x y_target] label]. unfold Plot.annotate.
    destruct (actual_y_closest eths mults x y_target Hne Hlen) as (k & y & _ & _ & ->).
    cbn. eauto.
  - cbn. eauto.
Qed.

Lemma drops_below_total (threshold : R) (text : string) (eths mults : list R) :
  forall i : nat,
    (i + length mults <= length eths)%nat ->
    result (Plot.drops_below threshold text eths i mults) = Ok tt
    /\ Forall (fun e => is_write e = false)
         (trace (Plot.drops_below threshold text eths i mults)).
Proof.
  induction mults as [| mult rest IH]; intros i Hlen; cbn [Plot.drops_below].
  - split; [reflexivity | constructor].
  - cbn [length] in Hlen. case_bool_decide.
    + destruct (lookup_lt_is_Some_2 eths i) as [e He]; [lia |].
      unfold index. rewrite He. cbn. split; [reflexivity | repeat constructor].
    + apply IH. lia.
Qed.


Lemma min_list_ok (l : list R) : l <> [] -> exists m, min_list l = Ok m.
Proof. destruct l; [contradiction | cbn; eauto]. Qed.

Lemma max_list_ok (l : list R) : l <> [] -> exists m, max_list l = Ok m.
Proof. destruct l; [contradiction | cbn; eauto]. Qed.

Lemma summary_lines (eths mults : list R) (lo_x hi_x lo_y hi_y : R) :
  min_list eths = Ok lo_x -> max_list eths = Ok hi_x ->
  min_list mults = Ok lo_y -> max_list mults = Ok hi_y ->
  Plot.summary eths mults
  = Run [Stdout [Newline; Str "VRGDA Curve Summary:"] true;
         Stdout [Str "Minimum ETH: "; Float ".4f" lo_x] true;
         Stdout [Str "Maximum ETH: "; Float ".0f" hi_x] true;
         Stdout [Str "Maximum multiplier: "; Float ".1f" hi_y; Str "x"] true;
         Stdout [Str "Minimum multiplier: "; Float ".1f" lo_y; Str "x"] true]
        (Ok tt).
Proof. intros H1 H2 H3 H4. unfold Plot.summary. rewrite H1, H2, H3, H4. reflexivity. Qed.


End SummaryFacts.

Section SimpleSummary.
Variable parse_float : string -> option R.





End SimpleSummary.

(** ** Which script prints a summary *)

Section Summaries.
Variable parse_float : string -> option R.


End Summaries.

Section SummaryExamples.

Lemma two_rows_load :
  load three_numbers (Readable two_rows) = Ok ([0.5; 2], [7; 0.5]).
Proof. reflexivity. Qed.



End SummaryExamples.

(** ** The fallback rasterizer stays inside the image *)

Ltac in_bounds_tac :=
  unfold in_bounds, Mapper.chart_height, Mapper.height, Mapper.width, Mapper.margin in *;
  cbn [Png.py Png.px] in *; lia.

Section Raster.
Import Mapper.

Lemma elem_of_range (a b x : Z) : x ∈ range a b <-> (a <= x < b)%Z.
Proof. rewrite list_elem_of_In. apply in_range. Qed.

Lemma zone_fill_in_bounds (z : R * R * Png.color) (l : list Png.assign) :
  Png.zone_fill z = Ok l -> Forall in_bounds l.
Proof.
  destruct z as [[start end_] c]. unfold Png.zone_fill.
  destruct (map_x start) as [c1 |]; cbn [mbind res_bind]; [| discriminate].
  destruct (map_x end_) as [c2 |]; cbn [mbind res_bind mret res_ret]; [| discriminate].
  intros Heq; apply Ok_inj in Heq; subst l. apply Forall_forall. intros a Ha.
  apply list_elem_of_bind in Ha as (y & Ha & Hy).
  apply list_elem_of_bind in Ha as (x & Ha & Hx).
  apply list_elem_of_singleton in Ha as ->.
  apply elem_of_range in Hy, Hx. in_bounds_tac.
Qed.

Lemma zone_fill_ok (z : R * R * Png.color) :
  0 < z.1.1 -> 0 < z.1.2 -> exists l, Png.zone_fill z = Ok l.
Proof.
  destruct z as [[start end_] c]. cbn. intros Hs He. unfold Png.zone_fill.
  rewrite (map_x_ok start Hs), (map_x_ok end_ He). cbn [mbind res_bind mret res_ret]. eauto.
Qed.

Lemma zone_fills_in_bounds (zs : list (R * R * Png.color)) (fills : list (list Png.assign)) :
  mapM Png.zone_fill zs = Ok fills -> Forall in_bounds (concat fills).
Proof.
  revert fills. induction zs as [| z zs IH]; intros fills; cbn [mapM].
  - intros Heq; apply Ok_inj in Heq; subst fills. constructor.
  - destruct (Png.zone_fill z) as [l |] eqn:Hz; cbn; [| discriminate].
    destruct (mapM Png.zone_fill zs) as [ls |]; cbn; [| discriminate].
    intros Heq; apply Ok_inj in Heq; subst fills. cbn [concat]. apply Forall_app_2.
    + exact (zone_fill_in_bounds z l Hz).
    + now apply IH.
Qed.

Lemma zone_fills_ok : exists fills, mapM Png.zone_fill Png.fallback_zones = Ok fills.
Proof.
  unfold Png.fallback_zones. cbn [mapM].
  repeat (match goal with
          | |- context [Png.zone_fill ?z] =>
              destruct (zone_fill_ok z) as [? ->]; [cbn; lra | cbn; lra |]
          end; cbn [mbind res_bind]).
  cbn. eauto.
Qed.

Lemma border_in_bounds : Forall in_bounds Png.border_pixels.
Proof.
  unfold Png.border_pixels. apply Forall_app_2; apply Forall_forall; intros a Ha;
    apply list_elem_of_bind in Ha as (x & Ha & Hx); apply elem_of_range in Hx;
    apply list_elem_of_In in Ha; destruct Ha as [<- | [<- | []]]; in_bounds_tac.
Qed.

Lemma grid_in_bounds : Forall in_bounds Png.grid_pixels.
Proof.
  unfold Png.grid_pixels. apply Forall_forall. intros a Ha.
  apply list_elem_of_bind in Ha as (i & Ha & Hi).
  apply list_elem_of_bind in Ha as (x & Ha & Hx).
  apply elem_of_range in Hi, Hx.
  case_bool_decide; [| now apply elem_of_nil in Ha].
  apply list_elem_of_singleton in Ha as ->.
  assert (0 <= i * chart_height / 10 <= 480)%Z.
  { unfold chart_height, height, margin. split.
    - apply Z.div_pos; lia.
    - apply Z.div_le_upper_bound; lia. }
  in_bounds_tac.
Qed.

Lemma line_in_bounds (prev_x prev_y x y : Z) :
  Forall in_bounds (Png.line_pixels prev_x prev_y x y).
Proof.
  unfold Png.line_pixels. case_bool_decide; [| constructor].
  apply Forall_forall. intros a Ha.
  apply list_elem_of_bind in Ha as (j & Ha & _).
  destruct (bool_decide _ && bool_decide _) eqn:Hguard; [| now apply elem_of_nil in Ha].
  apply andb_true_iff in Hguard as [Hy Hx]. apply bool_decide_eq_true in Hy, Hx.
  apply elem_of_app in Ha as [Ha | Ha]; [| apply elem_of_app in Ha as [Ha | Ha]].
  - apply list_elem_of_singleton in Ha as ->. in_bounds_tac.
  - case_bool_decide; [| now apply elem_of_nil in Ha].
    apply list_elem_of_singleton in Ha as ->. in_bounds_tac.
  - case_bool_decide; [| now apply elem_of_nil in Ha].
    apply list_elem_of_singleton in Ha as ->. in_bounds_tac.
Qed.

Lemma point_in_bounds (x y : Z) : Forall in_bounds (Png.point_pixels x y).
Proof.
  unfold Png.point_pixels. apply Forall_forall. intros a Ha.
  apply list_elem_of_bind in Ha as (dy & Ha & _).
  apply list_elem_of_bind in Ha as (dx & Ha & _).
  case_bool_decide; [| now apply elem_of_nil in Ha].
  destruct (bool_decide _ && bool_decide _) eqn:Hguard; [| now apply elem_of_nil in Ha].
  apply andb_true_iff in Hguard as [Hy Hx]. apply bool_decide_eq_true in Hy, Hx.
  apply list_elem_of_singleton in Ha as ->. in_bounds_tac.
Qed.

Lemma curve_in_bounds (samples : list (R * R)) :
  forall (prev : option (Z * Z)) (l : list Png.assign),
    Png.curve_pixels prev samples = Ok l -> Forall in_bounds l.
Proof.
  induction samples as [| [eth mult] rest IH]; intros prev l; cbn [Png.curve_pixels].
  - intros Heq; apply Ok_inj in Heq; subst l. constructor.
  - destruct (map_x eth) as [c |]; cbn; [| discriminate].
    destruct (Png.curve_pixels _ rest) as [later |] eqn:Hlater; cbn; [| discriminate].
    intros Heq; apply Ok_inj in Heq; subst l. apply Forall_app_2; [| apply Forall_app_2].
    + destruct prev as [[prev_x prev_y] |]; [apply line_in_bounds | constructor].
    + apply point_in_bounds.
    + exact (IH _ _ Hlater).
Qed.

Lemma curve_ok (samples : list (R * R)) :
  Forall (fun s => 0 < s.1) samples ->
  forall prev, exists l, Png.curve_pixels prev samples = Ok l.
Proof.
  induction 1 as [| [eth mult] rest Heth _ IH]; intros prev; cbn [Png.curve_pixels].
  - eauto.
  - cbn in Heth. rewrite (map_x_ok eth Heth). cbn.
    match goal with |- context [Png.curve_pixels ?p rest] => destruct (IH p) as [later ->] end.
    cbn. eauto.
Qed.

Lemma assignments_in_bounds (eths mults : list R) (l : list Png.assign) :
  Png.assignments eths mults = Ok l -> Forall in_bounds l.
Proof.
  unfold Png.assignments.
  destruct (mapM Png.zone_fill Png.fallback_zones) as [fills |] eqn:Hfills;
    cbn [mbind res_bind]; [| discriminate].
  destruct (Png.curve_pixels None (zip eths mults)) as [curve |] eqn:Hcurve;
    cbn [mbind res_bind]; [| discriminate].
  intros Heq; apply Ok_inj in Heq; subst l.
  apply Forall_app_2; [| apply Forall_app_2; [| apply Forall_app_2]].
  - exact (zone_fills_in_bounds _ _ Hfills).
  - exact border_in_bounds.
  - exact grid_in_bounds.
  - exact (curve_in_bounds _ _ _ Hcurve).
Qed.

Lemma assignments_ok (eths mults : list R) :
  Forall (fun eth => 0 < eth) eths -> exists l, Png.assignments eths mults = Ok l.
Proof.
  intros Hpos. unfold Png.assignments.
  destruct zone_fills_ok as [fills ->]. cbn [mbind res_bind].
  destruct (curve_ok (zip eths mults)) with (prev := @None (Z * Z)) as [curve ->].
  - apply Forall_forall. intros [eth mult] Hin. cbn.
    apply elem_of_zip_l in Hin. rewrite Forall_forall in Hpos. now apply Hpos.
  - cbn [mbind res_bind mret res_ret]. eauto.
Qed.

Lemma position_in (len : nat) (i : Z) :
  (0 <= i < Z.of_nat len)%Z -> Png.position len i = Ok (Z.to_nat i).
Proof. intros Hi. unfold Png.position. now rewrite bool_decide_eq_true_2. Qed.

Lemma blank_well_sized : well_sized Png.blank.
Proof.
  unfold well_sized, Png.blank. split.
  - apply length_replicate.
  - apply Forall_replicate, length_replicate.
Qed.

Lemma set_pixel_ok (pixels : list (list Png.color)) (a : Png.assign) :
  well_sized pixels -> in_bounds a ->
  exists pixels', Png.set_pixel pixels a = Ok pixels' /\ well_sized pixels'.
Proof.
  intros [Hrows Hcols] [Hy Hx]. unfold Png.set_pixel.
  rewrite position_in by lia. cbn [mbind res_bind].
  destruct (lookup_lt_is_Some_2 pixels (Z.to_nat (Png.py a))) as [row Hrow]; [lia |].
  unfold index. rewrite Hrow. cbn [mbind res_bind].
  assert (Hlen : length row = Z.to_nat width).
  { rewrite Forall_forall in Hcols. apply Hcols. eapply list_elem_of_lookup_2, Hrow. }
  rewrite position_in by lia. cbn [mbind res_bind mret res_ret].
  eexists. split; [reflexivity |]. split.
  - now rewrite length_insert.
  - apply Forall_insert; [exact Hcols |]. now rewrite length_insert.
Qed.

Lemma paint_all_ok (l : list Png.assign) :
  Forall in_bounds l ->
  forall pixels, well_sized pixels -> exists pixels', Png.paint_all pixels l = Ok pixels'.
Proof.
  induction 1 as [| a l Ha _ IH]; intros pixels Hsize; cbn [Png.paint_all].
  - eauto.
  - destruct (set_pixel_ok pixels a Hsize Ha) as (pixels' & -> & Hsize').
    cbn [mbind res_bind]. now apply IH.
Qed.



End Raster.

(** ** Running a script twice *)

Section Reruns.
Context {F : Type}.

Lemma apply_event_lookup (m : gmap string (file F)) (e : event F) (p : string) :
  apply_event m e !! p = effect e p (m !! p).
Proof.
  destruct e as [l b | q c | q]; cbn.
  - reflexivity.
  - rewrite lookup_insert. now destruct (decide (q = p)).
  - rewrite lookup_delete. now destruct (decide (q = p)).
Qed.

Lemma commit_lookup (tr : list (event F)) :
  forall (m : gmap string (file F)) (p : string),
    commit tr m !! p = last_effect tr p (m !! p).
Proof.
  induction tr as [| e tr IH]; intros m p; cbn.
  - reflexivity.
  - unfold commit in IH. rewrite IH, apply_event_lookup. reflexivity.
Qed.

(** What a trace leaves at a path is either what was there or something
    the trace alone decides. *)
Lemma last_effect_cases (tr : list (event F)) (p : string) :
  (forall v, last_effect tr p v = v) \/ (exists w, forall v, last_effect tr p v = w).
Proof.
  induction tr as [| e tr [IH | [w IH]]]; cbn.
  - now left.
  - destruct e as [l b | q c | q]; cbn.
    + now left.
    + destruct (decide (q = p)); [right | now left].
      exists (Some (Artifact c)). intros v. apply IH.
    + destruct (decide (q = p)); [right | now left].
      exists None. intros v. apply IH.
  - right. exists w. intros v. apply IH.
Qed.

Lemma commit_twice (tr : list (event F)) (m : gmap string (file F)) :
  commit tr (commit tr m) = commit tr m.
Proof.
  apply map_eq. intros p. rewrite !commit_lookup.
  destruct (last_effect_cases tr p) as [H | [w H]]; now rewrite !H.
Qed.

Lemma commit_elsewhere (tr : list (event F)) (m : gmap string (file F)) (p : string) :
  Forall (fun e => target e <> Some p) tr -> commit tr m !! p = m !! p.
Proof.
  intros Hall. rewrite commit_lookup. generalize (m !! p).
  induction Hall as [| e tr He _ IH]; intros v; cbn; [reflexivity |].
  rewrite IH. destruct e as [l b | q c | q]; cbn in *; [reflexivity | |];
    destruct (decide (q = p)); congruence.
Qed.

(** A script that leaves its dataset alone behaves the same when run
    again: same trace, same files. *)
Lemma rerun_same {A} (script : source -> io F A) (csv : string)
    (m : gmap string (file F)) :
  (forall src, Forall (fun e => target e <> Some csv) (trace (script src))) ->
  trace (script (open_read (exec script csv m) csv)) = trace (script (open_read m csv))
  /\ exec script csv (exec script csv m) = exec script csv m.
Proof.
  intros Hkeeps.
  assert (Hsame : open_read (exec script csv m) csv = open_read m csv).
  { unfold open_read, exec. now rewrite commit_elsewhere by apply Hkeeps. }
  split; [now rewrite Hsame |].
  unfold exec at 1. rewrite Hsame. apply commit_twice.
Qed.

End Reruns.

Section Paths.

Lemma length_append (a b : string) :
  String.length (a +:+ b) = (String.length a + String.length b)%nat.
Proof. induction a as [| c a IH]; simpl; [reflexivity | now f_equal]. Qed.

Lemma length_join (a b : string) :
  String.length (join a b) = (String.length a + separator a + String.length b)%nat.
Proof.
  unfold join, separator. destruct (bool_decide (a = "")) eqn:Ha.
  - apply bool_decide_eq_true in Ha. now subst a.
  - destruct (ends_with_slash a); rewrite !length_append; cbn; lia.
Qed.

Lemma chart_paths_differ (parent_dir : string) :
  Chart.svg_path parent_dir <> Chart.csv_path parent_dir
  /\ Chart.html_path parent_dir <> Chart.csv_path parent_dir.
Proof.
  split; intros Heq; apply (f_equal String.length) in Heq;
    unfold Chart.svg_path, Chart.html_path, Chart.csv_path, Chart.output_dir in Heq;
    rewrite !length_join in Heq; cbn in Heq; lia.
Qed.

End Paths.

Section Determinism.
Variable parse_float : string -> option R.
Variable parent_dir : string.

Lemma chart_keeps_dataset (src : source) :
  Forall (fun e => target e <> Some (Chart.csv_path parent_dir))
    (trace (Chart.main parse_float parent_dir src)).
Proof.
  destruct (chart_paths_differ parent_dir) as [Hsvg Hhtml].
  unfold Chart.main. repeat step_trace.
Qed.

Lemma simple_keeps_dataset (src : source) :
  Forall (fun e => target e <> Some "vrgda_curve_data.csv"%string)
    (trace (Simple.main parse_float src)).
Proof. unfold Simple.main. repeat step_trace. Qed.

(** The two loops over the samples (the polyline's points, the circles)
    map every sample to the same coordinates. *)
Lemma circles_on_points (samples : list (R * R)) :
  forall points,
    mapM Chart.point samples = Ok points ->
    mapM Chart.circle samples = Ok (map (fun p => Chart.Circle p.1 p.2 3) points).
Proof.
  induction samples as [| [eth mult] rest IH]; intros points; cbn [mapM].
  - intros Heq. apply Ok_inj in Heq. now subst points.
  - cbn [Chart.point Chart.circle].
    destruct (Mapper.map_x eth) as [x |]; cbn; [| discriminate].
    destruct (mapM Chart.point rest) as [pts |]; cbn; [| discriminate].
    intros Heq. apply Ok_inj in Heq. subst points.
    rewrite (IH pts eq_refl). reflexivity.
Qed.

(** C8: the SVG script maps a sample to the same coordinates each time it
    maps it, and run again on the files it left behind it prints and
    writes exactly what it did the first time, leaving the same files; so
    does the character-art script. *)
Theorem rerun_is_identical
    (m : gmap string (file Chart.artifact)) (m' : gmap string (file Simple.artifact))
    (samples : list (R * R)) :
  (forall points,
      mapM Chart.point samples = Ok points ->
      mapM Chart.circle samples = Ok (map (fun p => Chart.Circle p.1 p.2 3) points))
  /\ trace (Chart.main parse_float parent_dir
             (open_read (exec (Chart.main parse_float parent_dir)
                              (Chart.csv_path parent_dir) m)
                        (Chart.csv_path parent_dir)))
     = trace (Chart.main parse_float parent_dir
                (open_read m (Chart.csv_path parent_dir)))
  /\ exec (Chart.main parse_float parent_dir) (Chart.csv_path parent_dir)
       (exec (Chart.main parse_float parent_dir) (Chart.csv_path parent_dir) m)
     = exec (Chart.main parse_float parent_dir) (Chart.csv_path parent_dir) m
  /\ trace (Simple.main parse_float
             (open_read (exec (Simple.main parse_float) "vrgda_curve_data.csv" m')
                        "vrgda_curve_data.csv"))
     = trace (Simple.main parse_float (open_read m' "vrgda_curve_data.csv"))
  /\ exec (Simple.main parse_float) "vrgda_curve_data.csv"
       (exec (Simple.main parse_float) "vrgda_curve_data.csv" m')
     = exec (Simple.main parse_float) "vrgda_curve_data.csv" m'.
Proof.
  split; [apply circles_on_points |].
  destruct (rerun_same (Chart.main parse_float parent_dir) (Chart.csv_path parent_dir) m
              chart_keeps_dataset) as [Htrace Hfiles].
  destruct (rerun_same (Simple.main parse_float) "vrgda_curve_data.csv" m'
              simple_keeps_dataset) as [Htrace' Hfiles'].
  auto.
Qed.

End Determinism.

Section DeterminismExample.

Lemma rerun_is_identical_witness :
  trace (Chart.main three_numbers ""
           (open_read (exec (Chart.main three_numbers "") (Chart.csv_path "")
                            only_dataset)
                      (Chart.csv_path "")))
  = trace (Chart.main three_numbers ""
             (open_read only_dataset
                        (Chart.csv_path "")))
  /\ exec (Chart.main three_numbers "") (Chart.csv_path "")
       (exec (Chart.main three_numbers "") (Chart.csv_path "")
             only_dataset)
     = exec (Chart.main three_numbers "") (Chart.csv_path "")
         only_dataset.
Proof.
  pose proof (rerun_is_identical three_numbers ""
                only_dataset ∅ []) as H.
  split; [exact (proj1 (proj2 H)) | exact (proj1 (proj2 (proj2 H)))].
Defined.

End DeterminismExample.

(** ** Further properties of the scripts *)

Section Extremes.

Lemma fold_min_spec (l : list R) :
  forall x0, (fold_left Rmin l x0 = x0 \/ In (fold_left Rmin l x0) l)
             /\ fold_left Rmin l x0 <= x0
             /\ forall x, In x l -> fold_left Rmin l x0 <= x.
Proof.
  induction l as [| y l IH]; intros x0; cbn [fold_left].
  - split; [now left | split; [lra | intros x []]].
  - destruct (IH (Rmin x0 y)) as (Hin & Hle & Hall).
    pose proof (Rmin_l x0 y). pose proof (Rmin_r x0 y).
    split; [| split].
    + destruct Hin as [Heq | Hin]; [| right; now right].
      rewrite Heq. unfold Rmin. destruct (Rle_dec x0 y); [now left | right; now left].
    + lra.
    + intros x [<- | Hx]; [lra | now apply Hall].
Qed.

Lemma fold_max_spec (l : list R) :
  forall x0, (fold_left Rmax l x0 = x0 \/ In (fold_left Rmax l x0) l)
             /\ x0 <= fold_left Rmax l x0
             /\ forall x, In x l -> x <= fold_left Rmax l x0.
Proof.
  induction l as [| y l IH]; intros x0; cbn [fold_left].
  - split; [now left | split; [lra | intros x []]].
  - destruct (IH (Rmax x0 y)) as (Hin & Hle & Hall).
    pose proof (Rmax_l x0 y). pose proof (Rmax_r x0 y).
    split; [| split].
    + destruct Hin as [Heq | Hin]; [| right; now right].
      rewrite Heq. unfold Rmax. destruct (Rle_dec x0 y); [right; now left | now left].
    + lra.
    + intros x [<- | Hx]; [lra | now apply Hall].
Qed.

(** X4: the least and greatest values the summaries show are elements of
    the sequence and bound every element. *)
Theorem min_max_are_extremes (l : list R) (lo hi : R) :
  min_list l = Ok lo -> max_list l = Ok hi ->
  In lo l /\ In hi l /\ forall x, In x l -> lo <= x <= hi.
Proof.
  destruct l as [| x0 l]; cbn [min_list max_list]; [discriminate |].
  intros Hlo Hhi. apply Ok_inj in Hlo, Hhi. subst lo hi.
  destruct (fold_min_spec l x0) as (Hin & Hle & Hall).
  destruct (fold_max_spec l x0) as (Hin' & Hle' & Hall').
  split; [| split].
  - destruct Hin as [-> | Hin]; [now left | now right].
  - destruct Hin' as [-> | Hin']; [now left | now right].
  - intros x [<- | Hx]; [lra |]. split; [now apply Hall | now apply Hall'].
Qed.

Lemma min_max_are_extremes_witness :
  In 0.001 [0.001; 1; 100] /\ In 100 [0.001; 1; 100]
  /\ forall x, In x [0.001; 1; 100] -> 0.001 <= x <= 100.
Proof.
  apply (min_max_are_extremes [0.001; 1; 100] 0.001 100); cbn; f_equal.
  - unfold Rmin. repeat (destruct (Rle_dec _ _); try lra).
  - unfold Rmax. repeat (destruct (Rle_dec _ _); try lra).
Defined.

End Extremes.

Section MappingRange.
Import Mapper.

(** X3: every x of the axis range is mapped into the chart area, from
    [margin] to [margin + chart_width]. *)
Theorem map_x_within_chart (x : R) :
  0.0001 <= x <= 200 ->
  exists c : R, map_x x = Ok c /\ margin <= c <= (margin + chart_width)%Z.
Proof.
  intros [Hlo Hhi]. rewrite map_x_ok by lra. eexists. split; [reflexivity |].
  pose proof log_span_pos as Hspan.
  assert (Hl : log10r 0.0001 <= log10r x).
  { destruct Hlo as [Hlt | <-]; [left; apply log10r_increasing; lra | right; reflexivity]. }
  assert (Hh : log10r x <= log10r 200).
  { destruct Hhi as [Hlt | ->]; [left; apply log10r_increasing; lra | right; reflexivity]. }
  set (q := (log10r x - log10r 0.0001) / (log10r 200 - log10r 0.0001)).
  assert (Hq : 0 <= q <= 1).
  { unfold q. split.
    - apply Rmult_le_pos; [lra | left; now apply Rinv_0_lt_compat].
    - apply Rmult_le_reg_r with (log10r 200 - log10r 0.0001); [exact Hspan |].
      unfold Rdiv. rewrite Rmult_assoc, Rinv_l by lra. lra. }
  rewrite plus_IZR, chart_width_eq. unfold margin. nra.
Qed.

Lemma map_x_within_chart_witness :
  exists c : R, map_x 1 = Ok c /\ margin <= c <= (margin + chart_width)%Z.
Proof. apply (map_x_within_chart 1). lra. Defined.

End MappingRange.

Section NoCrossing.

(** X6: when no multiplier is below the threshold the crossing loop
    prints nothing. *)
Theorem no_crossing_prints_nothing (threshold : R) (text : string)
    (eth_amounts love_multipliers : list R) :
  (forall y, In y love_multipliers -> threshold <= y) ->
  Plot.drops_below threshold text eth_amounts 0 love_multipliers = Run [] (Ok tt).
Proof. apply drops_below_silent. Qed.

Lemma no_crossing_prints_nothing_witness :
  Plot.drops_below 1 "Multiplier drops below 1x at: " [0.5; 2] 0 [7; 5.5]
  = Run [] (Ok tt).
Proof.
  apply (no_crossing_prints_nothing 1 _ [0.5; 2] [7; 5.5]).
  intros y [<- | [<- | []]]; lra.
Defined.

End NoCrossing.

Section Glyphs.

Lemma lift_ok_bind {F A B} (a : A) (f : A -> io F B) : lift (Ok a) ≫= f = f a.
Proof. unfold mbind, io_bind, lift. cbn. now destruct (f a). Qed.

Lemma eth_position_pos (col : Z) : 0 < Simple.eth_position col.
Proof.
  unfold Simple.eth_position. apply Rmult_lt_0_compat; [lra |].
  unfold Rpower. apply exp_pos.
Qed.



End Glyphs.

(** ** Errors of the loader *)

Section LoaderErrors.
Variable parse_float : string -> option R.

Lemma read_rows_app (good : list row) (pairs : list (R * R)) :
  Forall2 (fun r p => row_numbers parse_float r = Some p) good pairs ->
  forall rest xs ys,
    read_rows parse_float (good ++ rest) xs ys
    = read_rows parse_float rest (xs ++ pairs.*1) (ys ++ pairs.*2).
Proof.
  induction 1 as [| r [x y] good pairs Hr _ IH]; intros rest xs ys.
  - cbn. now rewrite !app_nil_r.
  - cbn [app read_rows]. unfold row_numbers in Hr.
    destruct (field parse_float r "eth_amount") as [x' |] eqn:Hx; [| discriminate].
    destruct (field parse_float r "love_multiplier") as [y' |] eqn:Hy; [| discriminate].
    injection Hr as -> ->.
    rewrite (read_field_ok _ _ _ _ Hx), (read_field_ok _ _ _ _ Hy). cbn.
    rewrite IH, <- !app_assoc. reflexivity.
Qed.

(** X8: the first row that cannot be read decides the error, whatever
    follows it: a row without the column raises KeyError naming the
    column, a row too short for it raises TypeError, text that is no
    number raises ValueError; the x field is read before the y field. *)
Theorem first_bad_row_decides_error
    (good : list row) (pairs : list (R * R)) (bad : row) (rest : list row) :
  Forall2 (fun r p => row_numbers parse_float r = Some p) good pairs ->
  let outcome := load parse_float (Readable (good ++ bad :: rest)) in
  (bad !! "eth_amount" = None -> outcome = Raise (KeyError "eth_amount"))
  /\ (bad !! "eth_amount" = Some None -> outcome = Raise TypeError)
  /\ (forall s, bad !! "eth_amount" = Some (Some s) -> parse_float s = None ->
                outcome = Raise ValueError)
  /\ (forall x, field parse_float bad "eth_amount" = Some x ->
        (bad !! "love_multiplier" = None -> outcome = Raise (KeyError "love_multiplier"))
        /\ (bad !! "love_multiplier" = Some None -> outcome = Raise TypeError)
        /\ (forall s, bad !! "love_multiplier" = Some (Some s) -> parse_float s = None ->
                      outcome = Raise ValueError)).
Proof.
  intros Hgood outcome. subst outcome. unfold load. cbn [open_csv mbind res_bind].
  rewrite (read_rows_app _ _ Hgood). cbn [read_rows].
  split; [| split; [| split]].
  - intros Hx. unfold getitem. now rewrite Hx.
  - intros Hx. unfold getitem. now rewrite Hx.
  - intros s Hx Hs. unfold getitem. rewrite Hx. cbn. now rewrite Hs.
  - intros x Hx. rewrite (read_field_ok _ _ _ _ Hx). cbn [mbind res_bind].
    split; [| split].
    + intros Hy. unfold getitem. now rewrite Hy.
    + intros Hy. unfold getitem. now rewrite Hy.
    + intros s Hy Hs. unfold getitem. rewrite Hy. cbn. now rewrite Hs.
Qed.

End LoaderErrors.

Section LoaderErrorsExample.

Lemma first_bad_row_decides_error_witness :
  load three_numbers (Readable (two_rows ++ malformed_row :: two_rows)) = Raise ValueError.
Proof.
  refine (proj1 (proj2 (proj2 (first_bad_row_decides_error three_numbers
            two_rows [(0.5, 7); (2, 0.5)] malformed_row two_rows _))) "abc"%string _ _).
  - repeat constructor.
  - reflexivity.
  - reflexivity.
Defined.

End LoaderErrorsExample.

(** ** When a script runs to the end *)

Section MapM.

Lemma mapM_raises {A B} (f : A -> res B) (e : exn) (l : list A) :
  (forall a, f a = Raise e \/ exists b, f a = Ok b) ->
  Exists (fun a => f a = Raise e) l ->
  mapM f l = Raise e.
Proof.
  intros Hf. induction 1 as [a l Ha | a l _ IH]; cbn [mapM].
  - now rewrite Ha.
  - destruct (Hf a) as [-> | [b ->]]; [reflexivity |].
    cbn [mbind res_bind]. now rewrite IH.
Qed.

Lemma mapM_all_ok {A B} (f : A -> res B) (l : list A) :
  Forall (fun a => exists b, f a = Ok b) l -> exists bs, mapM f l = Ok bs.
Proof.
  induction 1 as [| a l [b Hb] _ [bs IH]]; cbn [mapM].
  - now exists [].
  - rewrite Hb, IH. cbn. eauto.
Qed.

End MapM.

Section SvgOutcome.
Import Mapper.
Variable parse_float : string -> option R.
Variable parent_dir : string.

Lemma map_x_cases (x : R) :
  (0 < x /\ exists c, map_x x = Ok c) \/ (x <= 0 /\ map_x x = Raise ValueError).
Proof.
  destruct (Rlt_dec 0 x) as [Hx | Hx].
  - left. split; [exact Hx |]. rewrite map_x_ok by exact Hx. eauto.
  - right. split; [lra |]. apply map_x_raises. lra.
Qed.

Lemma chart_static_ok :
  (exists rects, mapM Chart.zone_rect Chart.zones = Ok rects)
  /\ (exists ticks, mapM Chart.x_label Chart.x_labels = Ok ticks)
  /\ (exists labels, mapM Chart.zone_label Chart.zones = Ok labels).
Proof.
  split; [| split]; apply mapM_all_ok; repeat constructor.
  all: try (unfold Chart.zone_rect; rewrite !map_x_ok by lra; cbn; eauto).
  all: try (unfold Chart.x_label; rewrite !map_x_ok by lra; cbn; eauto).
  all: unfold Chart.zone_label; rewrite !x_center_ok by lra; cbn; eauto.
Qed.

Lemma point_cases (s : R * R) :
  Chart.point s = Raise ValueError \/ exists p, Chart.point s = Ok p.
Proof.
  destruct s as [eth mult]. cbn [Chart.point].
  destruct (map_x_cases eth) as [[_ [c ->]] | [_ ->]]; cbn; eauto.
Qed.

Lemma circle_cases (s : R * R) :
  Chart.circle s = Raise ValueError \/ exists p, Chart.circle s = Ok p.
Proof.
  destruct s as [eth mult]. cbn [Chart.circle].
  destruct (map_x_cases eth) as [[_ [c ->]] | [_ ->]]; cbn; eauto.
Qed.

Lemma build_svg_ok (eths mults : list R) :
  Forall (fun s => 0 < s.1) (zip eths mults) ->
  exists svg, Chart.build_svg eths mults = Ok svg.
Proof.
  intros Hpos. unfold Chart.build_svg.
  destruct chart_static_ok as ([rects ->] & [ticks ->] & [labels Hlabels]).
  cbn [mbind res_bind].
  destruct (mapM_all_ok Chart.point (zip eths mults)) as [points Hpoints].
  { eapply Forall_impl; [exact Hpos |]. intros [eth mult] Hs. cbn in *.
    rewrite map_x_ok by exact Hs. cbn. eauto. }
  rewrite Hpoints, (circles_on_points _ _ Hpoints), Hlabels. cbn. eauto.
Qed.

Lemma build_svg_raises (eths mults : list R) :
  Exists (fun s => s.1 <= 0) (zip eths mults) ->
  Chart.build_svg eths mults = Raise ValueError.
Proof.
  intros Hbad. unfold Chart.build_svg.
  destruct chart_static_ok as ([rects ->] & [ticks ->] & _).
  cbn [mbind res_bind].
  rewrite (mapM_raises Chart.point ValueError); [reflexivity | exact point_cases |].
  eapply Exists_impl; [exact Hbad |]. intros [eth mult] Hs. cbn in *.
  now rewrite map_x_raises.
Qed.

Lemma zip_positive (eths mults : list R) :
  length eths = length mults ->
  (Forall (fun eth => 0 < eth) eths <-> Forall (fun s : R * R => 0 < s.1) (zip eths mults)).
Proof.
  intros Hlen. rewrite <- (fst_zip eths mults) at 1 by lia. apply Forall_fmap.
Qed.

Lemma zip_nonpositive (eths mults : list R) :
  length eths = length mults ->
  Exists (fun eth => eth <= 0) eths -> Exists (fun s : R * R => s.1 <= 0) (zip eths mults).
Proof.
  intros Hlen. rewrite <- (fst_zip eths mults) at 1 by lia. now rewrite Exists_fmap.
Qed.

Lemma positive_or_not (eths : list R) :
  Forall (fun eth => 0 < eth) eths \/ Exists (fun eth => eth <= 0) eths.
Proof.
  induction eths as [| eth eths [IH | IH]].
  - left. constructor.
  - destruct (Rlt_dec 0 eth); [left; now constructor | right; left; lra].
  - right. now right.
Qed.

Lemma positive_not_both (eths : list R) :
  Forall (fun eth => 0 < eth) eths -> Exists (fun eth => eth <= 0) eths -> False.
Proof.
  intros Hall Hex. apply Exists_exists in Hex as (eth & Hin & Hle).
  rewrite Forall_forall in Hall. specialize (Hall eth Hin). lra.
Qed.

Lemma chart_main_ok (src : source) (eths mults : list R) (svg : list Chart.elem) :
  load parse_float src = Ok (eths, mults) ->
  Chart.build_svg eths mults = Ok svg ->
  Chart.main parse_float parent_dir src
  = Run [FileWrite (Chart.svg_path parent_dir) (Chart.Svg svg);
         Stdout [Str "SVG chart saved to: "; Str (Chart.svg_path parent_dir)] true;
         FileWrite (Chart.html_path parent_dir) (Chart.Html svg);
         Stdout [Str "HTML chart saved to: "; Str (Chart.html_path parent_dir)] true;
         Stdout [Newline;
                 Str "You can open the HTML file in a web browser to view the interactive chart."]
                true]
        (Ok tt).
Proof. intros Hload Hsvg. unfold Chart.main. rewrite Hload. cbn -[Chart.build_svg]. now rewrite Hsvg. Qed.

Lemma chart_main_raises (src : source) (eths mults : list R) (e : exn) :
  load parse_float src = Ok (eths, mults) ->
  Chart.build_svg eths mults = Raise e ->
  Chart.main parse_float parent_dir src = Run [] (Raise e).
Proof. intros Hload Hsvg. unfold Chart.main. rewrite Hload. cbn -[Chart.build_svg]. now rewrite Hsvg. Qed.

Lemma chart_load_raises (src : source) (e : exn) :
  load parse_float src = Raise e ->
  Chart.main parse_float parent_dir src = Run [] (Raise e).
Proof. intros Hload. unfold Chart.main. now rewrite Hload. Qed.

(** X9: the SVG script is all or nothing.  Either it ends with an error
    having printed and written nothing, or it writes the SVG file and the
    HTML file, both holding the same drawing, prints its three lines and
    ends normally. *)
Theorem svg_script_all_or_nothing (src : source) :
  (exists e, Chart.main parse_float parent_dir src = Run [] (Raise e))
  \/ (exists svg,
        Chart.main parse_float parent_dir src
        = Run [FileWrite (Chart.svg_path parent_dir) (Chart.Svg svg);
               Stdout [Str "SVG chart saved to: "; Str (Chart.svg_path parent_dir)] true;
               FileWrite (Chart.html_path parent_dir) (Chart.Html svg);
               Stdout [Str "HTML chart saved to: "; Str (Chart.html_path parent_dir)] true;
               Stdout [Newline;
                       Str "You can open the HTML file in a web browser to view the interactive chart."]
                      true]
              (Ok tt)).
Proof.
  destruct (load parse_float src) as [[eths mults] | e] eqn:Hload.
  - destruct (Chart.build_svg eths mults) as [svg | e] eqn:Hsvg.
    + right. exists svg. now apply (chart_main_ok src eths mults).
    + left. exists e. now apply (chart_main_raises src eths mults).
  - left. exists e. now apply chart_load_raises.
Qed.

(** X10: the SVG script ends normally exactly when the dataset loads and
    every x is positive; a loaded dataset with an x that is zero or
    negative makes it end with ValueError, nothing printed or written. *)
Theorem svg_script_succeeds_iff (src : source) :
  (result (Chart.main parse_float parent_dir src) = Ok tt
   <-> exists eths mults,
         load parse_float src = Ok (eths, mults) /\ Forall (fun eth => 0 < eth) eths)
  /\ (forall eths mults,
         load parse_float src = Ok (eths, mults) ->
         Exists (fun eth => eth <= 0) eths ->
         Chart.main parse_float parent_dir src = Run [] (Raise ValueError)).
Proof.
  assert (Hbad : forall eths mults,
             load parse_float src = Ok (eths, mults) ->
             Exists (fun eth => eth <= 0) eths ->
             Chart.main parse_float parent_dir src = Run [] (Raise ValueError)).
  { intros eths mults Hload Hex.
    apply (chart_main_raises src eths mults _ Hload), build_svg_raises.
    apply zip_nonpositive; [exact (load_lengths _ _ _ _ Hload) | exact Hex]. }
  split; [| exact Hbad]. split.
  - intros Hok. destruct (load parse_float src) as [[eths mults] | e] eqn:Hload.
    + exists eths, mults. split; [reflexivity |].
      destruct (positive_or_not eths) as [Hpos | Hex]; [exact Hpos |].
      rewrite (Hbad eths mults eq_refl Hex) in Hok. discriminate.
    + rewrite (chart_load_raises src e Hload) in Hok. discriminate.
  - intros (eths & mults & Hload & Hpos).
    destruct (build_svg_ok eths mults) as [svg Hsvg].
    { apply zip_positive; [exact (load_lengths _ _ _ _ Hload) | exact Hpos]. }
    now rewrite (chart_main_ok src eths mults svg Hload Hsvg).
Qed.

End SvgOutcome.

Section SvgOutcomeExample.

Lemma zero_rows_load :
  load signed_numbers (Readable zero_rows) = Ok ([0.5; 0], [7; 2]).
Proof. reflexivity. Qed.

Lemma svg_script_succeeds_iff_witness :
  result (Chart.main three_numbers "" (Readable two_rows)) = Ok tt
  /\ Chart.main signed_numbers "" (Readable zero_rows) = Run [] (Raise ValueError).
Proof.
  split.
  - apply (proj1 (svg_script_succeeds_iff three_numbers "" (Readable two_rows))).
    exists [0.5; 2], [7; 0.5]. split; [exact two_rows_load | repeat constructor; lra].
  - apply (proj2 (svg_script_succeeds_iff signed_numbers "" (Readable zero_rows))
             [0.5; 0] [7; 2] zero_rows_load).
    right. left. lra.
Defined.

End SvgOutcomeExample.

Section MatplotlibOutcome.
Variable parse_float : string -> option R.

Lemma plot_main_empty (src : source) :
  load parse_float src = Ok ([], []) ->
  exists fig,
    Plot.main parse_float src
    = Run [FileWrite "vrgda_curve_chart.png" (Plot.Png fig);
           Stdout [Str "Chart saved to: "; Str "vrgda_curve_chart.png"] true;
           FileWrite "vrgda_curve_chart.pdf" (Plot.Pdf fig);
           Stdout [Str "PDF version saved to: "; Str "vrgda_curve_chart.pdf"] true;
           Stdout [Newline; Str "VRGDA Curve Summary:"] true]
          (Raise ValueError).
Proof. intros Hload. unfold Plot.main. rewrite Hload. eexists. reflexivity. Qed.

Lemma plot_main_nonempty (src : source) (eths mults : list R) :
  load parse_float src = Ok (eths, mults) ->
  eths <> [] ->
  result (Plot.main parse_float src) = Ok tt.
Proof.
  intros Hload Hne.
  pose proof (load_lengths _ _ _ _ Hload) as Hlen.
  assert (Hne' : mults <> []) by (destruct eths, mults; cbn in Hlen; congruence).
  destruct (figure_ok eths mults Hne (eq_sym Hlen)) as [fig Hfig].
  destruct (drops_below_total 5 "Multiplier drops below 5x at: " eths mults 0%nat)
    as [Hres5 _]; [lia |].
  destruct (drops_below_total 1 "Multiplier drops below 1x at: " eths mults 0%nat)
    as [Hres1 _]; [lia |].
  destruct (min_list_ok eths Hne) as [lo_x Hlo_x], (max_list_ok eths Hne) as [hi_x Hhi_x].
  destruct (min_list_ok mults Hne') as [lo_y Hlo_y], (max_list_ok mults Hne') as [hi_y Hhi_y].
  unfold Plot.main. rewrite Hload. cbn -[Plot.drops_below Plot.summary Plot.figure].
  rewrite Hfig. cbn -[Plot.drops_below Plot.summary].
  rewrite result_bind, (summary_lines _ _ _ _ _ _ Hlo_x Hhi_x Hlo_y Hhi_y).
  cbn -[Plot.drops_below]. rewrite result_bind, Hres5. exact Hres1.
Qed.

(** X11: the matplotlib script ends normally exactly when the dataset
    loads and is not empty.  On a file with a header and no rows it
    writes both charts and prints the summary's heading before it ends
    with ValueError, at the first [min]. *)
Theorem matplotlib_script_succeeds_iff (src : source) :
  (result (Plot.main parse_float src) = Ok tt
   <-> exists eths mults, load parse_float src = Ok (eths, mults) /\ eths <> [])
  /\ (load parse_float src = Ok ([], []) ->
      exists fig,
        Plot.main parse_float src
        = Run [FileWrite "vrgda_curve_chart.png" (Plot.Png fig);
               Stdout [Str "Chart saved to: "; Str "vrgda_curve_chart.png"] true;
               FileWrite "vrgda_curve_chart.pdf" (Plot.Pdf fig);
               Stdout [Str "PDF version saved to: "; Str "vrgda_curve_chart.pdf"] true;
               Stdout [Newline; Str "VRGDA Curve Summary:"] true]
              (Raise ValueError)).
Proof.
  split; [| apply plot_main_empty]. split.
  - intros Hok. destruct (load parse_float src) as [[eths mults] | e] eqn:Hload.
    + exists eths, mults. split; [reflexivity |]. intros ->.
      pose proof (load_lengths _ _ _ _ Hload) as Hlen.
      destruct mults; [| discriminate].
      destruct (plot_main_empty src Hload) as [fig Hrun].
      rewrite Hrun in Hok. discriminate.
    + unfold Plot.main in Hok. rewrite Hload in Hok. discriminate.
  - intros (eths & mults & Hload & Hne). exact (plot_main_nonempty src eths mults Hload Hne).
Qed.

End MatplotlibOutcome.

Section MatplotlibOutcomeExample.

Lemma matplotlib_script_succeeds_iff_witness :
  result (Plot.main three_numbers (Readable two_rows)) = Ok tt
  /\ exists fig,
       Plot.main three_numbers (Readable [])
       = Run [FileWrite "vrgda_curve_chart.png" (Plot.Png fig);
              Stdout [Str "Chart saved to: "; Str "vrgda_curve_chart.png"] true;
              FileWrite "vrgda_curve_chart.pdf" (Plot.Pdf fig);
              Stdout [Str "PDF version saved to: "; Str "vrgda_curve_chart.pdf"] true;
              Stdout [Newline; Str "VRGDA Curve Summary:"] true]
             (Raise ValueError).
Proof.
  split.
  - apply (proj1 (matplotlib_script_succeeds_iff three_numbers (Readable two_rows))).
    exists [0.5; 2], [7; 0.5]. split; [exact two_rows_load | discriminate].
  - apply (proj2 (matplotlib_script_succeeds_iff three_numbers (Readable []))).
    reflexivity.
Defined.

End MatplotlibOutcomeExample.

Section Loops.
Context {F : Type}.

Lemma range_cons (a b : Z) : (a < b)%Z -> range a b = a :: range (a + 1) b.
Proof.
  intros Hab. unfold range.
  replace (Z.to_nat (b - a)) with (S (Z.to_nat (b - (a + 1)))) by lia.
  cbn [seq map]. f_equal; [lia |].
  rewrite <- seq_shift, map_map. apply map_ext. intros k. lia.
Qed.

Lemma for_each_ok {A} (l : list A) (body : A -> io F unit) :
  Forall (fun a => result (body a) = Ok tt) l -> result (for_each l body) = Ok tt.
Proof.
  induction 1 as [| a l Ha _ IH]; cbn [for_each].
  - reflexivity.
  - now rewrite result_bind, Ha.
Qed.

Lemma for_each_stops {A} (a : A) (l : list A) (body : A -> io F unit) (e : exn) :
  body a = Run [] (Raise e) -> for_each (a :: l) body = Run [] (Raise e).
Proof. intros Ha. cbn [for_each]. now rewrite Ha. Qed.

End Loops.

Section CharacterArtOutcome.
Variable parse_float : string -> option R.

Lemma cell_ok (eths mults : list R) (row_multiplier : R) (col : Z) :
  eths <> [] -> Forall (fun eth => 0 < eth) eths -> length mults = length eths ->
  result (Simple.cell eths mults row_multiplier col) = Ok tt.
Proof.
  intros Hne Hpos Hlen.
  destruct (closest_idx_closest eths (Simple.eth_position col) Hne Hpos
              (eth_position_pos col)) as (k & (e & Hk & _) & Hidx).
  destruct (lookup_lt_is_Some_2 mults k) as [y Hy].
  { rewrite Hlen. exact (lookup_lt_Some _ _ _ Hk). }
  unfold Simple.cell. rewrite Hidx, lift_ok_bind. unfold index. rewrite Hy, lift_ok_bind.
  repeat case_bool_decide; reflexivity.
Qed.

Lemma chart_row_ok (eths mults : list R) (row : Z) :
  eths <> [] -> Forall (fun eth => 0 < eth) eths -> length mults = length eths ->
  result (Simple.chart_row eths mults row) = Ok tt.
Proof.
  intros Hne Hpos Hlen. unfold Simple.chart_row.
  rewrite result_bind. cbn [print_noline result]. rewrite result_bind, for_each_ok.
  - reflexivity.
  - apply Forall_forall. intros col _. now apply cell_ok.
Qed.

Lemma threshold_scan_total (target : R) (mults eths : list R) :
  forall i : nat,
    (i + length eths <= length mults)%nat ->
    exists y, Simple.threshold_scan target mults i eths = Ok y.
Proof.
  induction eths as [| eth rest IH]; intros i Hlen; cbn [Simple.threshold_scan].
  - eauto.
  - cbn [length] in Hlen. destruct (_ || _).
    + destruct (lookup_lt_is_Some_2 mults i) as [y Hy]; [lia |].
      unfold index. rewrite Hy. eauto.
    + apply IH. lia.
Qed.

Lemma table_row_ok (eths mults : list R) (z : R * string) :
  length mults = length eths -> result (Simple.table_row eths mults z) = Ok tt.
Proof.
  intros Hlen. destruct z as [target zone]. unfold Simple.table_row, Simple.closest_mult.
  destruct (threshold_scan_total target mults eths 0%nat) as [y ->]; [lia |].
  reflexivity.
Qed.

Lemma simple_main_ok (src : source) (eths mults : list R) :
  load parse_float src = Ok (eths, mults) ->
  eths <> [] -> Forall (fun eth => 0 < eth) eths ->
  result (Simple.main parse_float src) = Ok tt.
Proof.
  intros Hload Hne Hpos.
  pose proof (load_lengths _ _ _ _ Hload) as Hlen. symmetry in Hlen.
  assert (Hne' : mults <> []) by (destruct eths, mults; cbn in Hlen; congruence).
  destruct (min_list_ok eths Hne) as [lo_x Hlo_x], (max_list_ok eths Hne) as [hi_x Hhi_x].
  destruct (min_list_ok mults Hne') as [lo_y Hlo_y], (max_list_ok mults Hne') as [hi_y Hhi_y].
  unfold Simple.main. rewrite Hload, lift_ok_bind.
  do 5 (rewrite result_bind; cbn [print result]).
  rewrite result_bind, for_each_ok
    by (apply Forall_forall; intros row _; now apply chart_row_ok).
  do 5 (rewrite result_bind; cbn [print result]).
  rewrite Hlo_x, Hhi_x, !lift_ok_bind. rewrite result_bind; cbn [print result].
  rewrite Hlo_y, Hhi_y, !lift_ok_bind.
  do 5 (rewrite result_bind; cbn [print result]).
  rewrite result_bind, for_each_ok
    by (apply Forall_forall; intros z _; now apply table_row_ok).
  reflexivity.
Qed.

Lemma log_raises (x : R) : x <= 0 -> log x = Raise ValueError.
Proof. intros Hx. unfold log. destruct (Rlt_dec 0 x); [lra | reflexivity]. Qed.

Lemma simple_scan_raises (pos : R) (eths : list R) :
  0 < pos ->
  Exists (fun eth => eth <= 0) eths ->
  forall i idx m, Simple.closest_scan pos i eths idx m = Raise ValueError.
Proof.
  intros Hpos. induction eths as [| eth rest IH]; intros Hex i idx m.
  - inversion Hex.
  - cbn [Simple.closest_scan]. destruct (Rlt_dec 0 eth) as [Heth | Heth].
    + rewrite (log_ok eth Heth), (log_ok pos Hpos). cbn [mbind res_bind].
      assert (Hrest : Exists (fun eth => eth <= 0) rest).
      { inversion Hex as [? ? Hhead | ? ? Htail]; [lra | exact Htail]. }
      destruct (lt_ext _ _); now apply IH.
    + rewrite (log_raises eth) by lra. reflexivity.
Qed.

(** The first cell of the first row, where a dataset that is empty or
    holds an x that is not positive stops the script. *)
Lemma first_cell_raises (eths mults : list R) (row_multiplier : R) :
  length mults = length eths ->
  (eths = [] ->
   Simple.cell eths mults row_multiplier 0 = Run [] (Raise IndexError))
  /\ (Exists (fun eth => eth <= 0) eths ->
      Simple.cell eths mults row_multiplier 0 = Run [] (Raise ValueError)).
Proof.
  intros Hlen. split.
  - intros ->. destruct mults; [reflexivity | discriminate].
  - intros Hex. unfold Simple.cell, Simple.closest_idx.
    now rewrite (simple_scan_raises _ _ (eth_position_pos 0) Hex).
Qed.

Lemma chart_row_stops (eths mults : list R) (row : Z) (e : exn) :
  (forall row_multiplier, Simple.cell eths mults row_multiplier 0 = Run [] (Raise e)) ->
  exists label,
    Simple.chart_row eths mults row
    = Run [Stdout [Padded ">4" label; Str " |"] false] (Raise e).
Proof.
  intros Hcell. unfold Simple.chart_row, Simple.chart_width.
  rewrite (range_cons 0 70) by lia. rewrite (for_each_stops _ _ _ e) by apply Hcell.
  eexists. reflexivity.
Qed.

Lemma simple_main_stops (src : source) (eths mults : list R) (e : exn) :
  load parse_float src = Ok (eths, mults) ->
  (forall row_multiplier, Simple.cell eths mults row_multiplier 0 = Run [] (Raise e)) ->
  exists label,
    Simple.main parse_float src
    = Run [Stdout [Newline; Str (Simple.times "=" 80)] true;
           Stdout [Str (Simple.times " " 25 +:+ "AMINAL VRGDA LOVE CURVE")] true;
           Stdout [Str (Simple.times "=" 80)] true;
           Stdout [Newline; Str "Love Multiplier vs Energy Level (ETH)"] true;
           Stdout [Newline; Str ("10x |" +:+ Simple.times "*" 70)] true;
           Stdout [Padded ">4" label; Str " |"] false]
          (Raise e).
Proof.
  intros Hload Hcell. unfold Simple.main. rewrite Hload, lift_ok_bind.
  unfold Simple.chart_height. rewrite (range_cons 0 20) by lia. cbn [for_each].
  destruct (chart_row_stops eths mults 0 e Hcell) as [label ->].
  exists label. reflexivity.
Qed.

(** X12: the character-art script ends normally exactly when the dataset
    loads, is not empty and every x is positive.  On an empty dataset it
    ends with IndexError, on a dataset with an x that is zero or negative
    with ValueError, in both cases at the first cell of the chart, and
    whenever it ends with an error it has written no file. *)
Theorem character_art_script_succeeds_iff (src : source) :
  (result (Simple.main parse_float src) = Ok tt
   <-> exists eths mults,
         load parse_float src = Ok (eths, mults)
         /\ eths <> [] /\ Forall (fun eth => 0 < eth) eths)
  /\ (load parse_float src = Ok ([], []) ->
      result (Simple.main parse_float src) = Raise IndexError)
  /\ (forall eths mults,
         load parse_float src = Ok (eths, mults) ->
         Exists (fun eth => eth <= 0) eths ->
         result (Simple.main parse_float src) = Raise ValueError)
  /\ (forall e,
         result (Simple.main parse_float src) = Raise e ->
         Forall (fun ev => is_write ev = false) (trace (Simple.main parse_float src))).
Proof.
  assert (Hstops : forall eths mults e,
            load parse_float src = Ok (eths, mults) ->
            (forall rm, Simple.cell eths mults rm 0 = Run [] (Raise e)) ->
            exists tr,
              Simple.main parse_float src = Run tr (Raise e)
              /\ Forall (fun ev => is_write ev = false) tr).
  { intros eths mults e Hload Hcell.
    destruct (simple_main_stops src eths mults e Hload Hcell) as [label Hrun].
    eexists. split; [exact Hrun | repeat constructor]. }
  assert (Hempty : load parse_float src = Ok ([], []) ->
            exists tr,
              Simple.main parse_float src = Run tr (Raise IndexError)
              /\ Forall (fun ev => is_write ev = false) tr).
  { intros Hload. apply (Hstops [] [] IndexError Hload).
    intros rm. now apply (proj1 (first_cell_raises [] [] rm eq_refl)). }
  assert (Hbad : forall eths mults,
            load parse_float src = Ok (eths, mults) ->
            Exists (fun eth => eth <= 0) eths ->
            exists tr,
              Simple.main parse_float src = Run tr (Raise ValueError)
              /\ Forall (fun ev => is_write ev = false) tr).
  { intros eths mults Hload Hex.
    pose proof (load_lengths _ _ _ _ Hload) as Hlen. symmetry in Hlen.
    apply (Hstops eths mults ValueError Hload).
    intros rm. now apply (proj2 (first_cell_raises eths mults rm Hlen)). }
  assert (Hcases : forall eths mults,
            load parse_float src = Ok (eths, mults) ->
            (eths <> [] /\ Forall (fun eth => 0 < eth) eths)
            \/ (exists e tr,
                  Simple.main parse_float src = Run tr (Raise e)
                  /\ Forall (fun ev => is_write ev = false) tr)).
  { intros eths mults Hload.
    destruct (positive_or_not eths) as [Hpos | Hex].
    - destruct eths as [| eth eths]; [| left; split; [discriminate | exact Hpos]].
      pose proof (load_lengths _ _ _ _ Hload) as Hlen. destruct mults; [| discriminate].
      right. destruct (Hempty Hload) as (tr & Hrun & Htr). eauto.
    - right. destruct (Hbad eths mults Hload Hex) as (tr & Hrun & Htr). eauto. }
  split; [| split; [| split]].
  - split.
    + intros Hok. destruct (load parse_float src) as [[eths mults] | e] eqn:Hload.
      * destruct (Hcases eths mults eq_refl) as [[Hne Hpos] | (e & tr & Hrun & _)].
        -- exists eths, mults. auto.
        -- rewrite Hrun in Hok. discriminate.
      * unfold Simple.main in Hok. rewrite Hload in Hok. discriminate.
    + intros (eths & mults & Hload & Hne & Hpos). now apply (simple_main_ok src eths mults).
  - intros Hload. destruct (Hempty Hload) as (tr & -> & _). reflexivity.
  - intros eths mults Hload Hex.
    destruct (Hbad eths mults Hload Hex) as (tr & -> & _). reflexivity.
  - intros e He. destruct (load parse_float src) as [[eths mults] | e'] eqn:Hload.
    + destruct (Hcases eths mults eq_refl) as [[Hne Hpos] | (e' & tr & Hrun & Htr)].
      * rewrite (simple_main_ok src eths mults Hload Hne Hpos) in He. discriminate.
      * rewrite Hrun. exact Htr.
    + unfold Simple.main. rewrite Hload. constructor.
Qed.

End CharacterArtOutcome.

Section CharacterArtOutcomeExample.

Lemma character_art_script_succeeds_iff_witness :
  result (Simple.main three_numbers (Readable two_rows)) = Ok tt
  /\ result (Simple.main three_numbers (Readable [])) = Raise IndexError
  /\ result (Simple.main signed_numbers (Readable zero_rows)) = Raise ValueError.
Proof.
  split; [| split].
  - apply (proj1 (character_art_script_succeeds_iff three_numbers (Readable two_rows))).
    exists [0.5; 2], [7; 0.5].
    split; [exact two_rows_load | split; [discriminate | repeat constructor; lra]].
  - apply (proj1 (proj2 (character_art_script_succeeds_iff three_numbers (Readable [])))).
    reflexivity.
  - apply (proj1 (proj2 (proj2 (character_art_script_succeeds_iff signed_numbers
                                  (Readable zero_rows)))) [0.5; 0] [7; 2] zero_rows_load).
    right. left. lra.
Defined.

End CharacterArtOutcomeExample.

Section PngOutcome.
Import Mapper.
Variable parse_float : string -> option R.
Variable parent_dir : string.
Variable e : Png.env.

Lemma pil_static_ok :
  (exists rects, mapM Png.zone_rect Png.zones = Ok rects)
  /\ (exists ticks, mapM Png.x_label Png.x_labels = Ok ticks)
  /\ (exists labels, mapM Png.zone_label Png.zones = Ok labels).
Proof.
  split; [| split]; apply mapM_all_ok; repeat constructor.
  all: try (unfold Png.zone_rect; rewrite !map_x_ok by lra; cbn; eauto).
  all: try (unfold Png.x_label; rewrite !map_x_ok by lra; cbn; eauto).
  all: unfold Png.zone_label; rewrite !x_center_ok by lra; cbn; eauto.
Qed.


Lemma pil_image_ok (eths mults : list R) :
  Forall (fun s => 0 < s.1) (zip eths mults) ->
  exists image, Png.pil_image eths mults = Ok image.
Proof.
  intros Hpos. unfold Png.pil_image.
  destruct pil_static_ok as ([rects ->] & [ticks ->] & [labels Hlabels]).
  cbn [mbind res_bind].
  destruct (mapM_all_ok Png.point (zip eths mults)) as [points ->].
  { eapply Forall_impl; [exact Hpos |]. intros [eth mult] Hs. cbn in *.
    rewrite map_x_ok by exact Hs. cbn. eauto. }
  cbn [mbind res_bind]. rewrite Hlabels. cbn [mbind res_bind mret res_ret]. eauto.
Qed.




Lemma try_tool_ok (tool note : string) (pixels : list (list Png.color)) :
  exists b, result (Png.try_tool parent_dir e tool note pixels) = Ok b.
Proof. unfold Png.try_tool. destruct (Png.succeeds e tool); cbn; eauto. Qed.









End PngOutcome.

Section PngOutcomeExample.


End PngOutcomeExample.
(** ** Conversion tools and the files a run leaves *)

Section Conversion.
Variable parent_dir : string.
Variable e : Png.env.

Lemma append_inj (a b c : string) : a +:+ b = a +:+ c -> b = c.
Proof. induction a as [| ch a IH]; cbn; [auto | intros [= H]; auto]. Qed.

Lemma join_inj (a b c : string) : join a b = join a c -> b = c.
Proof.
  unfold join. destruct (bool_decide (a = "")); [auto |].
  destruct (ends_with_slash a); intros H; apply append_inj in H; [exact H |].
  now apply (append_inj "/") in H.
Qed.

Lemma png_paths_differ :
  Png.png_path parent_dir <> Png.ppm_path parent_dir
  /\ Png.png_path parent_dir <> Png.csv_path parent_dir
  /\ Png.ppm_path parent_dir <> Png.csv_path parent_dir.
Proof.
  split; [| split].
  - intros H. apply join_inj in H. discriminate.
  - intros H. apply (f_equal String.length) in H.
    unfold Png.png_path, Png.csv_path, Png.output_dir in H.
    rewrite !length_join in H. cbn in H. lia.
  - intros H. apply (f_equal String.length) in H.
    unfold Png.ppm_path, Png.csv_path, Png.output_dir in H.
    rewrite !length_join in H. cbn in H. lia.
Qed.

(** X14: which conversion tool the fallback path uses.  [magick] is
    used when it is installed and works; [convert] only when [magick] is
    not installed (a [magick] that fails is not followed by [convert]);
    [sips] when it is installed and works and neither of the two gave a
    PNG.  A conversion writes the PNG, prints where it is and removes
    the PPM file; when no tool gives a PNG the script prints a note and
    the PPM file stays. *)
Theorem conversion_tool_choice (pixels : list (list Png.color)) :
  let converted_by (tool note : string) : io Png.artifact unit :=
    Run [FileWrite (Png.png_path parent_dir) (Png.Converted tool pixels);
         Stdout [Str "PNG chart saved to: "; Str (Png.png_path parent_dir); Str note] true;
         FileRemove (Png.ppm_path parent_dir)]
        (Ok tt) in
  let image_magick : bool :=
    if Png.which e "magick" then Png.succeeds e "magick"
    else Png.which e "convert" && Png.succeeds e "convert" in
  (Png.which e "magick" = true -> Png.succeeds e "magick" = true ->
   Png.convert parent_dir e pixels
   = converted_by "magick" " (converted using ImageMagick)")
  /\ (Png.which e "magick" = false ->
      Png.which e "convert" = true -> Png.succeeds e "convert" = true ->
      Png.convert parent_dir e pixels
      = converted_by "convert" " (converted using ImageMagick)")
  /\ (image_magick = false ->
      Png.which e "sips" = true -> Png.succeeds e "sips" = true ->
      Png.convert parent_dir e pixels = converted_by "sips" " (converted using sips)")
  /\ (image_magick = false ->
      Png.which e "sips" && Png.succeeds e "sips" = false ->
      Png.convert parent_dir e pixels
      = Run [Stdout [Str "Note: Could not convert to PNG automatically. PPM file is available."]
                    true]
            (Ok tt)).
Proof.
  unfold Png.convert, Png.try_tool.
  destruct (Png.which e "magick"), (Png.which e "convert"), (Png.which e "sips"),
    (Png.succeeds e "magick"), (Png.succeeds e "convert"), (Png.succeeds e "sips");
    cbn; repeat split; intros; first [discriminate | reflexivity].
Qed.

Lemma convert_cases (pixels : list (list Png.color)) :
  (exists tool note,
      Png.convert parent_dir e pixels
      = Run [FileWrite (Png.png_path parent_dir) (Png.Converted tool pixels);
             Stdout [Str "PNG chart saved to: "; Str (Png.png_path parent_dir); Str note]
                    true;
             FileRemove (Png.ppm_path parent_dir)]
            (Ok tt))
  \/ Png.convert parent_dir e pixels
     = Run [Stdout [Str "Note: Could not convert to PNG automatically. PPM file is available."]
                   true]
           (Ok tt).
Proof.
  unfold Png.convert, Png.try_tool.
  destruct (Png.which e "magick"), (Png.which e "convert"), (Png.which e "sips"),
    (Png.succeeds e "magick"), (Png.succeeds e "convert"), (Png.succeeds e "sips");
    cbn; eauto.
Qed.

End Conversion.

Section ConversionExample.

(** [magick] installed and failing, [convert] installed and working,
    no [sips]. *)
Lemma conversion_tool_choice_witness :
  Png.convert "" (Png.Env false (fun tool => negb (String.eqb tool "sips"))
                          (fun tool => String.eqb tool "convert")) Png.blank
  = Run [Stdout [Str "Note: Could not convert to PNG automatically. PPM file is available."]
                true]
        (Ok tt).
Proof.
  apply (proj2 (proj2 (proj2 (conversion_tool_choice ""
           (Png.Env false (fun tool => negb (String.eqb tool "sips"))
                    (fun tool => String.eqb tool "convert")) Png.blank))));
    reflexivity.
Defined.

End ConversionExample.

Section FallbackFiles.

Lemma paint_all_sized (l : list Png.assign) :
  Forall in_bounds l ->
  forall pixels, well_sized pixels ->
    exists pixels', Png.paint_all pixels l = Ok pixels' /\ well_sized pixels'.
Proof.
  induction 1 as [| a l Ha _ IH]; intros pixels Hsize; cbn [Png.paint_all].
  - eauto.
  - destruct (set_pixel_ok pixels a Hsize Ha) as (pixels' & -> & Hsize').
    cbn [mbind res_bind]. now apply IH.
Qed.

Variable parse_float : string -> option R.
Variable parent_dir : string.
Variable e : Png.env.


End FallbackFiles.
Section FallbackFilesExample.


End FallbackFilesExample.

(** ** What a run leaves untouched *)

Section Frame.
Variable parse_float : string -> option R.
Variable parent_dir : string.
Variable e : Png.env.

Lemma drops_below_prints (P : event Plot.artifact -> Prop) (threshold : R)
    (text : string) (eths mults : list R) :
  (forall l b, P (Stdout l b)) ->
  forall i : nat, Forall P (trace (Plot.drops_below threshold text eths i mults)).
Proof.
  intros HP. induction mults as [| mult rest IH]; intros i; cbn [Plot.drops_below].
  - constructor.
  - case_bool_decide; [| apply IH].
    destruct (index eths i); repeat constructor. apply HP.
Qed.

Lemma plot_targets (p : string) (src : source) :
  p <> "vrgda_curve_chart.png"%string -> p <> "vrgda_curve_chart.pdf"%string ->
  Forall (fun ev => target ev <> Some p) (trace (Plot.main parse_float src)).
Proof.
  intros Hpng Hpdf. unfold Plot.main. repeat step_trace;
    apply drops_below_prints; discriminate.
Qed.

Lemma chart_targets (p : string) (src : source) :
  p <> Chart.svg_path parent_dir -> p <> Chart.html_path parent_dir ->
  Forall (fun ev => target ev <> Some p) (trace (Chart.main parse_float parent_dir src)).
Proof. intros Hsvg Hhtml. unfold Chart.main. repeat step_trace. Qed.

Lemma convert_targets (p : string) (pixels : list (list Png.color)) :
  p <> Png.png_path parent_dir -> p <> Png.ppm_path parent_dir ->
  Forall (fun ev => target ev <> Some p) (trace (Png.convert parent_dir e pixels)).
Proof.
  intros Hpng Hppm.
  destruct (convert_cases parent_dir e pixels) as [(tool & note & ->) | ->];
    repeat constructor; cbn; congruence.
Qed.

Lemma png_targets (p : string) (src : source) :
  p <> Png.png_path parent_dir -> p <> Png.ppm_path parent_dir ->
  Forall (fun ev => target ev <> Some p) (trace (Png.main parse_float parent_dir e src)).
Proof.
  intros Hpng Hppm. unfold Png.main.
  repeat first
    [ match goal with
      | |- Forall _ (trace (Png.convert _ _ _)) => now apply convert_targets
      end
    | step_trace ].
Qed.

Lemma simple_targets (p : string) (src : source) :
  p <> "vrgda_curve_summary.txt"%string ->
  Forall (fun ev => target ev <> Some p) (trace (Simple.main parse_float src)).
Proof. intros Htxt. unfold Simple.main. repeat step_trace. Qed.

(** X16: a run of a script changes no path but its own outputs: the
    matplotlib script its PNG and PDF, the SVG script its SVG and HTML
    files, the PNG script its PNG and PPM files, the character-art
    script its summary file.  This holds for every dataset and also when
    the run ends with an error. *)
Theorem scripts_change_only_their_outputs (p : string) :
  (p <> "vrgda_curve_chart.png"%string -> p <> "vrgda_curve_chart.pdf"%string ->
   forall csv m, exec (Plot.main parse_float) csv m !! p = m !! p)
  /\ (p <> Chart.svg_path parent_dir -> p <> Chart.html_path parent_dir ->
      forall csv m, exec (Chart.main parse_float parent_dir) csv m !! p = m !! p)
  /\ (p <> Png.png_path parent_dir -> p <> Png.ppm_path parent_dir ->
      forall csv m, exec (Png.main parse_float parent_dir e) csv m !! p = m !! p)
  /\ (p <> "vrgda_curve_summary.txt"%string ->
      forall csv m, exec (Simple.main parse_float) csv m !! p = m !! p).
Proof.
  split; [| split; [| split]]; intros; unfold exec; apply commit_elsewhere.
  - now apply plot_targets.
  - now apply chart_targets.
  - now apply png_targets.
  - now apply simple_targets.
Qed.

(** X17: no script changes the dataset it reads, whatever its parent
    directory is. *)
Theorem scripts_keep_their_dataset :
  (forall m, exec (Plot.main parse_float) "vrgda_curve_data.csv" m
             !! "vrgda_curve_data.csv"%string
             = m !! "vrgda_curve_data.csv"%string)
  /\ (forall m, exec (Chart.main parse_float parent_dir) (Chart.csv_path parent_dir) m
                !! Chart.csv_path parent_dir
                = m !! Chart.csv_path parent_dir)
  /\ (forall m, exec (Png.main parse_float parent_dir e) (Png.csv_path parent_dir) m
                !! Png.csv_path parent_dir
                = m !! Png.csv_path parent_dir)
  /\ (forall m, exec (Simple.main parse_float) "vrgda_curve_data.csv" m
                !! "vrgda_curve_data.csv"%string
                = m !! "vrgda_curve_data.csv"%string).
Proof.
  destruct (chart_paths_differ parent_dir) as [Hsvg Hhtml].
  destruct (png_paths_differ parent_dir) as (_ & Hpng & Hppm).
  split; [| split; [| split]]; intros m; unfold exec; apply commit_elsewhere.
  - now apply plot_targets.
  - apply chart_targets; congruence.
  - apply png_targets; congruence.
  - now apply simple_targets.
Qed.

End Frame.

Section FrameExample.

Lemma scripts_change_only_their_outputs_witness :
  exec (Simple.main three_numbers) "vrgda_curve_data.csv" (dataset_only Simple.artifact)
    !! "notes.txt"%string
  = dataset_only Simple.artifact !! "notes.txt"%string.
Proof.
  apply (proj2 (proj2 (proj2 (scripts_change_only_their_outputs three_numbers ""
                                no_tools "notes.txt")))).
  discriminate.
Defined.

End FrameExample.
(** ** The PPM file *)

Section PpmFile.
Import Mapper.













End PpmFile.

Section PpmFileExample.


End PpmFileExample.

(** ** Shapes of the fallback rasterizer *)

Section RasterShapes.
Import Mapper.

(** [int] of a real between two integers is between them. *)
Lemma int_between (a b : Z) (r : R) : a <= r <= b -> (a <= int r <= b)%Z.
Proof.
  intros [Ha Hb]. unfold int, Int_part. destruct (Rle_dec 0 r) as [Hr | Hr].
  - destruct (archimed r) as [Hup Hup']. split.
    + assert (IZR a < IZR (up r)) by lra. apply lt_IZR in H. lia.
    + assert (IZR (up r - 1) <= IZR b) by (rewrite minus_IZR; lra).
      apply le_IZR in H. lia.
  - destruct (archimed (- r)) as [Hup Hup']. split.
    + assert (IZR a <= IZR (- (up (- r) - 1))) by (rewrite opp_IZR, minus_IZR; lra).
      apply le_IZR in H. lia.
    + assert (IZR (- up (- r)) < IZR b) by (rewrite opp_IZR; lra).
      apply lt_IZR in H. lia.
Qed.

Lemma int_IZR (z : Z) : int (IZR z) = z.
Proof. destruct (int_between z z (IZR z)); [lra | lia]. Qed.

Lemma interpolate_between (p q j steps : Z) :
  (0 <= j <= steps)%Z -> (0 < steps)%Z ->
  (Z.min p q <= int (p + ((q - p) * j)%Z / steps) <= Z.max p q)%Z.
Proof.
  intros Hj Hsteps. apply int_between.
  assert (Hs : 0 < IZR steps) by now apply (IZR_lt 0).
  assert (Hj0 : 0 <= IZR j) by now apply (IZR_le 0).
  assert (Hj1 : IZR j <= IZR steps) by now apply IZR_le.
  set (t := IZR j / IZR steps).
  assert (Ht : 0 <= t <= 1).
  { unfold t. split.
    - apply Rmult_le_pos; [exact Hj0 | left; now apply Rinv_0_lt_compat].
    - apply Rmult_le_reg_r with (IZR steps); [exact Hs |].
      unfold Rdiv. rewrite Rmult_assoc, Rinv_l by lra. lra. }
  replace (IZR p + IZR ((q - p) * j) / IZR steps) with (IZR p + (IZR q - IZR p) * t)
    by (unfold t; rewrite mult_IZR, minus_IZR; field; lra).
  destruct (Z.le_ge_cases p q) as [Hpq | Hpq].
  - rewrite Z.min_l, Z.max_r by lia. apply IZR_le in Hpq. nra.
  - rewrite Z.min_r, Z.max_l by lia. apply IZR_le in Hpq. nra.
Qed.

Lemma interpolate_start (p q steps : Z) : int (p + ((q - p) * 0)%Z / steps) = p.
Proof.
  rewrite Z.mul_0_r. unfold Rdiv. rewrite Rmult_0_l, Rplus_0_r. apply int_IZR.
Qed.

Lemma interpolate_end (p q steps : Z) :
  (0 < steps)%Z -> int (p + ((q - p) * steps)%Z / steps) = q.
Proof.
  intros Hsteps. assert (Hs : 0 < IZR steps) by now apply (IZR_lt 0).
  replace (IZR p + IZR ((q - p) * steps) / IZR steps) with (IZR q)
    by (rewrite mult_IZR, minus_IZR; field; lra).
  apply int_IZR.
Qed.

Lemma within_three (d e : Z) : (d * d + e * e <= 9)%Z -> (-3 <= e < 4)%Z.
Proof.
  intros H. assert (0 <= d * d)%Z by nia. assert (He : (e * e <= 9)%Z) by lia.
  destruct (Z_lt_le_dec e (-3)); [nia |]. destruct (Z_lt_le_dec e 4); [lia | nia].
Qed.

Lemma point_pixels_elem (x y : Z) (a : Png.assign) :
  a ∈ Png.point_pixels x y
  <-> Png.value a = (200, 50, 50)%Z
      /\ ((Png.px a - x) * (Png.px a - x) + (Png.py a - y) * (Png.py a - y) <= 9)%Z
      /\ in_bounds a.
Proof.
  unfold Png.point_pixels. split.
  - intros Ha.
    apply list_elem_of_bind in Ha as (dy & Ha & Hdy).
    apply list_elem_of_bind in Ha as (dx & Ha & Hdx).
    case_bool_decide; [| now apply elem_of_nil in Ha].
    destruct (bool_decide _ && bool_decide _) eqn:Hguard; [| now apply elem_of_nil in Ha].
    apply andb_true_iff in Hguard as [Hy Hx]. apply bool_decide_eq_true in Hy, Hx.
    apply list_elem_of_singleton in Ha as ->. cbn [Png.value Png.px Png.py].
    split; [reflexivity |]. split; [| split; cbn [Png.py Png.px]; lia].
    replace (x + dx - x)%Z with dx by lia. replace (y + dy - y)%Z with dy by lia. lia.
  - destruct a as [py px c]. cbn [Png.value Png.px Png.py].
    intros (-> & Hdisc & Hy & Hx). cbn [Png.py Png.px] in Hy, Hx.
    apply list_elem_of_bind. exists (py - y)%Z.
    split; [| apply elem_of_range; exact (within_three _ _ Hdisc)].
    apply list_elem_of_bind. exists (px - x)%Z.
    split; [| apply elem_of_range; apply (within_three (py - y)); lia].
    rewrite bool_decide_eq_true_2 by lia.
    replace (y + (py - y))%Z with py by lia. replace (x + (px - x))%Z with px by lia.
    rewrite !bool_decide_eq_true_2 by lia. cbn [andb]. now apply list_elem_of_singleton.
Qed.

(** X19: the dot of a sample is the disc of radius 3 around the
    sample's pixel, clipped to the image: a pixel is painted by the dot
    exactly when its squared distance to the centre is at most 9 and it
    is a pixel of the image, and it is painted (200, 50, 50). *)
Theorem dot_is_clipped_disc (x y : Z) (a : Png.assign) :
  a ∈ Png.point_pixels x y
  <-> Png.value a = (200, 50, 50)%Z
      /\ ((Png.px a - x) * (Png.px a - x) + (Png.py a - y) * (Png.py a - y) <= 9)%Z
      /\ in_bounds a.
Proof. apply point_pixels_elem. Qed.

(** X20: the segment drawn from the previous sample joins the two
    sample pixels and stays between them: when the two pixels differ and
    lie in the image, both are painted, and every pixel of the segment
    has its column between the two columns and its row at most one row
    (the thickening) outside the two rows; every one is painted
    (255, 107, 107). *)
Theorem segment_joins_its_ends (prev_x prev_y x y : Z) :
  (prev_x, prev_y) <> (x, y) ->
  (0 <= prev_x < width)%Z -> (0 <= prev_y < height)%Z ->
  (0 <= x < width)%Z -> (0 <= y < height)%Z ->
  Png.Assign prev_y prev_x (255, 107, 107)%Z ∈ Png.line_pixels prev_x prev_y x y
  /\ Png.Assign y x (255, 107, 107)%Z ∈ Png.line_pixels prev_x prev_y x y
  /\ forall a, a ∈ Png.line_pixels prev_x prev_y x y ->
       Png.value a = (255, 107, 107)%Z
       /\ (Z.min prev_x x <= Png.px a <= Z.max prev_x x)%Z
       /\ (Z.min prev_y y - 1 <= Png.py a <= Z.max prev_y y + 1)%Z.
Proof.
  intros Hdiff Hpx Hpy Hx Hy. unfold Png.line_pixels.
  set (steps := Z.max (Z.abs (x - prev_x)) (Z.abs (y - prev_y))).
  assert (Hsteps : (0 < steps)%Z).
  { destruct (Z.eq_dec prev_x x) as [-> | Hne]; [| lia].
    destruct (Z.eq_dec prev_y y) as [-> | Hne]; [congruence | lia]. }
  rewrite bool_decide_eq_true_2 by lia. split; [| split].
  - apply list_elem_of_bind. exists 0%Z. split; [| apply elem_of_range; lia].
    cbv zeta. rewrite !interpolate_start.
    rewrite !bool_decide_eq_true_2 by lia. cbn [andb]. apply elem_of_app. left.
    now apply list_elem_of_singleton.
  - apply list_elem_of_bind. exists steps. split; [| apply elem_of_range; lia].
    cbv zeta. rewrite !interpolate_end by exact Hsteps.
    rewrite !bool_decide_eq_true_2 by lia. cbn [andb]. apply elem_of_app. left.
    now apply list_elem_of_singleton.
  - intros a Ha. apply list_elem_of_bind in Ha as (j & Ha & Hj).
    apply elem_of_range in Hj. cbv zeta in Ha.
    pose proof (interpolate_between prev_x x j steps ltac:(lia) Hsteps) as Hcol.
    pose proof (interpolate_between prev_y y j steps ltac:(lia) Hsteps) as Hrow.
    destruct (bool_decide _ && bool_decide _); [| now apply elem_of_nil in Ha].
    apply elem_of_app in Ha as [Ha | Ha]; [| apply elem_of_app in Ha as [Ha | Ha]].
    + apply list_elem_of_singleton in Ha as ->. cbn [Png.value Png.px Png.py].
      split; [reflexivity | lia].
    + case_bool_decide; [| now apply elem_of_nil in Ha].
      apply list_elem_of_singleton in Ha as ->. cbn [Png.value Png.px Png.py].
      split; [reflexivity | lia].
    + case_bool_decide; [| now apply elem_of_nil in Ha].
      apply list_elem_of_singleton in Ha as ->. cbn [Png.value Png.px Png.py].
      split; [reflexivity | lia].
Qed.

End RasterShapes.

Section RasterShapesExample.
Import Mapper.

Lemma segment_joins_its_ends_witness :
  Png.Assign 100 60 (255, 107, 107)%Z ∈ Png.line_pixels 60 100 65 102
  /\ Png.Assign 102 65 (255, 107, 107)%Z ∈ Png.line_pixels 60 100 65 102
  /\ forall a, a ∈ Png.line_pixels 60 100 65 102 ->
       Png.value a = (255, 107, 107)%Z
       /\ (Z.min 60 65 <= Png.px a <= Z.max 60 65)%Z
       /\ (Z.min 100 102 - 1 <= Png.py a <= Z.max 100 102 + 1)%Z.
Proof.
  apply (segment_joins_its_ends 60 100 65 102);
    [discriminate | unfold width; lia | unfold height; lia
     | unfold width; lia | unfold height; lia].
Defined.

End RasterShapesExample.

(** ** Zones, axes and reference lines *)

Section ZoneLabelPosition.

Lemma mean_above_geometric (a b : R) : 0 < a -> a < b -> sqrt (a * b) < (a + b) / 2.
Proof.
  intros Ha Hab. rewrite <- (sqrt_square ((a + b) / 2)) by lra.
  apply sqrt_lt_1_alt. split; [apply Rmult_le_pos; lra | nra].
Qed.

(** X5: where the matplotlib script labels a zone [prev_x, x) of the
    log axis.  A zone that starts below 1 is labelled at the centre it
    shows on the axis, halfway between the logarithms of its ends; a
    zone that starts at 1 or above is labelled at the arithmetic mean
    of its ends, which is right of that centre. *)
Theorem zone_label_position (prev_x x : R) :
  0 < prev_x -> prev_x < x ->
  (prev_x < 1 ->
   log10r (Plot.label_x prev_x x) = (log10r prev_x + log10r x) / 2)
  /\ (1 <= prev_x ->
      Plot.label_x prev_x x = (prev_x + x) / 2
      /\ (log10r prev_x + log10r x) / 2 < log10r (Plot.label_x prev_x x)).
Proof.
  intros Hprev Hx. split; intros Hone.
  - rewrite label_x_below_one by exact Hone. apply log10r_sqrt_mult; lra.
  - rewrite label_x_from_one by exact Hone. split; [reflexivity |].
    rewrite <- log10r_sqrt_mult by lra. apply log10r_increasing.
    + apply sqrt_lt_R0, Rmult_lt_0_compat; lra.
    + now apply mean_above_geometric.
Qed.

Lemma zone_label_position_witness :
  Plot.label_x 1 10 = (1 + 10) / 2
  /\ (log10r 1 + log10r 10) / 2 < log10r (Plot.label_x 1 10).
Proof.
  apply (proj2 (zone_label_position 1 10 ltac:(lra) ltac:(lra))). lra.
Defined.

End ZoneLabelPosition.

Section ZoneFills.
Import Mapper.

Lemma int_floor (r : R) : 0 <= r -> IZR (int r) <= r < IZR (int r) + 1.
Proof.
  intros Hr. unfold int, Int_part. destruct (Rle_dec 0 r) as [_ | Hn]; [| lra].
  destruct (archimed r). rewrite minus_IZR. lra.
Qed.

Lemma int_monotone (r1 r2 : R) : 0 <= r1 -> r1 <= r2 -> (int r1 <= int r2)%Z.
Proof.
  intros H1 H12.
  destruct (int_floor r1 H1) as [Ha _], (int_floor r2 ltac:(lra)) as [_ Hb].
  assert (Hlt : IZR (int r1) < IZR (int r2 + 1)) by (rewrite plus_IZR; lra).
  apply lt_IZR in Hlt. lia.
Qed.

(** The column of an x of the axis, as the rasterizer computes it. *)
Lemma column_monotone (x1 x2 c1 c2 : R) :
  0.0001 <= x1 -> x1 <= x2 ->
  map_x x1 = Ok c1 -> map_x x2 = Ok c2 ->
  (margin <= int c1 <= int c2)%Z.
Proof.
  intros Hlo H12. rewrite !map_x_ok by lra. intros H1 H2.
  apply Ok_inj in H1, H2. subst c1 c2.
  pose proof log_span_pos as Hspan. rewrite chart_width_eq.
  assert (Hl1 : log10r 0.0001 <= log10r x1).
  { destruct Hlo as [Hlt | <-]; [left; apply log10r_increasing; lra | right; reflexivity]. }
  assert (Hl2 : log10r x1 <= log10r x2).
  { destruct H12 as [Hlt | <-]; [left; apply log10r_increasing; lra | right; reflexivity]. }
  set (k := / (log10r 200 - log10r 0.0001)).
  assert (Hk : 0 < k) by now apply Rinv_0_lt_compat.
  unfold Rdiv. fold k.
  assert (Hq1 : 0 <= (log10r x1 - log10r 0.0001) * k) by (apply Rmult_le_pos; lra).
  assert (Hq12 : (log10r x1 - log10r 0.0001) * k <= (log10r x2 - log10r 0.0001) * k).
  { apply Rmult_le_compat_r; lra. }
  unfold margin. split.
  - transitivity (int (IZR 60)); [rewrite int_IZR; lia | apply int_monotone; lra].
  - apply int_monotone; lra.
Qed.

Lemma column_of_ends (c1 c2 : R) :
  map_x 0.0001 = Ok c1 -> map_x 200 = Ok c2 ->
  int c1 = margin /\ int c2 = (width - margin)%Z.
Proof.
  rewrite !map_x_ok by lra. intros H1 H2. apply Ok_inj in H1, H2. subst c1 c2.
  pose proof log_span_pos as Hspan. rewrite chart_width_eq. unfold margin, width. split.
  - replace (60 + (log10r 0.0001 - log10r 0.0001) / (log10r 200 - log10r 0.0001) * 680)
      with (IZR 60) by (field; lra).
    apply int_IZR.
  - replace (60 + (log10r 200 - log10r 0.0001) / (log10r 200 - log10r 0.0001) * 680)
      with (IZR (800 - 60)) by (rewrite minus_IZR; field; lra).
    apply int_IZR.
Qed.

Lemma zone_fill_elem (start end_ c1 c2 : R) (c : Z * Z * Z) :
  map_x start = Ok c1 -> map_x end_ = Ok c2 ->
  exists fill,
    Png.zone_fill (start, end_, c) = Ok fill
    /\ forall a,
         a ∈ fill
         <-> Png.value a = c
             /\ (margin <= Png.py a < height - margin)%Z
             /\ (Z.max margin (int c1) <= Png.px a
                 < Z.min (width - margin) (int c2))%Z.
Proof.
  intros H1 H2. unfold Png.zone_fill. rewrite H1, H2. cbn [mbind res_bind mret res_ret].
  eexists. split; [reflexivity |]. intros a. split.
  - intros Ha. apply list_elem_of_bind in Ha as (y & Ha & Hy).
    apply list_elem_of_bind in Ha as (x & Ha & Hx).
    apply elem_of_range in Hy, Hx. apply list_elem_of_singleton in Ha as ->.
    cbn [Png.value Png.py Png.px]. auto.
  - destruct a as [y x c']. cbn [Png.value Png.py Png.px]. intros (-> & Hy & Hx).
    apply list_elem_of_bind. exists y. split; [| now apply elem_of_range].
    apply list_elem_of_bind. exists x. split; [| now apply elem_of_range].
    now apply list_elem_of_singleton.
Qed.

Ltac zone_of_fill :=
  match goal with
  | Hk : ?fills !! ?k = Some ?fill |- _ =>
      repeat (destruct k as [| k]; cbn in Hk; try discriminate Hk);
      try (apply (inj Some) in Hk; subst fill)
  end.

(** X21: the zone bands of the fallback rasterizer tile the chart area.
    The six fills paint only pixels of the chart area (rows and columns
    from [margin] up to the opposite margin), and every pixel of the
    chart area is painted by exactly one zone, in that zone's colour:
    the zones leave no column of the chart unpainted and do not
    overlap. *)
Theorem zone_fills_tile_chart :
  exists fills,
    mapM Png.zone_fill Png.fallback_zones = Ok fills
    /\ (forall k fill a,
          fills !! k = Some fill -> a ∈ fill ->
          (margin <= Png.py a < height - margin)%Z
          /\ (margin <= Png.px a < width - margin)%Z)
    /\ (forall x y,
          (margin <= x < width - margin)%Z -> (margin <= y < height - margin)%Z ->
          exists k zone fill,
            Png.fallback_zones !! k = Some zone
            /\ fills !! k = Some fill
            /\ Png.Assign y x zone.2 ∈ fill
            /\ forall k' fill' a,
                 fills !! k' = Some fill' -> a ∈ fill' ->
                 Png.py a = y -> Png.px a = x -> k' = k).
Proof.
  destruct (map_x_cases 0.0001) as [[_ [c0 H0]] | [Hneg _]]; [| lra].
  destruct (map_x_cases 0.001) as [[_ [c1 H1]] | [Hneg _]]; [| lra].
  destruct (map_x_cases 0.1) as [[_ [c2 H2]] | [Hneg _]]; [| lra].
  destruct (map_x_cases 1) as [[_ [c3 H3]] | [Hneg _]]; [| lra].
  destruct (map_x_cases 10) as [[_ [c4 H4]] | [Hneg _]]; [| lra].
  destruct (map_x_cases 100) as [[_ [c5 H5]] | [Hneg _]]; [| lra].
  destruct (map_x_cases 200) as [[_ [c6 H6]] | [Hneg _]]; [| lra].
  destruct (column_of_ends c0 c6 H0 H6) as [E0 E6].
  pose proof (column_monotone 0.0001 0.001 c0 c1 ltac:(lra) ltac:(lra) H0 H1) as O1.
  pose proof (column_monotone 0.001 0.1 c1 c2 ltac:(lra) ltac:(lra) H1 H2) as O2.
  pose proof (column_monotone 0.1 1 c2 c3 ltac:(lra) ltac:(lra) H2 H3) as O3.
  pose proof (column_monotone 1 10 c3 c4 ltac:(lra) ltac:(lra) H3 H4) as O4.
  pose proof (column_monotone 10 100 c4 c5 ltac:(lra) ltac:(lra) H4 H5) as O5.
  pose proof (column_monotone 100 200 c5 c6 ltac:(lra) ltac:(lra) H5 H6) as O6.
  destruct (zone_fill_elem 0.0001 0.001 c0 c1 (255, 229, 229)%Z H0 H1) as (f0 & F0 & M0).
  destruct (zone_fill_elem 0.001 0.1 c1 c2 (255, 240, 229)%Z H1 H2) as (f1 & F1 & M1).
  destruct (zone_fill_elem 0.1 1 c2 c3 (229, 245, 229)%Z H2 H3) as (f2 & F2 & M2).
  destruct (zone_fill_elem 1 10 c3 c4 (229, 229, 255)%Z H3 H4) as (f3 & F3 & M3).
  destruct (zone_fill_elem 10 100 c4 c5 (240, 229, 255)%Z H4 H5) as (f4 & F4 & M4).
  destruct (zone_fill_elem 100 200 c5 c6 (255, 229, 229)%Z H5 H6) as (f5 & F5 & M5).
  exists [f0; f1; f2; f3; f4; f5].
  unfold margin, width, height in *.
  split; [| split].
  - unfold Png.fallback_zones. cbn [mapM]. rewrite F0, F1, F2, F3, F4, F5. reflexivity.
  - intros k fill a Hk Ha. zone_of_fill;
      first [apply M0 in Ha | apply M1 in Ha | apply M2 in Ha
            | apply M3 in Ha | apply M4 in Ha | apply M5 in Ha]; lia.
  - intros x y Hx Hy.
    assert (Hzone : (int c0 <= x < int c1 \/ int c1 <= x < int c2 \/ int c2 <= x < int c3
                     \/ int c3 <= x < int c4 \/ int c4 <= x < int c5
                     \/ int c5 <= x < int c6)%Z) by lia.
    destruct Hzone as [Hz | [Hz | [Hz | [Hz | [Hz | Hz]]]]];
      [exists 0%nat | exists 1%nat | exists 2%nat | exists 3%nat | exists 4%nat | exists 5%nat];
      eexists _, _; (split; [reflexivity |]); (split; [reflexivity |]); cbn [snd]; split;
      try (first [apply M0 | apply M1 | apply M2 | apply M3 | apply M4 | apply M5];
           cbn [Png.value Png.py Png.px]; split; [reflexivity | lia]);
      intros k' fill' a Hk' Ha Hpy Hpx; zone_of_fill;
      first [apply M0 in Ha | apply M1 in Ha | apply M2 in Ha
            | apply M3 in Ha | apply M4 in Ha | apply M5 in Ha];
      first [reflexivity | lia].
Qed.

Lemma zone_fills_tile_chart_witness :
  exists fills,
    mapM Png.zone_fill Png.fallback_zones = Ok fills
    /\ exists k zone fill,
         Png.fallback_zones !! k = Some zone
         /\ fills !! k = Some fill
         /\ Png.Assign 100 100 zone.2 ∈ fill.
Proof.
  destruct zone_fills_tile_chart as (fills & Hfills & _ & Hcover).
  exists fills. split; [exact Hfills |].
  assert (Hx : (margin <= 100 < width - margin)%Z) by (unfold margin, width; lia).
  assert (Hy : (margin <= 100 < height - margin)%Z) by (unfold margin, height; lia).
  destruct (Hcover 100%Z 100%Z Hx Hy) as (k & zone & fill & Hzone & Hfill & Hin & _).
  exists k, zone, fill. auto.
Defined.

End ZoneFills.

Section SharedAxis.
Import Mapper.

Lemma eth_position_log (col : Z) :
  log10r (Simple.eth_position col)
  = log10r 0.0001 + col / Simple.chart_width * (log10r 200 - log10r 0.0001).
Proof.
  unfold Simple.eth_position, Simple.chart_width, log10r.
  rewrite ln_mult by (try lra; unfold Rpower; apply exp_pos).
  unfold Rpower. rewrite ln_exp.
  replace 2000000 with (200 / 0.0001) by lra.
  unfold Rdiv at 3. rewrite ln_mult by lra. rewrite ln_Rinv by lra.
  pose proof ln10_pos. field. lra.
Qed.

(** X22: the columns of the character chart lie on the log axis of the
    drawn charts.  Column 0 stands for 0.0001 ETH, a column further
    right stands for a larger x, and the x of column [col] is mapped by
    the charts' [map_x] to the fraction [col / 70] of the chart width:
    the 70 columns are evenly spaced on the axis from 0.0001 to 200. *)
Theorem character_columns_on_chart_axis (col : Z) :
  map_x (Simple.eth_position col)
  = Ok (margin + col / Simple.chart_width * chart_width)
  /\ Simple.eth_position 0 = 0.0001
  /\ Simple.eth_position col < Simple.eth_position (col + 1).
Proof.
  pose proof log_span_pos as Hspan. split; [| split].
  - rewrite map_x_ok by apply eth_position_pos. rewrite eth_position_log.
    f_equal. unfold Simple.chart_width. field. lra.
  - unfold Simple.eth_position. unfold Rdiv. rewrite Rmult_0_l, Rpower_O by lra. lra.
  - unfold Simple.eth_position. apply Rmult_lt_compat_l; [lra |].
    apply Rpower_lt; [lra |]. rewrite plus_IZR. unfold Simple.chart_width. lra.
Qed.

End SharedAxis.

Section DrawnCurve.
Import Mapper.

Lemma mapM_lookup {A B} (f : A -> res B) (l : list A) :
  forall (bs : list B) (i : nat) (a : A),
    mapM f l = Ok bs -> l !! i = Some a ->
    exists b, bs !! i = Some b /\ f a = Ok b.
Proof.
  induction l as [| a0 l IH]; intros bs i a; cbn [mapM]; [intros _ Hi; discriminate Hi |].
  destruct (f a0) as [b0 |] eqn:Hb0; cbn [mbind res_bind]; [| discriminate].
  destruct (mapM f l) as [bs0 |]; cbn [mbind res_bind mret res_ret]; [| discriminate].
  intros Heq Hi. apply Ok_inj in Heq. subst bs. destruct i as [| i]; cbn in *.
  - apply (inj Some) in Hi. subst a0. eauto.
  - now apply IH.
Qed.

Lemma mapM_length {A B} (f : A -> res B) (l : list A) :
  forall bs, mapM f l = Ok bs -> length bs = length l.
Proof.
  induction l as [| a0 l IH]; intros bs; cbn [mapM].
  - intros Heq. apply Ok_inj in Heq. now subst bs.
  - destruct (f a0) as [b0 |]; cbn [mbind res_bind]; [| discriminate].
    destruct (mapM f l) as [bs0 |]; cbn [mbind res_bind mret res_ret]; [| discriminate].
    intros Heq. apply Ok_inj in Heq. subst bs. cbn. f_equal. now apply IH.
Qed.

Lemma point_ok (s p : R * R) :
  Chart.point s = Ok p ->
  0 < s.1
  /\ p = (margin + (log10r s.1 - log10r 0.0001)
                   / (log10r 200 - log10r 0.0001) * chart_width,
          map_y s.2).
Proof.
  destruct s as [eth mult]. cbn [Chart.point fst snd].
  destruct (map_x_cases eth) as [[Hpos _] | [_ ->]]; [| discriminate].
  rewrite map_x_ok by exact Hpos. cbn [mbind res_bind mret res_ret].
  intros Heq. apply Ok_inj in Heq. now subst p.
Qed.

(** X23: the polyline of the SVG chart follows the data.  It has one
    point per sample, in the order of the dataset, and it keeps the
    order of the samples: of any two samples, the one whose x is not
    smaller has a point that is not further left, and the one whose
    multiplier is not smaller has a point that is not lower on the page
    (its SVG y is not larger). *)
Theorem polyline_follows_data (eth_amounts love_multipliers : list R)
    (points : list (R * R)) :
  mapM Chart.point (zip eth_amounts love_multipliers) = Ok points ->
  length points = length (zip eth_amounts love_multipliers)
  /\ forall i j s1 s2,
       zip eth_amounts love_multipliers !! i = Some s1 ->
       zip eth_amounts love_multipliers !! j = Some s2 ->
       exists p q,
         points !! i = Some p /\ points !! j = Some q
         /\ (s1.1 <= s2.1 -> p.1 <= q.1)
         /\ (s1.2 <= s2.2 -> q.2 <= p.2).
Proof.
  intros Hpoints. split; [exact (mapM_length _ _ _ Hpoints) |].
  intros i j s1 s2 Hi Hj.
  destruct (mapM_lookup _ _ _ _ _ Hpoints Hi) as (p & Hp & Hs1).
  destruct (mapM_lookup _ _ _ _ _ Hpoints Hj) as (q & Hq & Hs2).
  exists p, q. split; [exact Hp |]. split; [exact Hq |].
  apply point_ok in Hs1 as [Hpos1 ->], Hs2 as [Hpos2 ->]. cbn [fst snd].
  pose proof log_span_pos as Hspan. split.
  - intros Hle.
    assert (Hlog : log10r s1.1 <= log10r s2.1).
    { destruct Hle as [Hlt | Heq]; [left; now apply log10r_increasing | right; now rewrite Heq]. }
    rewrite chart_width_eq. apply Rplus_le_compat_l, Rmult_le_compat_r; [lra |].
    apply Rmult_le_compat_r; [left; now apply Rinv_0_lt_compat | lra].
  - intros Hle. unfold map_y. rewrite chart_height_eq. lra.
Qed.

Lemma polyline_follows_data_witness :
  exists points,
    mapM Chart.point (zip [0.5; 2] [7; 0.5]) = Ok points
    /\ length points = length (zip [0.5; 2] [7; 0.5])
    /\ exists p q,
         points !! 0%nat = Some p /\ points !! 1%nat = Some q
         /\ p.1 <= q.1 /\ p.2 <= q.2.
Proof.
  destruct (mapM_all_ok Chart.point (zip [0.5; 2] [7; 0.5])) as [points Hpoints].
  { repeat constructor; cbn [Chart.point]; rewrite map_x_ok by lra; cbn; eauto. }
  exists points. split; [exact Hpoints |].
  destruct (polyline_follows_data [0.5; 2] [7; 0.5] points Hpoints) as [Hlen Horder].
  split; [exact Hlen |].
  destruct (Horder 0%nat 1%nat (0.5, 7) (2, 0.5) eq_refl eq_refl)
    as (p & q & Hp & Hq & Hx & _).
  destruct (Horder 1%nat 0%nat (2, 0.5) (0.5, 7) eq_refl eq_refl)
    as (q' & p' & Hq' & Hp' & _ & Hy).
  rewrite Hp in Hp'. rewrite Hq in Hq'.
  apply (inj Some) in Hp', Hq'. subst p' q'.
  exists p, q. split; [exact Hp |]. split; [exact Hq |].
  split; [apply Hx; cbn; lra | apply Hy; cbn; lra].
Defined.

End DrawnCurve.
Section ReferenceLines.
Import Mapper.

Lemma map_y_grid (i : Z) : map_y (10 - i)%Z = margin + i * chart_height / 10.
Proof. unfold map_y. rewrite minus_IZR. lra. Qed.

Lemma map_y_marks :
  map_y 10 = margin
  /\ map_y 5.5 = margin + chart_height * 0.45
  /\ map_y 0.1 = margin + chart_height * 0.99.
Proof. unfold map_y. rewrite chart_height_eq. unfold margin. repeat split; lra. Qed.

Lemma elem_of_concat_map {A B} (f : A -> list B) (l : list A) (a : A) (b : B) :
  a ∈ l -> b ∈ f a -> b ∈ concat (map f l).
Proof.
  rewrite !list_elem_of_In. intros Ha Hb. apply in_concat. exists (f a).
  split; [now apply in_map | exact Hb].
Qed.

Ltac in_list := solve [repeat first [apply list_elem_of_here | apply list_elem_of_further]].

Ltac in_apps :=
  repeat first
    [ in_list
    | apply elem_of_app; left; in_list
    | apply elem_of_app; right ].

Lemma svg_marks (eths mults : list R) (svg : list Chart.elem) :
  Chart.build_svg eths mults = Ok svg ->
  (forall i e, i ∈ range 0 11 -> e ∈ Chart.grid_line i -> e ∈ svg)
  /\ Chart.Line margin margin (margin + chart_width)%Z margin "green" ∈ svg
  /\ Chart.Line margin (margin + chart_height * 0.45)
       (margin + chart_width)%Z (margin + chart_height * 0.45) "orange" ∈ svg
  /\ Chart.Line margin (margin + chart_height * 0.99)
       (margin + chart_width)%Z (margin + chart_height * 0.99) "red" ∈ svg.
Proof.
  unfold Chart.build_svg.
  destruct (mapM Chart.zone_rect Chart.zones) as [rects |]; cbn [mbind res_bind];
    [| discriminate].
  destruct (mapM Chart.x_label Chart.x_labels) as [ticks |]; cbn [mbind res_bind];
    [| discriminate].
  destruct (mapM Chart.point _) as [points |]; cbn [mbind res_bind]; [| discriminate].
  destruct (mapM Chart.circle _) as [circles |]; cbn [mbind res_bind]; [| discriminate].
  destruct (mapM Chart.zone_label Chart.zones) as [labels |];
    cbn [mbind res_bind mret res_ret]; [| discriminate].
  intros Heq. apply Ok_inj in Heq. subst svg.
  generalize (range 0 11). intros grid.
  split; [| split; [| split]].
  - intros i e Hi He.
    apply elem_of_app; right. apply elem_of_app; right. apply elem_of_app; left.
    exact (elem_of_concat_map Chart.grid_line grid i e Hi He).
  - in_apps.
  - in_apps.
  - in_apps.
Qed.

Lemma pil_marks (eths mults : list R) (image : list Png.draw) :
  Png.pil_image eths mults = Ok image ->
  (forall i d, i ∈ range 0 11 -> d ∈ Png.grid_line i -> d ∈ image)
  /\ Png.Segment (IZR margin, IZR margin) (IZR (width - margin), IZR margin)
       (Png.Named "green") ∈ image
  /\ Png.Segment (IZR margin, margin + chart_height * 0.45)
       (IZR (width - margin), margin + chart_height * 0.45) (Png.Named "orange") ∈ image
  /\ Png.Segment (IZR margin, margin + chart_height * 0.99)
       (IZR (width - margin), margin + chart_height * 0.99) (Png.Named "red") ∈ image.
Proof.
  unfold Png.pil_image.
  destruct (mapM Png.zone_rect Png.zones) as [rects |]; cbn [mbind res_bind];
    [| discriminate].
  destruct (mapM Png.x_label Png.x_labels) as [ticks |]; cbn [mbind res_bind];
    [| discriminate].
  destruct (mapM Png.point _) as [points |]; cbn [mbind res_bind]; [| discriminate].
  destruct (mapM Png.zone_label Png.zones) as [labels |];
    cbn [mbind res_bind mret res_ret]; [| discriminate].
  intros Heq. apply Ok_inj in Heq. subst image.
  generalize (range 0 11). intros grid.
  generalize Png.y_label_chars. intros chars.
  split; [| split; [| split]].
  - intros i d Hi Hd.
    do 3 (apply elem_of_app; right). apply elem_of_app; left.
    exact (elem_of_concat_map Png.grid_line grid i d Hi Hd).
  - in_apps.
  - in_apps.
  - in_apps.
Qed.

(** X24: every horizontal reference line is drawn at the height the
    mapping [map_y] gives to the multiplier its label shows.  In the SVG
    and in the PIL drawing the grid line labelled [(10 - i)x] is at
    [map_y (10 - i)], the line labelled Max (10x) at [map_y 10], the one
    labelled Equilibrium (~5.5x) at [map_y 5.5] and the one labelled
    Min (0.1x) at [map_y 0.1]; the fallback rasterizer paints the dashes
    of grid line [i] in the pixel row of [map_y (10 - i)]. *)
Theorem reference_lines_match_labels (eth_amounts love_multipliers : list R)
    (svg : list Chart.elem) (image : list Png.draw) :
  Chart.build_svg eth_amounts love_multipliers = Ok svg ->
  Png.pil_image eth_amounts love_multipliers = Ok image ->
  (forall i : Z,
      (0 <= i <= 10)%Z ->
      let y := map_y (10 - i)%Z in
      Chart.Line margin y (margin + chart_width)%Z y "#ddd" ∈ svg
      /\ Chart.Label (margin - 10)%Z (y + 5) [Int (10 - i); Str "x"] ∈ svg
      /\ Png.Segment (IZR margin, y) (IZR (width - margin), y) (Png.Named "lightgray")
           ∈ image
      /\ Png.DrawText (margin - 10)%Z y [Int (10 - i); Str "x"] (Png.Named "black")
           ∈ image
      /\ forall x : Z,
           (margin <= x < width - margin)%Z -> (x mod 4 < 2)%Z ->
           Png.Assign (int y) x (200, 200, 200)%Z ∈ Png.grid_pixels)
  /\ (Chart.Line margin (map_y 10) (margin + chart_width)%Z (map_y 10) "green" ∈ svg
      /\ Chart.Line margin (map_y 5.5) (margin + chart_width)%Z (map_y 5.5) "orange" ∈ svg
      /\ Chart.Line margin (map_y 0.1) (margin + chart_width)%Z (map_y 0.1) "red" ∈ svg)
  /\ (Png.Segment (IZR margin, map_y 10) (IZR (width - margin), map_y 10)
        (Png.Named "green") ∈ image
      /\ Png.Segment (IZR margin, map_y 5.5) (IZR (width - margin), map_y 5.5)
           (Png.Named "orange") ∈ image
      /\ Png.Segment (IZR margin, map_y 0.1) (IZR (width - margin), map_y 0.1)
           (Png.Named "red") ∈ image).
Proof.
  intros Hsvg Himage.
  destruct (svg_marks _ _ _ Hsvg) as (Hgrid & Hmax & Heq & Hmin).
  destruct (pil_marks _ _ _ Himage) as (Hgrid' & Hmax' & Heq' & Hmin').
  destruct map_y_marks as (-> & -> & ->).
  split; [| split; [split; [| split] | split; [| split]]]; try assumption.
  intros i Hi y. subst y. rewrite map_y_grid.
  assert (Hrange : i ∈ range 0 11) by (apply elem_of_range; lia).
  split; [| split; [| split; [| split]]].
  - apply (Hgrid i); [exact Hrange |]. unfold Chart.grid_line. in_list.
  - apply (Hgrid i); [exact Hrange |]. unfold Chart.grid_line. in_list.
  - apply (Hgrid' i); [exact Hrange |]. unfold Png.grid_line. in_list.
  - apply (Hgrid' i); [exact Hrange |]. unfold Png.grid_line. in_list.
  - intros x Hx Hdash. unfold Png.grid_pixels.
    apply list_elem_of_bind. exists i. split; [| exact Hrange]. cbv zeta.
    apply list_elem_of_bind. exists x. split; [| now apply elem_of_range].
    rewrite bool_decide_eq_true_2 by exact Hdash.
    replace (int (margin + i * chart_height / 10)) with (margin + i * chart_height / 10)%Z;
      [apply list_elem_of_here |].
    rewrite chart_height_eq. unfold margin.
    replace (60 + i * 480%Z / 10) with (IZR (60 + i * 48)).
    + rewrite int_IZR. replace (i * 480)%Z with (i * 48 * 10)%Z by lia.
      now rewrite Z.div_mul by lia.
    + rewrite plus_IZR, mult_IZR. lra.
Qed.

End ReferenceLines.

Section ReferenceLinesExample.
Import Mapper.

Lemma reference_lines_match_labels_witness :
  exists svg image,
    Chart.build_svg [0.5; 2] [7; 0.5] = Ok svg
    /\ Png.pil_image [0.5; 2] [7; 0.5] = Ok image
    /\ Chart.Line margin (map_y 5.5) (margin + chart_width)%Z (map_y 5.5) "orange" ∈ svg
    /\ Png.Segment (IZR margin, map_y 0.1) (IZR (width - margin), map_y 0.1)
         (Png.Named "red") ∈ image.
Proof.
  destruct (build_svg_ok [0.5; 2] [7; 0.5]) as [svg Hsvg]; [repeat constructor; cbn; lra |].
  destruct (pil_image_ok [0.5; 2] [7; 0.5]) as [image Himage];
    [repeat constructor; cbn; lra |].
  exists svg, image. split; [exact Hsvg |]. split; [exact Himage |].
  destruct (reference_lines_match_labels [0.5; 2] [7; 0.5] svg image Hsvg Himage)
    as (_ & (_ & Heq & _) & (_ & _ & Hmin)).
  split; assumption.
Defined.

End ReferenceLinesExample.
(** ** The painted bitmap *)

Section Painting.
Import Mapper.

Lemma paint_all_app (l1 l2 : list Png.assign) :
  forall pixels,
    Png.paint_all pixels (l1 ++ l2)
    = pixels1 ← Png.paint_all pixels l1; Png.paint_all pixels1 l2.
Proof.
  induction l1 as [| a l1 IH]; intros pixels; cbn [app Png.paint_all]; [reflexivity |].
  destruct (Png.set_pixel pixels a) as [pixels1 |]; cbn [mbind res_bind]; [apply IH | reflexivity].
Qed.

Lemma set_pixel_at (pixels pixels' : list (list Png.color)) (a : Png.assign) (y x : Z) :
  well_sized pixels -> in_bounds a ->
  (0 <= y)%Z -> (0 <= x)%Z ->
  Png.set_pixel pixels a = Ok pixels' ->
  (addresses y x a -> pixel_at pixels' y x = Some (Png.value a))
  /\ (~ addresses y x a -> pixel_at pixels' y x = pixel_at pixels y x).
Proof.
  intros [Hrows Hcols] [Hy Hx] Hy0 Hx0. unfold Png.set_pixel.
  rewrite position_in by lia. cbn [mbind res_bind].
  destruct (lookup_lt_is_Some_2 pixels (Z.to_nat (Png.py a))) as [row Hrow]; [lia |].
  unfold index. rewrite Hrow. cbn [mbind res_bind].
  assert (Hlen : length row = Z.to_nat width).
  { exact (Forall_lookup_1 _ _ _ _ Hcols Hrow). }
  rewrite position_in by lia. cbn [mbind res_bind mret res_ret].
  intros Heq. apply Ok_inj in Heq. subst pixels'. unfold pixel_at, addresses. split.
  - intros [<- <-]. rewrite list_lookup_insert_eq by lia. cbn.
    apply list_lookup_insert_eq. lia.
  - intros Hother. destruct (decide (Png.py a = y)) as [<- | Hne].
    + rewrite list_lookup_insert_eq by lia. rewrite Hrow. cbn.
      apply list_lookup_insert_ne. intros Heq. apply Z2Nat.inj in Heq; [tauto | lia | lia].
    + rewrite list_lookup_insert_ne; [reflexivity |].
      intros Heq. apply Z2Nat.inj in Heq; [tauto | lia | lia].
Qed.

Lemma paint_all_elsewhere (l : list Png.assign) (y x : Z) :
  Forall in_bounds l -> Forall (fun a => ~ addresses y x a) l ->
  (0 <= y)%Z -> (0 <= x)%Z ->
  forall pixels pixels',
    well_sized pixels -> Png.paint_all pixels l = Ok pixels' ->
    pixel_at pixels' y x = pixel_at pixels y x.
Proof.
  intros Hin Hother Hy Hx. induction l as [| a l IH]; intros pixels pixels' Hsize;
    cbn [Png.paint_all].
  - intros Heq. apply Ok_inj in Heq. now subst.
  - apply Forall_cons in Hin as [Ha Hin]. apply Forall_cons in Hother as [Hna Hother].
    destruct (set_pixel_ok pixels a Hsize Ha) as (pixels1 & Hset & Hsize1).
    rewrite Hset. cbn [mbind res_bind]. intros Hrest.
    rewrite (IH Hin Hother pixels1 pixels' Hsize1 Hrest).
    now apply (set_pixel_at pixels pixels1 a y x Hsize Ha Hy Hx Hset).
Qed.

(** X25: the fallback rasterizer paints like a painter: after the
    assignments have been carried out, a pixel shows the colour of the
    last assignment that addresses it, and a pixel that no assignment
    addresses keeps its colour. *)
Theorem pixel_shows_last_assignment
    (writes : list Png.assign) (pixels pixels' : list (list Png.color)) (y x : Z) :
  well_sized pixels -> Forall in_bounds writes ->
  (0 <= y)%Z -> (0 <= x)%Z ->
  Png.paint_all pixels writes = Ok pixels' ->
  (Forall (fun a => ~ addresses y x a) writes ->
   pixel_at pixels' y x = pixel_at pixels y x)
  /\ (forall before a after,
         writes = before ++ a :: after ->
         addresses y x a -> Forall (fun a' => ~ addresses y x a') after ->
         pixel_at pixels' y x = Some (Png.value a)).
Proof.
  intros Hsize Hin Hy Hx Hrun. split.
  - intros Hother. exact (paint_all_elsewhere writes y x Hin Hother Hy Hx _ _ Hsize Hrun).
  - intros before a after -> Ha Hafter.
    apply Forall_app in Hin as [Hbefore Hin]. apply Forall_cons in Hin as [Hina Hin].
    rewrite paint_all_app in Hrun.
    destruct (paint_all_sized before Hbefore pixels Hsize) as (pixels1 & Hrun1 & Hsize1).
    rewrite Hrun1 in Hrun. cbn [mbind res_bind Png.paint_all] in Hrun.
    destruct (set_pixel_ok pixels1 a Hsize1 Hina) as (pixels2 & Hset & Hsize2).
    rewrite Hset in Hrun. cbn [mbind res_bind] in Hrun.
    rewrite (paint_all_elsewhere after y x Hin Hafter Hy Hx _ _ Hsize2 Hrun).
    now apply (set_pixel_at pixels1 pixels2 a y x Hsize1 Hina Hy Hx Hset).
Qed.

End Painting.

Section DotsAndSegments.
Import Mapper.

(** The last assignment of a list that addresses a pixel. *)
Lemma last_addressing (y x : Z) (l : list Png.assign) :
  Exists (addresses y x) l ->
  exists before a after,
    l = before ++ a :: after /\ addresses y x a
    /\ Forall (fun a' => ~ addresses y x a') after.
Proof.
  induction l as [| a0 l IH]; intros Hex; [now apply Exists_nil in Hex |].
  destruct (decide (Exists (addresses y x) l)) as [Hl | Hl].
  - destruct (IH Hl) as (before & a & after & -> & Ha & Hafter).
    exists (a0 :: before), a, after. auto.
  - apply Exists_cons in Hex as [Ha0 | Hex]; [| contradiction].
    exists [], a0, l. split; [reflexivity |]. split; [exact Ha0 |].
    apply Forall_Exists_neg, Hl.
Qed.

(** A pixel shows the colour of the last group of assignments that
    addresses it, when the group paints it in one colour. *)
Lemma pixel_painted_by (before group after : list Png.assign) (c : Png.color)
    (pixels pixels' : list (list Png.color)) (y x : Z) :
  well_sized pixels -> Forall in_bounds (before ++ group ++ after) ->
  (0 <= y)%Z -> (0 <= x)%Z ->
  Png.paint_all pixels (before ++ group ++ after) = Ok pixels' ->
  Exists (addresses y x) group ->
  Forall (fun a => addresses y x a -> Png.value a = c) group ->
  Forall (fun a => ~ addresses y x a) after ->
  pixel_at pixels' y x = Some c.
Proof.
  intros Hsize Hin Hy Hx Hrun Hex Hcol Hafter.
  destruct (last_addressing y x group Hex) as (g1 & a & g2 & -> & Ha & Hg2).
  assert (Hc : Png.value a = c).
  { rewrite Forall_forall in Hcol. apply Hcol; [| exact Ha].
    apply elem_of_app. right. apply list_elem_of_here. }
  rewrite <- Hc.
  apply Forall_app in Hin as [Hin1 Hin2]. apply Forall_app in Hin2 as [Hin2 Hin3].
  apply Forall_app in Hin2 as [Hin2 Hin2']. apply Forall_cons in Hin2' as [Hina Hin2'].
  rewrite paint_all_app in Hrun.
  destruct (paint_all_sized before Hin1 pixels Hsize) as (p1 & Hrun1 & Hsize1).
  rewrite Hrun1 in Hrun. cbn [mbind res_bind] in Hrun.
  rewrite paint_all_app in Hrun.
  assert (Hgroup : exists p4,
             Png.paint_all p1 (g1 ++ a :: g2) = Ok p4 /\ well_sized p4
             /\ pixel_at p4 y x = Some (Png.value a)).
  { rewrite paint_all_app.
    destruct (paint_all_sized g1 Hin2 p1 Hsize1) as (p2 & Hrun2 & Hsize2).
    rewrite Hrun2. cbn [mbind res_bind Png.paint_all].
    destruct (set_pixel_ok p2 a Hsize2 Hina) as (p3 & Hset & Hsize3).
    rewrite Hset. cbn [mbind res_bind].
    destruct (paint_all_sized g2 Hin2' p3 Hsize3) as (p4 & Hrun4 & Hsize4).
    exists p4. split; [exact Hrun4 |]. split; [exact Hsize4 |].
    rewrite (paint_all_elsewhere g2 y x Hin2' Hg2 Hy Hx _ _ Hsize3 Hrun4).
    now apply (set_pixel_at p2 p3 a y x Hsize2 Hina Hy Hx Hset). }
  destruct Hgroup as (p4 & Hrun4 & Hsize4 & Hshown).
  rewrite Hrun4 in Hrun. cbn [mbind res_bind] in Hrun.
  rewrite (paint_all_elsewhere after y x Hin3 Hafter Hy Hx _ _ Hsize4 Hrun).
  exact Hshown.
Qed.

(** The end of the curve loop: the dot of the sample before the last,
    the segment to the last sample, the dot of the last sample. *)
Lemma curve_pixels_end (init : list (R * R)) (e1 m1 e2 m2 : R) :
  forall prev curve,
    Png.curve_pixels prev (init ++ [(e1, m1); (e2, m2)]) = Ok curve ->
    exists pre c1 c2,
      map_x e1 = Ok c1 /\ map_x e2 = Ok c2
      /\ curve = pre
                 ++ Png.point_pixels (int c1) (int (map_y m1))
                 ++ Png.line_pixels (int c1) (int (map_y m1)) (int c2) (int (map_y m2))
                 ++ Png.point_pixels (int c2) (int (map_y m2)).
Proof.
  induction init as [| [eth mult] init IH]; intros prev curve; cbn [app Png.curve_pixels].
  - destruct (map_x e1) as [c1 |]; cbn [mbind res_bind]; [| discriminate].
    destruct (map_x e2) as [c2 |]; cbn [mbind res_bind mret res_ret]; [| discriminate].
    intros Heq. apply Ok_inj in Heq. subst curve.
    exists (match prev with
            | Some (prev_x, prev_y) =>
                Png.line_pixels prev_x prev_y (int c1) (int (map_y m1))
            | None => []
            end), c1, c2.
    split; [reflexivity |]. split; [reflexivity |].
    rewrite !app_nil_r. reflexivity.
  - destruct (map_x eth) as [c |]; cbn [mbind res_bind]; [| discriminate].
    destruct (Png.curve_pixels _ (init ++ _)) as [later |] eqn:Hlater;
      cbn [mbind res_bind mret res_ret]; [| discriminate].
    intros Heq. apply Ok_inj in Heq. subst curve.
    destruct (IH _ _ Hlater) as (pre & c1 & c2 & H1 & H2 & ->).
    exists ((match prev with
             | Some (prev_x, prev_y) =>
                 Png.line_pixels prev_x prev_y (int c) (int (map_y mult))
             | None => []
             end)
            ++ Png.point_pixels (int c) (int (map_y mult)) ++ pre), c1, c2.
    split; [exact H1 |]. split; [exact H2 |].
    rewrite <- !app_assoc. reflexivity.
Qed.

Lemma line_pixels_start (prev_x prev_y x y : Z) :
  (prev_x, prev_y) <> (x, y) ->
  (0 <= prev_x < width)%Z -> (0 <= prev_y < height)%Z ->
  Png.Assign prev_y prev_x (255, 107, 107)%Z ∈ Png.line_pixels prev_x prev_y x y.
Proof.
  intros Hdiff Hpx Hpy. unfold Png.line_pixels.
  set (steps := Z.max (Z.abs (x - prev_x)) (Z.abs (y - prev_y))).
  assert (Hsteps : (0 < steps)%Z).
  { destruct (Z.eq_dec prev_x x) as [-> | Hne]; [| lia].
    destruct (Z.eq_dec prev_y y) as [-> | Hne]; [congruence | lia]. }
  rewrite bool_decide_eq_true_2 by lia.
  apply list_elem_of_bind. exists 0%Z. split; [| apply elem_of_range; lia].
  cbv zeta. rewrite !interpolate_start.
  rewrite !bool_decide_eq_true_2 by lia. cbn [andb]. apply elem_of_app. left.
  now apply list_elem_of_singleton.
Qed.

Lemma line_pixels_colour (prev_x prev_y x y : Z) :
  Forall (fun a => Png.value a = (255, 107, 107)%Z) (Png.line_pixels prev_x prev_y x y).
Proof.
  unfold Png.line_pixels.
  repeat match goal with
         | |- Forall _ [] => apply Forall_nil_2
         | |- Forall _ (_ :: _) => apply Forall_cons_2; [reflexivity |]
         | |- Forall _ (_ ++ _) => apply Forall_app_2
         | |- Forall _ (_ ≫= _) =>
             apply Forall_bind, Forall_forall; intros ? _; unfold compose; cbv beta zeta
         | |- Forall _ (if ?b then _ else _) => destruct b
         end.
Qed.

(** The pixel of a sample of the axis range. *)
Lemma sample_pixel (eth mult c : R) :
  0.0001 <= eth <= 200 -> 0 <= mult <= 10 -> map_x eth = Ok c ->
  (0 <= int c < width)%Z /\ (0 <= int (map_y mult) < height)%Z.
Proof.
  intros [Hlo Hhi] Hm Hc.
  destruct (map_x_cases 0.0001) as [[_ [c0 H0]] | [Hneg _]]; [| lra].
  destruct (map_x_cases 200) as [[_ [c6 H6]] | [Hneg _]]; [| lra].
  destruct (column_of_ends c0 c6 H0 H6) as [E0 E6].
  pose proof (column_monotone 0.0001 eth c0 c ltac:(lra) Hlo H0 Hc) as O1.
  pose proof (column_monotone eth 200 c c6 ltac:(lra) Hhi Hc H6) as O2.
  unfold margin, width, height in *. split; [lia |].
  assert (60 <= int (map_y mult) <= 540)%Z; [| lia].
  apply int_between. unfold map_y. rewrite chart_height_eq. unfold margin. lra.
Qed.

Lemma point_pixels_colour (x y : Z) :
  Forall (fun a => Png.value a = (200, 50, 50)%Z) (Png.point_pixels x y).
Proof. apply Forall_forall. intros a Ha. now apply point_pixels_elem in Ha. Qed.

(** X26: how the end of the curve shows in the fallback bitmap, for a
    dataset whose last two samples lie in the axis range (x from 0.0001
    to 200, multiplier from 0 to 10).  The dot of the last sample is
    whole: every pixel of the image within distance 3 of the last
    sample's pixel shows (200, 50, 50).  The dot of the sample before
    it is not: when its pixel is further than 3 from the last sample's
    pixel, that pixel shows the line colour (255, 107, 107), because the
    segment to the next sample is painted after the dot it starts
    from. *)
Theorem segment_overdraws_previous_dot
    (eth_amounts love_multipliers : list R) (init : list (R * R))
    (e1 m1 e2 m2 : R) (writes : list Png.assign) (pixels : list (list Png.color)) :
  zip eth_amounts love_multipliers = init ++ [(e1, m1); (e2, m2)] ->
  0.0001 <= e1 <= 200 -> 0 <= m1 <= 10 ->
  0.0001 <= e2 <= 200 -> 0 <= m2 <= 10 ->
  Png.assignments eth_amounts love_multipliers = Ok writes ->
  Png.paint_all Png.blank writes = Ok pixels ->
  exists c1 c2,
    map_x e1 = Ok c1 /\ map_x e2 = Ok c2
    /\ (forall x y : Z,
          (0 <= x < width)%Z -> (0 <= y < height)%Z ->
          ((x - int c2) * (x - int c2)
           + (y - int (map_y m2)) * (y - int (map_y m2)) <= 9)%Z ->
          pixel_at pixels y x = Some (200, 50, 50)%Z)
    /\ ((9 < (int c1 - int c2) * (int c1 - int c2)
              + (int (map_y m1) - int (map_y m2)) * (int (map_y m1) - int (map_y m2)))%Z ->
        pixel_at pixels (int (map_y m1)) (int c1) = Some (255, 107, 107)%Z).
Proof.
  intros Hzip He1 Hm1 He2 Hm2 Hwrites Hpixels.
  pose proof (assignments_in_bounds _ _ _ Hwrites) as Hin.
  unfold Png.assignments in Hwrites.
  destruct (mapM Png.zone_fill Png.fallback_zones) as [fills |];
    cbn [mbind res_bind] in Hwrites; [| discriminate].
  rewrite Hzip in Hwrites.
  destruct (Png.curve_pixels None _) as [curve |] eqn:Hcurve;
    cbn [mbind res_bind mret res_ret] in Hwrites; [| discriminate].
  apply Ok_inj in Hwrites. subst writes.
  destruct (curve_pixels_end init e1 m1 e2 m2 None curve Hcurve)
    as (pre & c1 & c2 & H1 & H2 & ->).
  exists c1, c2. split; [exact H1 |]. split; [exact H2 |].
  destruct (sample_pixel e1 m1 c1 He1 Hm1 H1) as [Hx1 Hy1].
  destruct (sample_pixel e2 m2 c2 He2 Hm2 H2) as [Hx2 Hy2].
  set (x1 := int c1) in *. set (y1 := int (map_y m1)) in *.
  set (x2 := int c2) in *. set (y2 := int (map_y m2)) in *.
  set (ground := concat fills ++ Png.border_pixels ++ Png.grid_pixels) in *.
  split.
  - intros x y Hx Hy Hdisc.
    apply (pixel_painted_by
             (ground ++ pre ++ Png.point_pixels x1 y1 ++ Png.line_pixels x1 y1 x2 y2)
             (Png.point_pixels x2 y2) [] (200, 50, 50)%Z Png.blank pixels y x
             blank_well_sized); try lia.
    + unfold ground. rewrite app_nil_r, <- ?app_assoc. rewrite <- ?app_assoc in Hin.
      exact Hin.
    + unfold ground. rewrite app_nil_r, <- ?app_assoc. rewrite <- ?app_assoc in Hpixels.
      exact Hpixels.
    + apply Exists_exists. exists (Png.Assign y x (200, 50, 50)%Z). split.
      * apply point_pixels_elem. cbn [Png.value Png.px Png.py].
        split; [reflexivity |]. split; [exact Hdisc |]. split; cbn [Png.py Png.px]; lia.
      * split; reflexivity.
    + eapply Forall_impl; [apply point_pixels_colour |]. cbn beta. auto.
    + constructor.
  - intros Hfar.
    apply (pixel_painted_by
             (ground ++ pre ++ Png.point_pixels x1 y1)
             (Png.line_pixels x1 y1 x2 y2) (Png.point_pixels x2 y2)
             (255, 107, 107)%Z Png.blank pixels y1 x1 blank_well_sized); try lia.
    + unfold ground. rewrite <- ?app_assoc. rewrite <- ?app_assoc in Hin. exact Hin.
    + unfold ground. rewrite <- ?app_assoc. rewrite <- ?app_assoc in Hpixels.
      exact Hpixels.
    + apply Exists_exists. exists (Png.Assign y1 x1 (255, 107, 107)%Z). split.
      * apply line_pixels_start; [| lia | lia]. intros [= Hx Hy]. subst x2 y2.
        rewrite <- Hx, <- Hy in Hfar. lia.
      * split; reflexivity.
    + eapply Forall_impl; [apply line_pixels_colour |]. cbn beta. auto.
    + apply Forall_forall. intros a Ha [Hpy Hpx].
      apply point_pixels_elem in Ha as (_ & Hdisc & _). rewrite Hpy, Hpx in Hdisc. lia.
Qed.

End DotsAndSegments.

Section DotsAndSegmentsExample.
Import Mapper.

Lemma segment_overdraws_previous_dot_witness :
  exists writes pixels c1 c2,
    Png.assignments [0.5; 2] [7; 0.5] = Ok writes
    /\ Png.paint_all Png.blank writes = Ok pixels
    /\ map_x 0.5 = Ok c1 /\ map_x 2 = Ok c2
    /\ pixel_at pixels (int (map_y 0.5)) (int c2) = Some (200, 50, 50)%Z
    /\ pixel_at pixels (int (map_y 7)) (int c1) = Some (255, 107, 107)%Z.
Proof.
  destruct (assignments_ok [0.5; 2] [7; 0.5]) as [writes Hwrites];
    [repeat constructor; lra |].
  destruct (paint_all_ok writes (assignments_in_bounds _ _ _ Hwrites) Png.blank
              blank_well_sized) as [pixels Hpixels].
  destruct (segment_overdraws_previous_dot [0.5; 2] [7; 0.5] [] 0.5 7 2 0.5 writes pixels
              eq_refl ltac:(lra) ltac:(lra) ltac:(lra) ltac:(lra) Hwrites Hpixels)
    as (c1 & c2 & H1 & H2 & Hdot & Hline).
  exists writes, pixels, c1, c2. repeat (split; [assumption |]).
  destruct (sample_pixel 2 0.5 c2 ltac:(lra) ltac:(lra) H2) as [Hx2 Hy2].
  assert (Ey1 : int (map_y 7) = 204%Z).
  { unfold map_y. rewrite chart_height_eq. unfold margin.
    replace (60 + (10 - 7) * 480 / 10) with (IZR 204) by lra. apply int_IZR. }
  assert (Ey2 : int (map_y 0.5) = 516%Z).
  { unfold map_y. rewrite chart_height_eq. unfold margin.
    replace (60 + (10 - 0.5) * 480 / 10) with (IZR 516) by lra. apply int_IZR. }
  split.
  - apply Hdot; [exact Hx2 | exact Hy2 | lia].
  - apply Hline. rewrite Ey1, Ey2.
    pose proof (Z.square_nonneg (int c1 - int c2)). lia.
Defined.

End DotsAndSegmentsExample.

(** ** Zone bands and zone names of the drawn charts *)

Section ZoneBands.
Import Mapper.

Lemma column_increasing (x1 x2 : R) :
  0 < x1 -> x1 < x2 ->
  margin + (log10r x1 - log10r 0.0001) / (log10r 200 - log10r 0.0001) * chart_width
  < margin + (log10r x2 - log10r 0.0001) / (log10r 200 - log10r 0.0001) * chart_width.
Proof.
  intros H1 H12. pose proof log_span_pos as Hspan.
  pose proof (log10r_increasing _ _ H1 H12) as Hlog. rewrite chart_width_eq.
  apply Rplus_lt_compat_l, Rmult_lt_compat_r; [lra |].
  apply Rmult_lt_compat_r; [now apply Rinv_0_lt_compat | lra].
Qed.

(** X27: the zone bands of the SVG chart and of the PIL drawing tile the
    chart from left to right.  There are seven columns, the first at
    [margin], the last at [margin + chart_width], each left of the next,
    such that band [k] of the SVG is the rectangle from column [k] with
    the width up to column [k + 1] and the full chart height, and band
    [k] of the PIL drawing is the box between the same two columns: the
    six bands leave no gap and do not overlap. *)
Theorem zone_bands_tile_axis :
  exists (rects : list Chart.elem) (boxes : list Png.draw) (columns : list R),
    mapM Chart.zone_rect Chart.zones = Ok rects
    /\ mapM Png.zone_rect Png.zones = Ok boxes
    /\ length rects = 6%nat /\ length boxes = 6%nat
    /\ columns !! 0%nat = Some (IZR margin)
    /\ columns !! 6%nat = Some (IZR (margin + chart_width))
    /\ forall k : nat,
         (k < 6)%nat ->
         exists a b fill rgb,
           columns !! k = Some a /\ columns !! S k = Some b /\ a < b
           /\ rects !! k = Some (Chart.Rect a margin (b - a) chart_height fill)
           /\ boxes !! k = Some (Png.Filled a margin b (height - margin)%Z (Png.Rgb rgb)).
Proof.
  pose proof log_span_pos as Hspan.
  set (column := fun x : R =>
         margin + (log10r x - log10r 0.0001) / (log10r 200 - log10r 0.0001) * chart_width).
  assert (Hcol : forall x, 0 < x -> map_x x = Ok (column x)) by (intros x Hx; now apply map_x_ok).
  eexists _, _, (map column [0.0001; 0.001; 0.1; 1; 10; 100; 200]).
  split; [| split].
  - unfold Chart.zones, Chart.zone_rect. cbn [mapM]. rewrite !Hcol by lra. reflexivity.
  - unfold Png.zones, Png.zone_rect. cbn [mapM]. rewrite !Hcol by lra. reflexivity.
  - split; [reflexivity |]. split; [reflexivity |]. split; [| split].
    + cbn. f_equal. unfold column. field. lra.
    + cbn. f_equal. unfold column. rewrite plus_IZR. field. lra.
    + intros k Hk.
      do 6 (destruct k as [| k]; [eexists _, _, _, _; cbn;
              repeat (split; [reflexivity |]); split; [| split; reflexivity];
              apply column_increasing; lra |]).
      lia.
Qed.

Lemma zone_bands_tile_axis_witness :
  exists (rects : list Chart.elem) (boxes : list Png.draw) (a b : R) (fill : string)
         (rgb : Png.color),
    mapM Chart.zone_rect Chart.zones = Ok rects
    /\ mapM Png.zone_rect Png.zones = Ok boxes
    /\ a < b
    /\ rects !! 2%nat = Some (Chart.Rect a margin (b - a) chart_height fill)
    /\ boxes !! 2%nat = Some (Png.Filled a margin b (height - margin)%Z (Png.Rgb rgb)).
Proof.
  destruct zone_bands_tile_axis as (rects & boxes & columns & Hr & Hb & _ & _ & _ & _ & Hk).
  destruct (Hk 2%nat ltac:(lia)) as (a & b & fill & rgb & _ & _ & Hab & Hrect & Hbox).
  exists rects, boxes, a, b, fill, rgb. auto.
Defined.

Lemma center_inside (a b : R) :
  0.0001 <= a -> a < b -> b <= 200 ->
  exists c, x_center a b = Ok c /\ margin < c < (width - margin)%Z.
Proof.
  intros Ha Hab Hb. pose proof log_span_pos as Hspan.
  rewrite x_center_ok by lra. eexists. split; [reflexivity |].
  assert (Hl1 : log10r 0.0001 <= log10r a).
  { destruct Ha as [Hlt | <-]; [left; apply log10r_increasing; lra | right; reflexivity]. }
  assert (Hl2 : log10r a < log10r b) by (apply log10r_increasing; lra).
  assert (Hl3 : log10r b <= log10r 200).
  { destruct Hb as [Hlt | ->]; [left; apply log10r_increasing; lra | right; reflexivity]. }
  set (q := ((log10r a + log10r b) / 2 - log10r 0.0001) / (log10r 200 - log10r 0.0001)).
  assert (Hq : 0 < q < 1).
  { unfold q. split.
    - apply Rmult_lt_0_compat; [lra | now apply Rinv_0_lt_compat].
    - apply Rmult_lt_reg_r with (log10r 200 - log10r 0.0001); [exact Hspan |].
      unfold Rdiv. rewrite Rmult_assoc, Rinv_l by lra. lra. }
  rewrite chart_width_eq, minus_IZR. unfold margin, width. nra.
Qed.

(** X28: the zone names stand at the same place in the SVG chart and in
    the PIL drawing.  Both put the name of a zone at the centre of the
    zone on the log axis, ten pixels above the chart; the PIL script
    draws a name only when its centre lies strictly inside the chart,
    and for the six zones it always does, so no name is dropped. *)
Theorem zone_names_agree :
  exists (labels : list Chart.elem) (names : list (list Png.draw)),
    mapM Chart.zone_label Chart.zones = Ok labels
    /\ mapM Png.zone_label Png.zones = Ok names
    /\ Forall2 (fun label name =>
                  exists (c : R) (text : string),
                    label = Chart.Label c (margin - 10)%Z [Str text]
                    /\ name = Png.DrawText c (margin - 10)%Z [Str text] (Png.Named "black")
                    /\ margin < c < (width - margin)%Z)
               labels (concat names)
    /\ map (fun z => z.2) Chart.zones = map (fun z => z.2) Png.zones
    /\ length labels = length Chart.zones.
Proof.
  destruct (center_inside 0.0001 0.001) as (c0 & H0 & I0); [lra | lra | lra |].
  destruct (center_inside 0.001 0.1) as (c1 & H1 & I1); [lra | lra | lra |].
  destruct (center_inside 0.1 1) as (c2 & H2 & I2); [lra | lra | lra |].
  destruct (center_inside 1 10) as (c3 & H3 & I3); [lra | lra | lra |].
  destruct (center_inside 10 100) as (c4 & H4 & I4); [lra | lra | lra |].
  destruct (center_inside 100 200) as (c5 & H5 & I5); [lra | lra | lra |].
  eexists _, _. split; [| split].
  - unfold Chart.zones, Chart.zone_label. cbn [mapM].
    rewrite H0, H1, H2, H3, H4, H5. reflexivity.
  - unfold Png.zones, Png.zone_label. cbn [mapM].
    rewrite H0, H1, H2, H3, H4, H5. cbn [mbind res_bind mret res_ret].
    rewrite !bool_decide_eq_true_2 by (unfold Rgt; tauto). reflexivity.
  - split; [| split; reflexivity]. cbn [concat app andb].
    repeat (constructor; [eexists _, _; split; [reflexivity |]; split; [reflexivity |];
                          assumption |]).
    constructor.
Qed.

End ZoneBands.

Section PilCurve.

(** X29: the curve of the PIL drawing joins consecutive points.  For a
    list of points the loop draws one segment less than there are points
    (none for an empty list or a single point), and segment [i] goes
    from point [i] to point [i + 1]. *)
Theorem pil_segments_join_consecutive_points (points : list (R * R)) :
  length (Png.segments points) = (length points - 1)%nat
  /\ forall (i : nat) (p q : R * R),
       points !! i = Some p -> points !! S i = Some q ->
       Png.segments points !! i = Some (Png.Segment p q (Png.Rgb (255, 107, 107)%Z)).
Proof.
  induction points as [| p0 [| p1 rest] IH].
  - split; [reflexivity | intros i p q Hp; discriminate Hp].
  - split; [reflexivity |]. intros [| i] p q Hp Hq; discriminate Hq.
  - destruct IH as [IHlen IHseg]. split.
    + change (Png.segments (p0 :: p1 :: rest))
        with (Png.Segment p0 p1 (Png.Rgb (255, 107, 107)%Z) :: Png.segments (p1 :: rest)).
      cbn [length] in *. lia.
    + intros [| i] p q Hp Hq.
      * cbn in Hp, Hq. apply (inj Some) in Hp, Hq. now subst.
      * change (Png.segments (p0 :: p1 :: rest) !! S i)
          with (Png.segments (p1 :: rest) !! i).
        apply IHseg; assumption.
Qed.

Lemma pil_segments_join_consecutive_points_witness :
  Png.segments [(60, 500); (100, 300); (200, 80)] !! 1%nat
  = Some (Png.Segment (100, 300) (200, 80) (Png.Rgb (255, 107, 107)%Z)).
Proof.
  apply (proj2 (pil_segments_join_consecutive_points [(60, 500); (100, 300); (200, 80)])
           1%nat (100, 300) (200, 80)); reflexivity.
Defined.

End PilCurve.

Section PaintingExample.
Import Mapper.

Lemma pixel_shows_last_assignment_witness :
  exists pixels,
    Png.paint_all Png.blank
      [Png.Assign 10 20 (0, 0, 0)%Z; Png.Assign 10 20 (200, 200, 200)%Z] = Ok pixels
    /\ pixel_at pixels 10 20 = Some (200, 200, 200)%Z.
Proof.
  assert (Hin : Forall in_bounds
                  [Png.Assign 10 20 (0, 0, 0)%Z; Png.Assign 10 20 (200, 200, 200)%Z]).
  { repeat constructor; cbn; unfold height, width; lia. }
  destruct (paint_all_ok _ Hin Png.blank blank_well_sized) as [pixels Hpixels].
  exists pixels. split; [exact Hpixels |].
  apply (proj2 (pixel_shows_last_assignment _ Png.blank pixels 10 20 blank_well_sized Hin
                  ltac:(lia) ltac:(lia) Hpixels)
           [Png.Assign 10 20 (0, 0, 0)%Z] (Png.Assign 10 20 (200, 200, 200)%Z) []).
  - reflexivity.
  - split; reflexivity.
  - constructor.
Defined.

End PaintingExample.
